(** * Aurora voice agent: the call dialogue and its two adapters

    A shallow embedding of
    - the telephony webhook  [app/api/twilio/voice/route.ts]  (module [Voice]),
    - the appointment endpoint  [app/api/appointments/route.ts]  (module [AppointmentsRoute]),
    - the simulator  [components/CallAgent.tsx]  (module [Simulator]),
    together with the libraries they import from [@/lib], which are modelled
    from the specification because their sources are not part of the tree. *)

From Stdlib Require Import ZArith String Ascii List Lia Bool.
From stdpp Require Import base option gmap strings.
Import ListNotations.

Local Open Scope string_scope.
Local Open Scope Z_scope.

(** ** JavaScript strings

    Strings are sequences of 8-bit code units (the characters below U+0100).
    [trim] strips the white space and line terminators of that range: codes
    9 to 13, 32 and 160 (the no-break space); the other characters
    [String.prototype.trim] strips lie above the range. *)
Module Str.

Definition isSpace (c : ascii) : bool :=
  let n := nat_of_ascii c in
  ((9 <=? n) && (n <=? 13))%nat || (n =? 32)%nat || (n =? 160)%nat.

Fixpoint trimStart (s : string) : string :=
  match s with
  | EmptyString => EmptyString
  | String c r => if isSpace c then trimStart r else s
  end.

Fixpoint rev (s acc : string) : string :=
  match s with
  | EmptyString => acc
  | String c r => rev r (String c acc)
  end.

Definition trimEnd (s : string) : string := rev (trimStart (rev s "")) "".

Definition trim (s : string) : string := trimEnd (trimStart s).

(** [s.length > 0] and the truthiness of a string. *)
Definition nonEmpty (s : string) : bool :=
  match s with EmptyString => false | String _ _ => true end.

Fixpoint startsWith (p s : string) : bool :=
  match p, s with
  | EmptyString, _ => true
  | String a p', String b s' => Ascii.eqb a b && startsWith p' s'
  | String _ _, EmptyString => false
  end.

(** [hay.includes(needle)] *)
Fixpoint includes (needle hay : string) : bool :=
  startsWith needle hay ||
  match hay with
  | EmptyString => false
  | String _ r => includes needle r
  end.

(** The propositional reading of [includes]. *)
Definition Includes (needle hay : string) : Prop :=
  exists pre post, hay = pre ++ needle ++ post.

Fixpoint join (sep : string) (l : list string) : string :=
  match l with
  | [] => ""
  | [x] => x
  | x :: r => x ++ sep ++ join sep r
  end.

Definition digit (n : Z) : ascii := ascii_of_nat (48 + Z.to_nat (n mod 10)).

(** [width] decimal digits of [n], most significant first, zero padded. *)
Fixpoint pad (width : nat) (n : Z) : string :=
  match width with
  | O => ""
  | S w => pad w (n / 10) ++ String (digit n) ""
  end.

Fixpoint decimalFuel (fuel : nat) (n : Z) : string :=
  match fuel with
  | O => ""
  | S f => if n <? 10 then String (digit n) ""
           else decimalFuel f (n / 10) ++ String (digit n) ""
  end.

(** Decimal rendering of an integer, as [String(n)] gives it. *)
Definition decimal (n : Z) : string :=
  if n <? 0 then "-" ++ decimalFuel (S (Z.to_nat (Z.log2 (- n)))) (- n)
  else decimalFuel (S (Z.to_nat (Z.log2 n))) n.

Definition isDigit (c : ascii) : bool :=
  let n := nat_of_ascii c in ((48 <=? n) && (n <=? 57))%nat.

Fixpoint numberAcc (s : string) (acc : Z) : option Z :=
  match s with
  | EmptyString => Some acc
  | String c r =>
      if isDigit c then numberAcc r (10 * acc + Z.of_nat (nat_of_ascii c) - 48)
      else None
  end.

(** A non-empty run of decimal digits read as a number. *)
Definition number (s : string) : option Z :=
  match s with
  | EmptyString => None
  | _ => numberAcc s 0
  end.

Definition lower (c : ascii) : ascii :=
  let n := nat_of_ascii c in
  if ((65 <=? n) && (n <=? 90))%nat then ascii_of_nat (n + 32) else c.

Fixpoint toLowerCase (s : string) : string :=
  match s with
  | EmptyString => EmptyString
  | String c r => String (lower c) (toLowerCase r)
  end.

End Str.

(** ** JavaScript values

    The values a parsed JSON body can hold.  A number is kept as the
    integer it denotes: the model is that of the integers a double holds
    exactly and prints as a plain numeral (magnitude below 2^53); fractions
    and larger magnitudes are outside it. *)
#[local] Set Warnings "-register-all".
Inductive json : Type :=
| JNull
| JBool (b : bool)
| JNum (n : Z)
| JStr (s : string)
| JArr (items : list json)
| JObj (fields : list (string * json)).

Module Js.

(** [!!v] *)
Definition truthy (v : json) : bool :=
  match v with
  | JNull => false
  | JBool b => b
  | JNum n => negb (n =? 0)
  | JStr s => Str.nonEmpty s
  | JArr _ | JObj _ => true
  end.

(** [JSON.parse] keeps the last of several bindings of one key. *)
Fixpoint lookupField (k : string) (fields : list (string * json)) : option json :=
  match fields with
  | [] => None
  | (k', v) :: rest =>
      match lookupField k rest with
      | Some w => Some w
      | None => if String.eqb k k' then Some v else None
      end
  end.

(** [v.k] for the field names of an appointment: an object yields its own
    property, every other non-nullish value has none ([None] is [undefined]). *)
Definition getProp (v : json) (k : string) : option json :=
  match v with
  | JObj fields => lookupField k fields
  | _ => None
  end.

(** [o ?? d] *)
Definition orElse (o : option json) (d : json) : json :=
  match o with
  | None | Some JNull => d
  | Some v => v
  end.

(** [String(v)], the conversion a template literal applies; [None] is the
    [TypeError] of an object whose own [toString] is not a function (no value
    of a JSON text is one). *)
Fixpoint toString (v : json) : option string :=
  match v with
  | JNull => Some "null"
  | JBool true => Some "true"
  | JBool false => Some "false"
  | JNum n => Some (Str.decimal n)
  | JStr s => Some s
  | JArr items =>
      Str.join "," <$>
        (fix each (l : list json) : option (list string) :=
           match l with
           | [] => Some []
           | x :: r =>
               match (match x with JNull => Some "" | _ => toString x end), each r with
               | Some a, Some b => Some (a :: b)
               | _, _ => None
               end
           end) items
  | JObj fields =>
      match lookupField "toString" fields with
      | Some _ => None
      | None => Some "[object Object]"
      end
  end.

(** A value the declared types make a string, used as one. *)
Definition asString (v : json) : string :=
  match v with
  | JStr s => s
  | _ => default "" (toString v)
  end.

End Js.

(** ** Dates

    A [Date] is its time value: milliseconds since the epoch, UTC. *)
Module Date.

Definition msPerDay : Z := 86400000.

(** Days since 1970-01-01 of a civil date of the proleptic Gregorian calendar. *)
Definition daysFromCivil (y m d : Z) : Z :=
  let y' := if m <=? 2 then y - 1 else y in
  let era := y' / 400 in
  let yoe := y' - era * 400 in
  let mp := (m + 9) mod 12 in
  let doy := (153 * mp + 2) / 5 + d - 1 in
  let doe := yoe * 365 + yoe / 4 - yoe / 100 + doy in
  era * 146097 + doe - 719468.

Definition civilFromDays (z : Z) : Z * Z * Z :=
  let z := z + 719468 in
  let era := z / 146097 in
  let doe := z - era * 146097 in
  let yoe := (doe - doe / 1460 + doe / 36524 - doe / 146096) / 365 in
  let doy := doe - (365 * yoe + yoe / 4 - yoe / 100) in
  let mp := (5 * doy + 2) / 153 in
  let d := doy - (153 * mp + 2) / 5 + 1 in
  let m := if mp <? 10 then mp + 3 else mp - 9 in
  let y := yoe + era * 400 in
  ((if m <=? 2 then y + 1 else y), m, d).

(** 0 is Sunday. *)
Definition weekday (day : Z) : Z := (day + 4) mod 7.

Definition yearString (y : Z) : string :=
  if (0 <=? y) && (y <=? 9999) then Str.pad 4 y
  else (if y <? 0 then "-" else "+") ++ Str.pad 6 (Z.abs y).

(** [Date.prototype.toISOString] *)
Definition toISOString (t : Z) : string :=
  let '(y, m, d) := civilFromDays (t / msPerDay) in
  let ms := t mod msPerDay in
  yearString y ++ "-" ++ Str.pad 2 m ++ "-" ++ Str.pad 2 d ++ "T" ++
  Str.pad 2 (ms / 3600000) ++ ":" ++ Str.pad 2 (ms / 60000 mod 60) ++ ":" ++
  Str.pad 2 (ms / 1000 mod 60) ++ "." ++ Str.pad 3 (ms mod 1000) ++ "Z".

Definition field (s : string) (from len : nat) : option Z :=
  Str.number (String.substring from len s).

(** The inverse of [toISOString] on years 0 to 9999; [None] is an invalid date. *)
Definition fromISOString (s : string) : option Z :=
  if negb (String.eqb (String.substring 4 1 s ++ String.substring 7 1 s ++
                       String.substring 10 1 s ++ String.substring 13 1 s ++
                       String.substring 16 1 s ++ String.substring 19 1 s ++
                       String.substring 23 2 s) "--T::.Z")
  then None
  else
    y ← field s 0 4; m ← field s 5 2; d ← field s 8 2;
    h ← field s 11 2; mi ← field s 14 2; sec ← field s 17 2; ms ← field s 20 3;
    Some (daysFromCivil y m d * msPerDay + h * 3600000 + mi * 60000 + sec * 1000 + ms).

End Date.

(** ** [@/lib/dateParser]

    The parser and the formatter are not part of the tree; both follow the
    specification's section on the date/time parser. *)
Module DateParser.

Definition isWordChar (c : ascii) : bool :=
  let n := nat_of_ascii c in
  Str.isDigit c || ((97 <=? n) && (n <=? 122))%nat || (n =? 58)%nat.

(** The words of a lower-cased phrase: maximal runs of letters, digits and
    colons, in the order they occur. *)
Fixpoint wordsAcc (s cur : string) : list string :=
  let flush := match cur with EmptyString => [] | _ => [Str.rev cur ""] end in
  match s with
  | EmptyString => flush
  | String c r =>
      if isWordChar c then wordsAcc r (String c cur)
      else (flush ++ wordsAcc r "")%list
  end.

Definition words (text : string) : list string :=
  wordsAcc (Str.toLowerCase text) "".

Definition table (A : Type) := list (string * A).

Fixpoint assoc {A} (k : string) (t : table A) : option A :=
  match t with
  | [] => None
  | (k', v) :: r => if String.eqb k k' then Some v else assoc k r
  end.

Definition weekdays : table Z :=
  [("sunday", 0); ("monday", 1); ("tuesday", 2); ("wednesday", 3);
   ("thursday", 4); ("friday", 5); ("saturday", 6)].

Definition months : table Z :=
  [("january", 1); ("february", 2); ("march", 3); ("april", 4); ("may", 5);
   ("june", 6); ("july", 7); ("august", 8); ("september", 9); ("october", 10);
   ("november", 11); ("december", 12)].

Definition ordinals : table Z :=
  [("first", 1); ("second", 2); ("third", 3); ("fourth", 4); ("fifth", 5);
   ("sixth", 6); ("seventh", 7); ("eighth", 8); ("ninth", 9); ("tenth", 10);
   ("eleventh", 11); ("twelfth", 12); ("thirteenth", 13); ("fourteenth", 14);
   ("fifteenth", 15); ("sixteenth", 16); ("seventeenth", 17);
   ("eighteenth", 18); ("nineteenth", 19); ("twentieth", 20);
   ("thirtieth", 30)].

Definition dropSuffix (suffix s : string) : option string :=
  let n := String.length s in
  let k := String.length suffix in
  if (k <=? n)%nat && String.eqb (String.substring (n - k) k s) suffix
  then Some (String.substring 0 (n - k) s) else None.

(** A day of the month: "5", "5th", "fifth". *)
Definition dayOfMonth (w : string) : option Z :=
  let numeral :=
    match Str.number w with
    | Some n => Some n
    | None =>
        match dropSuffix "st" w, dropSuffix "nd" w, dropSuffix "rd" w, dropSuffix "th" w with
        | Some p, _, _, _ | _, Some p, _, _ | _, _, Some p, _ | _, _, _, Some p =>
            Str.number p
        | _, _, _, _ => None
        end
    end in
  match numeral with
  | Some n => if (1 <=? n) && (n <=? 31) then Some n else None
  | None => assoc w ordinals
  end.

Inductive DateToken :=
| OnWeekday (next : bool) (wd : Z)
| OnMonthDay (month day : Z) (year : option Z)
| InDays (offset : Z).

(** The first date expression of a phrase. *)
Fixpoint findDate (ws : list string) : option DateToken :=
  match ws with
  | [] => None
  | w :: rest =>
      if String.eqb w "today" then Some (InDays 0)
      else if String.eqb w "tomorrow" then Some (InDays 1)
      else
        match assoc w weekdays, assoc w months, rest with
        | Some wd, _, _ => Some (OnWeekday false wd)
        | None, Some m, d :: rest' =>
            match dayOfMonth d with
            | Some n =>
                let year :=
                  match rest' with
                  | y :: _ =>
                      match Str.number y with
                      | Some v => if 1000 <=? v then Some v else None
                      | None => None
                      end
                  | [] => None
                  end in
                Some (OnMonthDay m n year)
            | None => findDate rest
            end
        | _, _, _ =>
            if String.eqb w "next" then
              match rest with
              | w' :: _ =>
                  match assoc w' weekdays with
                  | Some wd => Some (OnWeekday true wd)
                  | None => findDate rest
                  end
              | [] => None
              end
            else findDate rest
        end
  end.

Definition splitClock (w : string) : option (Z * Z) :=
  match String.index 0 ":" w with
  | Some i =>
      h ← Str.number (String.substring 0 i w);
      m ← Str.number (String.substring (S i) (String.length w - S i) w);
      if (m <? 60) then Some (h, m) else None
  | None => h ← Str.number w; Some (h, 0)
  end.

Definition meridiem (pm : bool) (hm : Z * Z) : option (Z * Z) :=
  let '(h, m) := hm in
  if (1 <=? h) && (h <=? 12)
  then Some ((if pm then 12 else 0) + h mod 12, m)
  else None.

Definition marker (ws : list string) : option bool :=
  match ws with
  | "am" :: _ | "a" :: "m" :: _ | "in" :: "the" :: "morning" :: _ => Some false
  | "pm" :: _ | "p" :: "m" :: _ | "in" :: "the" :: "afternoon" :: _
  | "in" :: "the" :: "evening" :: _ => Some true
  | _ => None
  end.

(** The first time-of-day expression of a phrase: a 12-hour clock time with
    its marker ("3 pm", "3:30pm", "9 in the morning"), or one of the words
    noon, morning, afternoon, evening. *)
Fixpoint findTime (ws : list string) : option (Z * Z) :=
  match ws with
  | [] => None
  | w :: rest =>
      let attached :=
        match dropSuffix "am" w, dropSuffix "pm" w with
        | Some p, _ => hm ← splitClock p; meridiem false hm
        | None, Some p => hm ← splitClock p; meridiem true hm
        | None, None => None
        end in
      let spaced :=
        match splitClock w, marker rest with
        | Some hm, Some pm => meridiem pm hm
        | _, _ => None
        end in
      match attached, spaced with
      | Some t, _ | None, Some t => Some t
      | None, None =>
          if String.eqb w "noon" then Some (12, 0)
          else if String.eqb w "morning" then Some (9, 0)
          else if String.eqb w "afternoon" then Some (15, 0)
          else if String.eqb w "evening" then Some (18, 0)
          else findTime rest
      end
  end.

Definition defaultTime : Z * Z := (9, 0).

Definition at_ (day : Z) (hm : Z * Z) : Z :=
  day * Date.msPerDay + fst hm * 3600000 + snd hm * 60000.

(** Modelled from the spec: [parseDateTime] of [@/lib/dateParser], whose
    source is missing.  A phrase with neither a date nor a time expression
    fails; a missing time is 9:00; a weekday is its nearest occurrence not
    before the reference (strictly after the reference's day with "next");
    a month and day without a year roll to the next year when they have
    passed.  A time alone is taken on the reference's day. *)
Definition parseDateTime (text : string) (reference : Z) : option Z :=
  let ws := words text in
  let today := reference / Date.msPerDay in
  let time := default defaultTime (findTime ws) in
  match findDate ws, findTime ws with
  | None, None => None
  | None, Some hm => Some (at_ today hm)
  | Some (InDays k), _ => Some (at_ (today + k) time)
  | Some (OnWeekday next wd), _ =>
      let delta := (wd - Date.weekday today) mod 7 in
      let same := at_ today time in
      let delta' :=
        if delta =? 0
        then (if next || (same <=? reference) then 7 else 0)
        else delta in
      Some (at_ (today + delta') time)
  | Some (OnMonthDay m d (Some y)), _ => Some (at_ (Date.daysFromCivil y m d) time)
  | Some (OnMonthDay m d None), _ =>
      let '(y, _, _) := Date.civilFromDays today in
      let this := at_ (Date.daysFromCivil y m d) time in
      if this <? reference then Some (at_ (Date.daysFromCivil (y + 1) m d) time)
      else Some this
  end.

Fixpoint hasDigit (w : string) : bool :=
  match w with
  | EmptyString => false
  | String c r => Str.isDigit c || hasDigit r
  end.

Definition keywords : list string :=
  ["today"; "tomorrow"; "noon"; "morning"; "afternoon"; "evening"].

(** A word the parser can take for (part of) a date or a time: a numeral, a
    weekday or month name, or one of the relative and time-of-day words. *)
Definition recognizable (w : string) : bool :=
  hasDigit w || existsb (String.eqb w) keywords ||
  bool_decide (is_Some (assoc w weekdays)) || bool_decide (is_Some (assoc w months)).

(** The parser finds neither a date expression nor a time expression in the
    phrase. *)
Definition noToken (text : string) : Prop :=
  findDate (words text) = None /\ findTime (words text) = None.

Definition weekdayNames : list string :=
  ["Sun"; "Mon"; "Tue"; "Wed"; "Thu"; "Fri"; "Sat"].
Definition monthNames : list string :=
  ["Jan"; "Feb"; "Mar"; "Apr"; "May"; "Jun"; "Jul"; "Aug"; "Sep"; "Oct"; "Nov"; "Dec"].

(** Modelled from the spec: [formatHumanReadable] of [@/lib/dateParser],
    whose source is missing: a rendering such as "Tue, Jun 10 at 2:00 PM". *)
Definition formatHumanReadable (iso : string) : string :=
  match Date.fromISOString iso with
  | None => "Invalid Date"
  | Some t =>
      let day := t / Date.msPerDay in
      let '(_, m, d) := Date.civilFromDays day in
      let ms := t mod Date.msPerDay in
      let h := ms / 3600000 in
      nth (Z.to_nat (Date.weekday day)) weekdayNames "" ++ ", " ++
      nth (Z.to_nat (m - 1)) monthNames "" ++ " " ++ Str.decimal d ++ " at " ++
      Str.decimal (if h mod 12 =? 0 then 12 else h mod 12) ++ ":" ++
      Str.pad 2 (ms / 60000 mod 60) ++ " " ++ (if h <? 12 then "AM" else "PM")
  end.

End DateParser.

(** ** [@/lib/appointmentsStore] *)
Module AppointmentsStore.

Record Appointment := mkAppointment {
  id : string;
  customerName : json;
  appointmentDateTime : json;
  reason : json;
  contactNumber : json;
  callSummary : json;
  createdAt : string
}.

(** The argument of [addAppointment]: an appointment without [id] and [createdAt]. *)
Record NewAppointment := mkNew {
  newCustomerName : json;
  newAppointmentDateTime : json;
  newContactNumber : json;
  newReason : json;
  newCallSummary : json
}.

(** The collection, most recent first. *)
Definition Store := list Appointment.

(** Modelled from the spec: [addAppointment] of [@/lib/appointmentsStore],
    whose source is missing.  The store assigns a unique [id] and the instant
    of creation, keeps the fields it is given, appends the record and returns
    it.  [uuid] and [now] are what the identifier generator and the clock
    yield at the call. *)
Definition addAppointment (fields : NewAppointment) (uuid : string) (now : Z)
    (store : Store) : Appointment * Store :=
  let appointment :=
    {| id := uuid;
       customerName := newCustomerName fields;
       appointmentDateTime := newAppointmentDateTime fields;
       reason := newReason fields;
       contactNumber := newContactNumber fields;
       callSummary := newCallSummary fields;
       createdAt := Date.toISOString now |} in
  (appointment, appointment :: store).

(** Modelled from the spec: [listAppointments], most recent first. *)
Definition listAppointments (store : Store) : list Appointment := store.

End AppointmentsStore.

(** ** [@/lib/callStateStore] *)
Module CallStateStore.

Inductive Phase :=
| greeting
| collecting_name
| collecting_datetime
| collecting_reason
| completed.

#[global] Instance Phase_eq_dec : EqDecision Phase.
Proof. solve_decision. Defined.

Record CallState := mkCallState {
  callId : string;
  phase : Phase;
  customerName : option string;
  appointmentDateTime : option string;
  reason : option string;
  contactNumber : option string
}.

Definition set_phase (p : Phase) (s : CallState) : CallState :=
  mkCallState (callId s) p (customerName s) (appointmentDateTime s) (reason s) (contactNumber s).
Definition set_customerName (v : string) (s : CallState) : CallState :=
  mkCallState (callId s) (phase s) (Some v) (appointmentDateTime s) (reason s) (contactNumber s).
Definition set_appointmentDateTime (v : string) (s : CallState) : CallState :=
  mkCallState (callId s) (phase s) (customerName s) (Some v) (reason s) (contactNumber s).
Definition set_reason (v : string) (s : CallState) : CallState :=
  mkCallState (callId s) (phase s) (customerName s) (appointmentDateTime s) (Some v) (contactNumber s).
Definition set_contactNumber (v : string) (s : CallState) : CallState :=
  mkCallState (callId s) (phase s) (customerName s) (appointmentDateTime s) (reason s) (Some v).

(** The keyed store.  It holds the state objects themselves: the object a
    handler gets from the store is the stored one. *)
Abbreviation Store := (gmap string CallState).

Definition initial (id : string) : CallState :=
  mkCallState id greeting None None None None.

(** Modelled from the spec: [getCallState] of [@/lib/callStateStore], whose
    source is missing: the state of the call, created in the store with phase
    [greeting] and nothing else set when the call has none. *)
Definition getCallState (id : string) (store : Store) : CallState * Store :=
  match store !! id with
  | Some s => (s, store)
  | None => (initial id, <[id := initial id]> store)
  end.

(** Modelled from the spec: [saveCallState], an upsert by [callId]. *)
Definition saveCallState (s : CallState) (store : Store) : Store :=
  <[callId s := s]> store.

(** Modelled from the spec: [clearCallState], removal by [callId]. *)
Definition clearCallState (id : string) (store : Store) : Store :=
  delete id store.

(** An assignment to a field of the object [getCallState id] returned: the
    store holds that object under [id], so it sees the new value. *)
Definition assign (id : string) (s : CallState) (store : Store) : Store :=
  <[id := s]> store.

(** Every state is stored under its own identifier. *)
Definition wf (store : Store) : Prop :=
  forall id s, store !! id = Some s -> callId s = id.

(** The phase of a call as the next turn will find it. *)
Definition phaseOf (id : string) (store : Store) : Phase :=
  phase (fst (getCallState id store)).

Definition rank (p : Phase) : Z :=
  match p with
  | greeting => 0
  | collecting_name => 1
  | collecting_datetime => 2
  | collecting_reason => 3
  | completed => 4
  end.

End CallStateStore.

(** ** The telephony webhook, [app/api/twilio/voice/route.ts] *)
Module Voice.
Import CallStateStore.

(** What the handler reads of a request: the [step] query parameter, the
    origin of the URL and four fields of the form ([None] when absent). *)
Record Request := mkRequest {
  stepParam : option string;
  origin : string;
  formCallSid : option string;
  formFrom : option string;
  formSpeechResult : option string;
  formDigits : option string
}.

(** What the surroundings yield during one request: [crypto.randomUUID()] in
    the handler, the identifier generator of the appointment store, and the
    clock. *)
Record Env := mkEnv {
  randomUUID : string;
  appointmentUUID : string;
  now : Z
}.

Record World := mkWorld {
  calls : gmap string CallState;
  appointments : AppointmentsStore.Store
}.

(** The two shapes of reply: [gatherPrompt] asks and names the next step,
    [sayMessage] speaks and hangs up. *)
Inductive Twiml :=
| gatherPrompt (prompt step origin : string)
| sayMessage (message : string).

Definition lf : string := String (ascii_of_nat 10) "".
Definition quote : string := String (ascii_of_nat 34) "".

Definition xmlHeader : string :=
  "<?xml version=" ++ quote ++ "1.0" ++ quote ++ " encoding=" ++ quote ++ "UTF-8" ++ quote ++ "?>".

Definition render (t : Twiml) : string :=
  match t with
  | gatherPrompt prompt step origin =>
      let actionUrl := origin ++ "/api/twilio/voice?step=" ++ step in
      xmlHeader ++ lf ++
      "<Response>" ++ lf ++
      "  <Gather input=" ++ quote ++ "speech dtmf" ++ quote ++ " method=" ++ quote ++ "POST" ++ quote ++
      " action=" ++ quote ++ actionUrl ++ quote ++ " speechTimeout=" ++ quote ++ "auto" ++ quote ++ ">" ++ lf ++
      "    <Say>" ++ prompt ++ "</Say>" ++ lf ++
      "  </Gather>" ++ lf ++
      "  <Say>I did not catch that.</Say>" ++ lf ++
      "  <Redirect method=" ++ quote ++ "POST" ++ quote ++ ">" ++ actionUrl ++ "</Redirect>" ++ lf ++
      "</Response>"
  | sayMessage message =>
      xmlHeader ++ lf ++
      "<Response>" ++ lf ++
      "  <Say>" ++ message ++ "</Say>" ++ lf ++
      "  <Hangup />" ++ lf ++
      "</Response>"
  end.

Record Response := mkResponse {
  status : Z;
  contentType : string;
  body : string
}.

Definition xmlResponse (t : Twiml) : Response :=
  {| status := 200; contentType := "text/xml"; body := render t |}.

Definition ensureSpeechResult (value : option string) : option string :=
  match value with
  | Some v => if Str.nonEmpty (Str.trim v) then Some (Str.trim v) else None
  | None => None
  end.

(** Truthiness of an optional string: set and not empty. *)
Definition present (o : option string) : bool :=
  match o with
  | Some s => Str.nonEmpty s
  | None => false
  end.

Definition terminal (t : Twiml) : bool :=
  match t with sayMessage _ => true | gatherPrompt _ _ _ => false end.

Definition promptOf (t : Twiml) : string :=
  match t with sayMessage m => m | gatherPrompt p _ _ => p end.

(** The step the reply asks the caller's next turn to be posted to. *)
Definition nextStep (t : Twiml) : option string :=
  match t with sayMessage _ => None | gatherPrompt _ s _ => Some s end.

(** [form.get("CallSid") ?? crypto.randomUUID()] *)
Definition callSidOf (request : Request) (env : Env) : string :=
  default (randomUUID env) (formCallSid request).

(** The transcribed speech, else the dialled digits. *)
Definition speechResultOf (request : Request) : option string :=
  match ensureSpeechResult (formSpeechResult request) with
  | Some s => Some s
  | None => ensureSpeechResult (formDigits request)
  end.

Section Handler.

(** The two functions of [@/lib/dateParser]; the parser's reference instant
    is the clock's reading. *)
Variable parseDateTime : string -> Z -> option Z.
Variable formatHumanReadable : string -> string.

(** The dialogue of [POST]: the new stores and the reply. *)
Definition handle (request : Request) (env : Env) (w : World) : World * Twiml :=
  let step := default "init" (stepParam request) in
  let callSid := callSidOf request env in
  let callerNumber := formFrom request in
  let speechResult := speechResultOf request in
  let '(state, store) := getCallState callSid (calls w) in
  let state :=
    if present callerNumber
    then set_contactNumber (default "" callerNumber) state
    else state in
  let store := assign callSid state store in
  let gather prompt next := gatherPrompt prompt next (origin request) in
  if String.eqb step "init" then
    (mkWorld (saveCallState state store) (appointments w),
     gather "Hello! You have reached the Horizon Clinic virtual scheduling assistant. May I have your full name?" "name")
  else if String.eqb step "name" then
    match speechResult with
    | None =>
        (mkWorld store (appointments w),
         gather "I did not hear a name. Could you please tell me your full name?" "name")
    | Some speech =>
        let state := set_phase collecting_datetime (set_customerName speech state) in
        let store := assign callSid state store in
        (mkWorld (saveCallState state store) (appointments w),
         gather ("Thanks " ++ speech ++ ". What day and time would you like to book the appointment for?") "datetime")
    end
  else if String.eqb step "datetime" then
    match speechResult with
    | None =>
        (mkWorld store (appointments w),
         gather "I didn't catch the appointment time. Please share the day and time you'd prefer." "datetime")
    | Some speech =>
        match parseDateTime speech (now env) with
        | None =>
            (mkWorld store (appointments w),
             gather "I'm sorry, I couldn't understand that date. Please state something like Friday at 2 PM or June fifth at 9 in the morning." "datetime")
        | Some parsed =>
            let state :=
              set_phase collecting_reason
                (set_appointmentDateTime (Date.toISOString parsed) state) in
            let store := assign callSid state store in
            (mkWorld (saveCallState state store) (appointments w),
             gather "Great. What is the reason for your visit so I can let the practitioner prepare?" "reason")
        end
    end
  else if String.eqb step "reason" then
    match speechResult with
    | None =>
        (mkWorld store (appointments w),
         gather "Could you quickly describe the reason for your appointment?" "reason")
    | Some speech =>
        let state := set_phase completed (set_reason speech state) in
        let store := saveCallState state (assign callSid state store) in
        if negb (present (customerName state)) || negb (present (appointmentDateTime state))
           || negb (present (reason state))
        then
          (mkWorld store (appointments w),
           sayMessage "It seems I am missing some information to complete the booking. Please try again later or reach out to our reception team.")
        else
          let name := default "" (customerName state) in
          let '(appointment, booked) :=
            AppointmentsStore.addAppointment
              {| AppointmentsStore.newCustomerName := JStr name;
                 AppointmentsStore.newAppointmentDateTime :=
                   JStr (default "" (appointmentDateTime state));
                 AppointmentsStore.newContactNumber :=
                   JStr (default "Unknown" (contactNumber state));
                 AppointmentsStore.newReason := JStr (default "" (reason state));
                 AppointmentsStore.newCallSummary :=
                   JStr ("AI assistant booked for " ++ name ++ " to discuss " ++
                         default "" (reason state) ++ ".") |}
              (appointmentUUID env) (now env) (appointments w) in
          let store := clearCallState callSid store in
          let friendlyDate :=
            formatHumanReadable
              (Js.asString (AppointmentsStore.appointmentDateTime appointment)) in
          (mkWorld store booked,
           sayMessage ("Thanks " ++ Js.asString (AppointmentsStore.customerName appointment) ++
                       ". I have scheduled your appointment for " ++ friendlyDate ++
                       ". We look forward to seeing you then."))
    end
  else
    (mkWorld store (appointments w),
     sayMessage "I'm sorry, something went wrong while handling your request. Please try again later.").

(** [POST]: the reply as an HTTP response. *)
Definition POST (request : Request) (env : Env) (w : World) : World * Response :=
  let '(w', reply) := handle request env w in (w', xmlResponse reply).

(** The handler's prompts, by name. *)
Definition askName : string :=
  "Hello! You have reached the Horizon Clinic virtual scheduling assistant. May I have your full name?".
Definition retryName : string :=
  "I did not hear a name. Could you please tell me your full name?".
Definition retryDatetime : string :=
  "I didn't catch the appointment time. Please share the day and time you'd prefer.".
Definition clarifyDatetime : string :=
  "I'm sorry, I couldn't understand that date. Please state something like Friday at 2 PM or June fifth at 9 in the morning.".
Definition askReason : string :=
  "Great. What is the reason for your visit so I can let the practitioner prepare?".
Definition retryReason : string :=
  "Could you quickly describe the reason for your appointment?".
Definition apology : string :=
  "It seems I am missing some information to complete the booking. Please try again later or reach out to our reception team.".
Definition wentWrong : string :=
  "I'm sorry, something went wrong while handling your request. Please try again later.".

(** The state object [POST] works on, after the caller's number is noted. *)
Definition entry (request : Request) (env : Env) (w : World) : CallState :=
  let state := fst (getCallState (callSidOf request env) (calls w)) in
  if present (formFrom request)
  then set_contactNumber (default "" (formFrom request)) state
  else state.

(** The store at that point: it holds [entry] under the call's identifier. *)
Definition opened (request : Request) (env : Env) (w : World) : gmap string CallState :=
  assign (callSidOf request env) (entry request env w)
    (snd (getCallState (callSidOf request env) (calls w))).

(** A call driven turn by turn. *)
Fixpoint run (turns : list (Request * Env)) (w : World) : World * list Twiml :=
  match turns with
  | [] => (w, [])
  | (request, env) :: rest =>
      let '(w1, reply) := handle request env w in
      let '(w2, replies) := run rest w1 in
      (w2, reply :: replies)
  end.

(** The worlds a sequence of turns goes through, one per turn. *)
Fixpoint worlds (turns : list (Request * Env)) (w : World) : list World :=
  match turns with
  | [] => []
  | (request, env) :: rest =>
      let w' := fst (handle request env w) in
      w' :: worlds rest w'
  end.

(** The step the stored phase awaits: the replies name [name] while the phase
    is [greeting], [datetime] at [collecting_datetime] and [reason] at
    [collecting_reason]; [init] and unknown steps are accepted anywhere. *)
Definition awaits (p : Phase) (step : string) : bool :=
  if String.eqb step "name" then bool_decide (p = greeting)
  else if String.eqb step "datetime" then bool_decide (p = collecting_datetime)
  else if String.eqb step "reason" then bool_decide (p = collecting_reason)
  else true.

(** Every turn of call [id] is posted to the step its stored phase awaits. *)
Fixpoint conforms (id : string) (turns : list (Request * Env)) (w : World) : bool :=
  match turns with
  | [] => true
  | (request, env) :: rest =>
      (negb (String.eqb (callSidOf request env) id)
       || awaits (phaseOf id (calls w)) (default "init" (stepParam request)))
      && conforms id rest (fst (handle request env w))
  end.

(** The appointments [w'] holds and [w] does not yet. *)
Definition created (w w' : World) : list AppointmentsStore.Appointment :=
  take (length (appointments w') - length (appointments w)) (appointments w').

(** The appointments the turns of call [id] create. *)
Fixpoint bookedBy (id : string) (turns : list (Request * Env)) (w : World)
  : list AppointmentsStore.Appointment :=
  match turns with
  | [] => []
  | (request, env) :: rest =>
      let w' := fst (handle request env w) in
      ((if String.eqb (callSidOf request env) id then created w w' else [])
       ++ bookedBy id rest w')%list
  end.

End Handler.

(** The order in which the handler assigns phases. *)
Definition next (p : Phase) : Phase :=
  match p with
  | greeting => collecting_datetime
  | collecting_name => collecting_datetime
  | collecting_datetime => collecting_reason
  | collecting_reason => completed
  | completed => completed
  end.

(** One turn's change of the phase of call [id]: none, one step forward, or
    the removal of the state when the booking is made. *)
Definition forward (id : string) (w w' : World) : Prop :=
  let p := phaseOf id (calls w) in
  let q := phaseOf id (calls w') in
  q = p \/ (p <> collecting_name /\ q = next p) \/
  (p = collecting_reason /\ calls w' !! id = None).

Fixpoint forwardAlong (id : string) (w : World) (ws : list World) : Prop :=
  match ws with
  | [] => True
  | w' :: rest => forward id w w' /\ forwardAlong id w' rest
  end.

(** The contact number call [id] has on record, if any. *)
Definition contactNumberOf (id : string) (w : World) : option string :=
  contactNumber (fst (getCallState id (calls w))).

End Voice.

(** ** The appointment endpoint, [app/api/appointments/route.ts] *)
Module AppointmentsRoute.
Import AppointmentsStore.

(** [await request.json()]: the parsed body, or the error it throws. *)
Inductive Body :=
| Parsed (payload : json)
| Thrown (message : string).

Inductive Reply :=
| Created (appointment : Appointment)     (* status 201 *)
| BadRequest (error : string).            (* status 400 *)

Definition status (r : Reply) : Z :=
  match r with Created _ => 201 | BadRequest _ => 400 end.

(** [GET] *)
Definition GET (store : Store) : list Appointment := listAppointments store.

(** [POST]; [uuid] and [now] are what the store's identifier generator and
    clock yield. *)
Definition POST (body : Body) (uuid : string) (now : Z) (store : Store) : Store * Reply :=
  match body with
  | Thrown message => (store, BadRequest message)
  | Parsed payload =>
      if negb (Js.truthy payload) then (store, BadRequest "Request body missing")
      else
        let summary :=
          match Js.getProp payload "callSummary" with
          | None | Some JNull =>
              match Js.toString (Js.orElse (Js.getProp payload "customerName") (JStr "client")) with
              | Some name => Some (JStr ("Conversation booked for " ++ name ++ "."))
              | None => None
              end
          | Some v => Some v
          end in
        match summary with
        | None => (store, BadRequest "Cannot convert object to primitive value")
        | Some callSummary =>
            let '(appointment, store') :=
              addAppointment
                {| newContactNumber := Js.orElse (Js.getProp payload "contactNumber") (JStr "Unknown");
                   newCustomerName := Js.orElse (Js.getProp payload "customerName") (JStr "");
                   newAppointmentDateTime :=
                     Js.orElse (Js.getProp payload "appointmentDateTime") (JStr "");
                   newReason := Js.orElse (Js.getProp payload "reason") (JStr "");
                   newCallSummary := callSummary |}
                uuid now store in
            (store', Created appointment)
        end
  end.

End AppointmentsRoute.

(** ** The simulator, [components/CallAgent.tsx] *)
Module Simulator.

Inductive Speaker := agent | caller.

Record AppointmentForm := mkForm {
  name : option string;
  requestedSlot : option string;
  reason : option string;
  phoneNumber : option string
}.

Definition agentSteps : list (string * string) :=
  [("greeting",
    "Hello! This is Aurora, the autonomous scheduling assistant for Horizon Clinic. Thanks for calling. Who do I have the pleasure of speaking with today?");
   ("datetime", "Perfect, thank you. What day and time works best for your visit?");
   ("reason",
    "Got it. Lastly, could you share the reason for your appointment so the provider can prepare?");
   ("confirm", "Thanks! Let me process that for you and lock in the appointment.")].

Definition promptAt (i : nat) : string := snd (nth i agentSteps ("", "")).

(** What a [window.setTimeout] callback of the component does when it fires. *)
Inductive Timer :=
| startFirstStep            (* [setCurrentStepIdx(0)] and the first prompt *)
| sayLater (text : string).

(** The state of the component.  A transcript entry is kept as its speaker and
    text; [timers] are the callbacks scheduled and not yet fired, oldest first. *)
Record State := mkState {
  appointments : list AppointmentsStore.Appointment;
  transcript : list (Speaker * string);
  callActive : bool;
  callerNumber : string;
  currentStepIdx : Z;
  pendingResponse : string;
  form : AppointmentForm;
  callCompleted : bool;
  isSubmitting : bool;
  error : option string;
  timers : list Timer
}.

Definition activeStep (s : State) : option string :=
  if 0 <=? currentStepIdx s
  then fst <$> nth_error agentSteps (Z.to_nat (currentStepIdx s))
  else None.

Definition pushTranscript (who : Speaker) (text : string) (s : State) : State :=
  mkState (appointments s) (transcript s ++ [(who, text)])%list (callActive s) (callerNumber s)
    (currentStepIdx s) (pendingResponse s) (form s) (callCompleted s) (isSubmitting s)
    (error s) (timers s).

Definition setTimeout (t : Timer) (s : State) : State :=
  mkState (appointments s) (transcript s) (callActive s) (callerNumber s)
    (currentStepIdx s) (pendingResponse s) (form s) (callCompleted s) (isSubmitting s)
    (error s) (timers s ++ [t])%list.

Definition setCurrentStepIdx (i : Z) (s : State) : State :=
  mkState (appointments s) (transcript s) (callActive s) (callerNumber s)
    i (pendingResponse s) (form s) (callCompleted s) (isSubmitting s) (error s) (timers s).

Definition setForm (f : AppointmentForm -> AppointmentForm) (s : State) : State :=
  mkState (appointments s) (transcript s) (callActive s) (callerNumber s)
    (currentStepIdx s) (pendingResponse s) (f (form s)) (callCompleted s) (isSubmitting s)
    (error s) (timers s).

Definition setPendingResponse (v : string) (s : State) : State :=
  mkState (appointments s) (transcript s) (callActive s) (callerNumber s)
    (currentStepIdx s) v (form s) (callCompleted s) (isSubmitting s) (error s) (timers s).

Definition setError (v : option string) (s : State) : State :=
  mkState (appointments s) (transcript s) (callActive s) (callerNumber s)
    (currentStepIdx s) (pendingResponse s) (form s) (callCompleted s) (isSubmitting s)
    v (timers s).

Definition setCallCompleted (v : bool) (s : State) : State :=
  mkState (appointments s) (transcript s) (callActive s) (callerNumber s)
    (currentStepIdx s) (pendingResponse s) (form s) v (isSubmitting s) (error s) (timers s).

Definition setIsSubmitting (v : bool) (s : State) : State :=
  mkState (appointments s) (transcript s) (callActive s) (callerNumber s)
    (currentStepIdx s) (pendingResponse s) (form s) (callCompleted s) v (error s) (timers s).

Definition setAppointments (v : list AppointmentsStore.Appointment) (s : State) : State :=
  mkState v (transcript s) (callActive s) (callerNumber s)
    (currentStepIdx s) (pendingResponse s) (form s) (callCompleted s) (isSubmitting s)
    (error s) (timers s).

Definition initialState (initialAppointments : list AppointmentsStore.Appointment) : State :=
  mkState initialAppointments [] false "+1 555 010 1987" (-1) "" (mkForm None None None None)
    false false None [].

Definition resetCall (s : State) : State :=
  mkState (appointments s) [] false (callerNumber s) (-1) ""
    (mkForm None None None (Some (callerNumber s))) false (isSubmitting s) None (timers s).

Definition beginCall (s : State) : State :=
  let s := resetCall s in
  let s :=
    mkState (appointments s) (transcript s) true (callerNumber s) (currentStepIdx s)
      (pendingResponse s) (form s) (callCompleted s) (isSubmitting s) (error s) (timers s) in
  let s :=
    setForm (fun prev => mkForm (name prev) (requestedSlot prev) (reason prev)
                           (Some (callerNumber s))) s in
  setTimeout startFirstStep s.

(** The oldest scheduled callback fires.  The delays (300 ms for the first
    prompt, 450 ms for the others) are not part of the state, so this is the
    order of firing only while one callback is pending, as it is between the
    turns of a call; [fireAt] leaves the order open. *)
Definition fire (s : State) : State :=
  match timers s with
  | [] => s
  | t :: rest =>
      let s :=
        mkState (appointments s) (transcript s) (callActive s) (callerNumber s)
          (currentStepIdx s) (pendingResponse s) (form s) (callCompleted s) (isSubmitting s)
          (error s) rest in
      match t with
      | startFirstStep => pushTranscript agent (promptAt 0) (setCurrentStepIdx 0 s)
      | sayLater text => pushTranscript agent text s
      end
  end.

Fixpoint removeAt {A} (i : nat) (l : list A) : list A :=
  match l, i with
  | [], _ => []
  | _ :: rest, O => rest
  | x :: rest, S k => x :: removeAt k rest
  end.

(** The [i]-th scheduled callback fires, whichever is due first. *)
Definition fireAt (i : nat) (s : State) : State :=
  match nth_error (timers s) i with
  | None => s
  | Some t =>
      let s :=
        mkState (appointments s) (transcript s) (callActive s) (callerNumber s)
          (currentStepIdx s) (pendingResponse s) (form s) (callCompleted s) (isSubmitting s)
          (error s) (removeAt i (timers s)) in
      match t with
      | startFirstStep => pushTranscript agent (promptAt 0) (setCurrentStepIdx 0 s)
      | sayLater text => pushTranscript agent text s
      end
  end.

(** The state in which the handler has accepted the typed text. *)
Definition accepted (s : State) : State :=
  setPendingResponse ""
    (pushTranscript caller (Str.trim (pendingResponse s)) (setError None s)).

(** What the surroundings yield during one submission: the browser's clock,
    whether each of the two requests reaches the server and is answered, and
    the server's identifier generator and clock. *)
Record Env := mkEnv {
  now : Z;
  postAnswered : bool;
  getAnswered : bool;
  serverUUID : string;
  serverNow : Z
}.

(** The browser and the server it talks to. *)
Record World := mkWorld {
  ui : State;
  server : AppointmentsStore.Store
}.

(** The body of the request as the server parses it back. *)
Definition payloadJson (customerName appointmentDateTime reason contactNumber callSummary : string)
  : json :=
  JObj [("customerName", JStr customerName);
        ("appointmentDateTime", JStr appointmentDateTime);
        ("reason", JStr reason);
        ("contactNumber", JStr contactNumber);
        ("callSummary", JStr callSummary)].

Section Component.

Variable parseDateTime : string -> Z -> option Z.
Variable formatHumanReadable : string -> string.

(** [fetchAppointments] *)
Definition fetchAppointments (env : Env) (w : World) : World :=
  if getAnswered env
  then mkWorld (setAppointments (AppointmentsRoute.GET (server w)) (ui w)) (server w)
  else w.

Definition handleSubmitResponse (env : Env) (w : World) : World :=
  let s := ui w in
  if negb (callActive s) || isSubmitting s then w
  else if negb (Str.nonEmpty (Str.trim (pendingResponse s))) then
    mkWorld (setError (Some "Please provide a response before continuing.") s) (server w)
  else
    let s := setError None s in
    let responseText := Str.trim (pendingResponse s) in
    let s := pushTranscript caller responseText s in
    let s := setPendingResponse "" s in
    let step := activeStep (ui w) in
    let f := form (ui w) in
    if bool_decide (step = Some "greeting") then
      let s := setForm (fun prev => mkForm (Some responseText) (requestedSlot prev)
                                      (reason prev) (phoneNumber prev)) s in
      let s := setCurrentStepIdx 1 s in
      mkWorld (setTimeout (sayLater (promptAt 1)) s) (server w)
    else if bool_decide (step = Some "datetime") then
      match parseDateTime responseText (now env) with
      | None =>
          mkWorld
            (pushTranscript agent
               "Apologies, I couldn't recognise that time. Could you rephrase it, for example next Tuesday at 3 PM?"
               s)
            (server w)
      | Some parsed =>
          let s := setForm (fun prev => mkForm (name prev) (Some (Date.toISOString parsed))
                                          (reason prev) (phoneNumber prev)) s in
          let s := setCurrentStepIdx 2 s in
          mkWorld (setTimeout (sayLater (promptAt 2)) s) (server w)
      end
    else if bool_decide (step = Some "reason") then
      let s := setForm (fun prev => mkForm (name prev) (requestedSlot prev)
                                      (Some responseText) (phoneNumber prev)) s in
      let s := setCurrentStepIdx 3 s in
      let s := pushTranscript agent (promptAt 3) s in
      let s := setIsSubmitting true s in
      let appointmentDate := default (Date.toISOString (now env)) (requestedSlot f) in
      let payload :=
        payloadJson (default "Caller" (name f)) appointmentDate responseText
          (default "N/A" (phoneNumber f))
          ("AI agent booked " ++ default "caller" (name f) ++ " for " ++ responseText ++ ".") in
      let failed (s : State) (srv : AppointmentsStore.Store) :=
        mkWorld
          (pushTranscript agent
             "There was an issue locking in the appointment, but I captured your details. A team member will follow up shortly."
             (setIsSubmitting false s))
          srv in
      if postAnswered env then
        match AppointmentsRoute.POST (AppointmentsRoute.Parsed payload)
                (serverUUID env) (serverNow env) (server w) with
        | (srv, AppointmentsRoute.Created _) =>
            let w' := fetchAppointments env (mkWorld s srv) in
            let s := setIsSubmitting false (setCallCompleted true (ui w')) in
            let summaryDate := formatHumanReadable appointmentDate in
            mkWorld
              (pushTranscript agent
                 ("All set! I have you on the schedule for " ++ summaryDate ++
                  ". You'll also get a confirmation text shortly. Have a wonderful day!")
                 s)
              (server w')
        | (srv, AppointmentsRoute.BadRequest _) => failed s srv
        end
      else failed s (server w)
    else mkWorld s (server w).

End Component.

End Simulator.

(** ** The two adapters side by side *)
Module Lockstep.

(** What the dialogue is waiting for. *)
Inductive Stage :=
| awaitingName
| awaitingDatetime
| awaitingReason
| finished.

(** A call on the webhook: the stores and the step the last reply named
    ([None] once the reply hung up). *)
Record VoiceCall := mkVoiceCall {
  world : Voice.World;
  awaiting : option string
}.

Definition voiceStage (c : VoiceCall) : Stage :=
  match awaiting c with
  | None => finished
  | Some step =>
      if String.eqb step "name" then awaitingName
      else if String.eqb step "datetime" then awaitingDatetime
      else if String.eqb step "reason" then awaitingReason
      else finished
  end.

Definition simStage (w : Simulator.World) : Stage :=
  match Simulator.activeStep (Simulator.ui w) with
  | Some step =>
      if String.eqb step "greeting" then awaitingName
      else if String.eqb step "datetime" then awaitingDatetime
      else if String.eqb step "reason" then awaitingReason
      else finished
  | None => finished
  end.

(** The webhook's side of the surroundings of one utterance: the same clock. *)
Definition voiceEnv (env : Simulator.Env) : Voice.Env :=
  Voice.mkEnv (Simulator.serverUUID env) (Simulator.serverUUID env) (Simulator.now env).

Fixpoint fireAll (n : nat) (s : Simulator.State) : Simulator.State :=
  match n with
  | O => s
  | S k => fireAll k (Simulator.fire s)
  end.

(** The two adapters wait for the same thing, and the browser is at rest. *)
Definition inStep (c : VoiceCall) (w : Simulator.World) : Prop :=
  let s := Simulator.ui w in
  Simulator.callActive s = true /\ Simulator.isSubmitting s = false /\
  Simulator.timers s = [] /\
  ((awaiting c = Some "name" /\ Simulator.currentStepIdx s = 0) \/
   (awaiting c = Some "datetime" /\ Simulator.currentStepIdx s = 1) \/
   (awaiting c = Some "reason" /\ Simulator.currentStepIdx s = 2) \/
   (awaiting c = None /\ Simulator.currentStepIdx s = 3)).

Section Adapters.

Variable parseDateTime : string -> Z -> option Z.
Variable formatHumanReadable : string -> string.
Variables (callSid origin : string).

(** The caller says [utterance]: the transcription is posted to the step the
    last reply named. *)
Definition voiceTurn (utterance : string) (env : Simulator.Env) (c : VoiceCall) : VoiceCall :=
  match awaiting c with
  | None => c
  | Some step =>
      let '(w, reply) :=
        Voice.handle parseDateTime formatHumanReadable
          (Voice.mkRequest (Some step) origin (Some callSid) None (Some utterance) None)
          (voiceEnv env) (world c) in
      mkVoiceCall w (Voice.nextStep reply)
  end.

(** The caller types [utterance] and sends it; the scheduled prompts appear
    before the next one. *)
Definition simTurn (utterance : string) (env : Simulator.Env) (w : Simulator.World)
  : Simulator.World :=
  let typed := Simulator.mkWorld (Simulator.setPendingResponse utterance (Simulator.ui w))
                 (Simulator.server w) in
  let w' := Simulator.handleSubmitResponse parseDateTime formatHumanReadable env typed in
  Simulator.mkWorld
    (fireAll (length (Simulator.timers (Simulator.ui w'))) (Simulator.ui w'))
    (Simulator.server w').

(** The call is answered: the webhook's [init] turn. *)
Definition voiceStart (env : Simulator.Env) (w : Voice.World) : VoiceCall :=
  let '(w', reply) :=
    Voice.handle parseDateTime formatHumanReadable
      (Voice.mkRequest (Some "init") origin (Some callSid) None None None)
      (voiceEnv env) w in
  mkVoiceCall w' (Voice.nextStep reply).

(** The call is started in the browser and the first prompt appears. *)
Definition simStart (w : Simulator.World) : Simulator.World :=
  let s := Simulator.beginCall (Simulator.ui w) in
  Simulator.mkWorld (fireAll (length (Simulator.timers s)) s) (Simulator.server w).

(** The stages both adapters are in after each utterance. *)
Fixpoint stages (utterances : list (string * Simulator.Env)) (c : VoiceCall)
    (w : Simulator.World) : list (Stage * Stage) :=
  match utterances with
  | [] => []
  | (u, env) :: rest =>
      let c' := voiceTurn u env c in
      let w' := simTurn u env w in
      (voiceStage c', simStage w') :: stages rest c' w'
  end.

End Adapters.

End Lockstep.

(** ** The handlers on concrete calls *)
Module Scenario.
Import Voice CallStateStore.

Definition sunday : Z := 1793527200000.   (* 2026-11-01T10:00:00Z *)

Definition turn (step : string) (speech : option string) : Request * Voice.Env :=
  (mkRequest (Some step) "https://clinic.example" (Some "CA1") None speech None,
   Voice.mkEnv "uuid-call" "uuid-appointment" sunday).

Definition janeDoe : list (Request * Voice.Env) :=
  [turn "init" None; turn "name" (Some "Jane Doe");
   turn "datetime" (Some "next Tuesday at 3 PM"); turn "reason" (Some "annual checkup")].

Definition start : Voice.World := Voice.mkWorld ∅ [].

Definition runVoice := run DateParser.parseDateTime DateParser.formatHumanReadable.

Definition handleVoice := handle DateParser.parseDateTime DateParser.formatHumanReadable.

(** The stores once the name, and once the date, have been taken. *)
Definition afterName : Voice.World := fst (runVoice (firstn 2 janeDoe) start).
Definition afterDatetime : Voice.World := fst (runVoice (firstn 3 janeDoe) start).

End Scenario.


(** ** The webhook's [GET] and the query string *)
Module VoiceGet.

(** A URL as far as the handlers look at it: origin, path and the pairs of
    its query string, in order. *)
Record Url := mkUrl {
  urlOrigin : string;
  pathname : string;
  searchParams : list (string * string)
}.

(** [URLSearchParams.prototype.get]: the value of the first pair named [name]. *)
Fixpoint get (name : string) (params : list (string * string)) : option string :=
  match params with
  | [] => None
  | (k, v) :: rest => if String.eqb k name then Some v else get name rest
  end.

Definition without (name : string) (params : list (string * string))
  : list (string * string) :=
  List.filter (fun p => negb (String.eqb (fst p) name)) params.

(** [URLSearchParams.prototype.set]: the first pair named [name] takes the
    value and the other pairs of that name go; without such a pair, one is
    appended. *)
Fixpoint set (name value : string) (params : list (string * string))
  : list (string * string) :=
  match params with
  | [] => [(name, value)]
  | (k, v) :: rest =>
      if String.eqb k name then (name, value) :: without name rest
      else (k, v) :: set name value rest
  end.

(** The URL [GET] redirects to. *)
Definition redirectUrl (nextUrl : Url) : Url :=
  mkUrl (urlOrigin nextUrl) (pathname nextUrl) (set "step" "init" (searchParams nextUrl)).

Section Get.

(** [URL.prototype.toString], the serializer of the platform. *)
Variable href : Url -> string.

(** [GET]: the body of the response (status 200, text/xml). *)
Definition GET (nextUrl : Url) : Voice.Response :=
  Voice.mkResponse 200 "text/xml"
    (Voice.xmlHeader ++ Voice.lf ++
     "<Response>" ++ Voice.lf ++
     "  <Redirect method=" ++ Voice.quote ++ "POST" ++ Voice.quote ++ ">" ++
     href (redirectUrl nextUrl) ++ "</Redirect>" ++ Voice.lf ++
     "</Response>").

End Get.

(** The request [POST] sees when the form is posted to [url]. *)
Definition postTo (url : Url) (callSid from speech digits : option string) : Voice.Request :=
  Voice.mkRequest (get "step" (searchParams url)) (urlOrigin url) callSid from speech digits.

End VoiceGet.

(** ** Runs of the two adapters *)
Module Runs.
Import Voice.

(** The steps a reply to a turn posted to [step] can name; [None] is the
    hang-up. *)
Definition allowedNext (step : string) : list (option string) :=
  if String.eqb step "init" then [Some "name"]
  else if String.eqb step "name" then [Some "name"; Some "datetime"]
  else if String.eqb step "datetime" then [Some "datetime"; Some "reason"]
  else if String.eqb step "reason" then [Some "reason"; None]
  else [None].

(** The turns of call [id] among [turns]. *)
Definition ownTurns (id : string) (turns : list (Request * Env)) : list (Request * Env) :=
  List.filter (fun t => String.eqb (callSidOf (fst t) (snd t)) id) turns.

(** The browser between two submissions of a call in progress: the call is
    active, nothing is being submitted, no prompt is still scheduled. *)
Definition atRest (w : Simulator.World) : Prop :=
  Simulator.callActive (Simulator.ui w) = true /\
  Simulator.isSubmitting (Simulator.ui w) = false /\
  Simulator.timers (Simulator.ui w) = [].

Section Driven.

Variable parseDateTime : string -> Z -> option Z.
Variable formatHumanReadable : string -> string.

(** The replies the turns of call [id] get. *)
Fixpoint repliesTo (id : string) (turns : list (Request * Env)) (w : World) : list Twiml :=
  match turns with
  | [] => []
  | (request, env) :: rest =>
      let '(w', reply) := handle parseDateTime formatHumanReadable request env w in
      if String.eqb (callSidOf request env) id
      then reply :: repliesTo id rest w'
      else repliesTo id rest w'
  end.

(** The webhook driven through a list of utterances. *)
Fixpoint voiceRun (callSid origin : string) (utterances : list (string * Simulator.Env))
    (c : Lockstep.VoiceCall) : Lockstep.VoiceCall :=
  match utterances with
  | [] => c
  | (u, env) :: rest =>
      voiceRun callSid origin rest
        (Lockstep.voiceTurn parseDateTime formatHumanReadable callSid origin u env c)
  end.

(** The simulator driven through a list of utterances. *)
Fixpoint simRun (utterances : list (string * Simulator.Env)) (w : Simulator.World)
  : Simulator.World :=
  match utterances with
  | [] => w
  | (u, env) :: rest =>
      simRun rest (Lockstep.simTurn parseDateTime formatHumanReadable u env w)
  end.

End Driven.

End Runs.

(** ** What the user can do to the simulator *)
Module Reach.

(** The events of the component: the button that starts a call, the one that
    resets it, a scheduled callback coming due, typing into the text area,
    and sending. *)
Inductive Action :=
| Begin
| Reset
| FireTimer (i : nat)
| TypeText (text : string)
| Submit (env : Simulator.Env).

Section Events.

Variable parseDateTime : string -> Z -> option Z.
Variable formatHumanReadable : string -> string.

Definition act (a : Action) (w : Simulator.World) : Simulator.World :=
  match a with
  | Begin => Simulator.mkWorld (Simulator.beginCall (Simulator.ui w)) (Simulator.server w)
  | Reset => Simulator.mkWorld (Simulator.resetCall (Simulator.ui w)) (Simulator.server w)
  | FireTimer i => Simulator.mkWorld (Simulator.fireAt i (Simulator.ui w)) (Simulator.server w)
  | TypeText text =>
      Simulator.mkWorld (Simulator.setPendingResponse text (Simulator.ui w)) (Simulator.server w)
  | Submit env => Simulator.handleSubmitResponse parseDateTime formatHumanReadable env w
  end.

(** The events in order, the first of the list first. *)
Fixpoint perform (actions : list Action) (w : Simulator.World) : Simulator.World :=
  match actions with
  | [] => w
  | a :: rest => perform rest (act a w)
  end.

End Events.

(** At the reason step and after it the form holds a requested slot. *)
Definition slotted (s : Simulator.State) : Prop :=
  Simulator.currentStepIdx s = 2 \/ Simulator.currentStepIdx s = 3 ->
  exists slot, Simulator.requestedSlot (Simulator.form s) = Some slot.

(** The component as it is mounted. *)
Definition mounted (initialAppointments : list AppointmentsStore.Appointment)
    (server : AppointmentsStore.Store) : Simulator.World :=
  Simulator.mkWorld (Simulator.initialState initialAppointments) server.

End Reach.

(** * Properties *)

(** ** The definitions on concrete inputs *)

Example trim_ex : Str.trim "  Jane Doe  " = "Jane Doe".
Proof. reflexivity. Qed.

Example decimal_ex : Str.decimal 2026 = "2026" /\ Str.decimal (-7) = "-7" /\ Str.decimal 0 = "0".
Proof. repeat split; reflexivity. Qed.

Example toString_ex :
  Js.toString (JArr [JNum 1; JNull; JStr "a"; JArr [JBool true]]) = Some "1,,a,true".
Proof. reflexivity. Qed.

Example toISOString_epoch : Date.toISOString 0 = "1970-01-01T00:00:00.000Z".
Proof. reflexivity. Qed.

Example toISOString_ex : Date.toISOString 1781100000000 = "2026-06-10T14:00:00.000Z".
Proof. vm_compute. reflexivity. Qed.

Example fromISOString_ex : Date.fromISOString "2026-06-10T14:00:00.000Z" = Some 1781100000000.
Proof. vm_compute. reflexivity. Qed.

Example weekday_ex : Date.weekday (1781100000000 / Date.msPerDay) = 3.
Proof. reflexivity. Qed.

(* 2026-11-01T10:00:00Z is a Sunday *)
Example parse_next_tuesday :
  DateParser.parseDateTime "next Tuesday at 3 PM" 1793527200000
  = Some 1793718000000.
Proof. vm_compute. reflexivity. Qed.

Example format_next_tuesday :
  DateParser.formatHumanReadable (Date.toISOString 1793718000000) = "Tue, Nov 3 at 3:00 PM".
Proof. vm_compute. reflexivity. Qed.

Example parse_june_fifth :
  Date.toISOString <$> DateParser.parseDateTime "June fifth at 9 in the morning" 1793527200000
  = Some "2027-06-05T09:00:00.000Z".
Proof. vm_compute. reflexivity. Qed.

Example parse_garbage :
  DateParser.parseDateTime "banana sandwich" 1793527200000 = None.
Proof. vm_compute. reflexivity. Qed.

Example jane_doe_booked :
  Voice.appointments (fst (Scenario.runVoice Scenario.janeDoe Scenario.start))
  = [ AppointmentsStore.mkAppointment "uuid-appointment" (JStr "Jane Doe")
        (JStr "2026-11-03T15:00:00.000Z") (JStr "annual checkup") (JStr "Unknown")
        (JStr "AI assistant booked for Jane Doe to discuss annual checkup.")
        "2026-11-01T10:00:00.000Z" ].
Proof. vm_compute. reflexivity. Qed.

Example jane_doe_cleared :
  Voice.calls (fst (Scenario.runVoice Scenario.janeDoe Scenario.start)) !! "CA1" = None.
Proof. vm_compute. reflexivity. Qed.

Example jane_doe_confirmation :
  Voice.promptOf <$> last (snd (Scenario.runVoice Scenario.janeDoe Scenario.start))
  = Some "Thanks Jane Doe. I have scheduled your appointment for Tue, Nov 3 at 3:00 PM. We look forward to seeing you then.".
Proof. vm_compute. reflexivity. Qed.

(** ** Strings *)

Lemma startsWith_spec p s :
  Str.startsWith p s = true <-> exists post, s = p ++ post.
Proof.
  revert s; induction p as [|a p IH]; intros s; simpl.
  - split; [intros _; exists s; reflexivity | reflexivity].
  - destruct s as [|b s].
    + split; [discriminate | intros [post H]; discriminate].
    + rewrite andb_true_iff, Ascii.eqb_eq, IH. split.
      * intros [-> [post ->]]. exists post. reflexivity.
      * intros [post H]. injection H as -> ->. eauto.
Qed.

Lemma includes_spec needle hay :
  Str.includes needle hay = true <-> Str.Includes needle hay.
Proof.
  unfold Str.Includes. induction hay as [|c hay IH].
  - simpl. rewrite orb_false_r, startsWith_spec. split.
    + intros [post H]. exists "", post. exact H.
    + intros [pre [post H]]. destruct pre; [eauto | discriminate].
  - cbn [Str.includes]. rewrite orb_true_iff, startsWith_spec, IH. split.
    + intros [[post H] | [pre [post H]]].
      * exists "", post. exact H.
      * exists (String c pre), post. simpl. now rewrite H.
    + intros [pre [post H]]. destruct pre as [|c' pre].
      * left. exists post. exact H.
      * right. simpl in H. injection H as _ H. eauto.
Qed.

Lemma append_cons x (a b : string) : String x a ++ b = String x (a ++ b).
Proof. reflexivity. Qed.

Lemma append_assoc (a b c : string) : (a ++ b) ++ c = a ++ b ++ c.
Proof.
  induction a as [|x a IH]; [reflexivity|]. now rewrite !append_cons, IH.
Qed.

Lemma Includes_middle pre needle post : Str.Includes needle (pre ++ needle ++ post).
Proof. exists pre, post. reflexivity. Qed.

Lemma Includes_prefix needle post : Str.Includes needle (needle ++ post).
Proof. exists "", post. reflexivity. Qed.

Lemma Includes_app_r needle pre hay :
  Str.Includes needle hay -> Str.Includes needle (pre ++ hay).
Proof.
  intros (a & b & ->). exists (pre ++ a), b. now rewrite append_assoc.
Qed.

Lemma nonEmpty_true s : Str.nonEmpty s = true <-> s <> "".
Proof. destruct s; simpl; split; congruence. Qed.

Lemma ensureSpeechResult_nonEmpty v s :
  Voice.ensureSpeechResult v = Some s -> Str.nonEmpty s = true.
Proof.
  unfold Voice.ensureSpeechResult. destruct v as [v|]; [|discriminate].
  destruct (Str.nonEmpty (Str.trim v)) eqn:E; [|discriminate].
  intros [= <-]. exact E.
Qed.

Lemma speechResultOf_nonEmpty request s :
  Voice.speechResultOf request = Some s -> Str.nonEmpty s = true.
Proof.
  unfold Voice.speechResultOf.
  destruct (Voice.ensureSpeechResult (Voice.formSpeechResult request)) eqn:E.
  - intros [= <-]. eapply ensureSpeechResult_nonEmpty, E.
  - apply ensureSpeechResult_nonEmpty.
Qed.

Lemma pad_nonEmpty w n : Str.nonEmpty (Str.pad (S w) n) = true.
Proof. simpl. destruct (Str.pad w (n / 10)); reflexivity. Qed.

Lemma nonEmpty_app_r a b : Str.nonEmpty b = true -> Str.nonEmpty (a ++ b) = true.
Proof. destruct a; simpl; auto. Qed.

Lemma toISOString_nonEmpty t : Str.nonEmpty (Date.toISOString t) = true.
Proof.
  unfold Date.toISOString. destruct (Date.civilFromDays _) as [[y m] d].
  repeat (apply nonEmpty_app_r). reflexivity.
Qed.

(** ** The call-state store *)
Section StoreFacts.
Import CallStateStore.
Implicit Types (store : gmap string CallState) (s : CallState).

Lemma getCallState_present id store s :
  store !! id = Some s -> getCallState id store = (s, store).
Proof. unfold getCallState. now intros ->. Qed.

Lemma getCallState_absent id store :
  store !! id = None -> getCallState id store = (initial id, <[id := initial id]> store).
Proof. unfold getCallState. now intros ->. Qed.

Lemma getCallState_registers id store :
  snd (getCallState id store) !! id = Some (fst (getCallState id store)).
Proof.
  unfold getCallState. destruct (store !! id) eqn:E; simpl; [exact E|].
  apply lookup_insert_eq.
Qed.

Lemma getCallState_others id id' store :
  id <> id' -> snd (getCallState id store) !! id' = store !! id'.
Proof.
  intros Hne. unfold getCallState. destruct (store !! id); simpl; [reflexivity|].
  now apply lookup_insert_ne.
Qed.

Lemma getCallState_callId id store :
  wf store -> callId (fst (getCallState id store)) = id.
Proof.
  intros Hwf. unfold getCallState. destruct (store !! id) eqn:E; simpl; [|reflexivity].
  eapply Hwf, E.
Qed.

Lemma wf_empty : wf ∅.
Proof. intros id s H. rewrite lookup_empty in H. discriminate. Qed.

Lemma wf_insert id s store : wf store -> callId s = id -> wf (<[id := s]> store).
Proof.
  intros Hwf Hid id' s'. rewrite lookup_insert. case_decide.
  - intros [= <-]. congruence.
  - apply Hwf.
Qed.

Lemma wf_delete id store : wf store -> wf (delete id store).
Proof.
  intros Hwf id' s'. rewrite lookup_delete. case_decide; [discriminate | apply Hwf].
Qed.

Lemma wf_getCallState id store : wf store -> wf (snd (getCallState id store)).
Proof.
  intros Hwf. unfold getCallState. destruct (store !! id); simpl; [exact Hwf|].
  now apply wf_insert.
Qed.

(** What a later turn finds once [s] is stored under [id]. *)
Lemma phaseOf_insert id id' s store :
  phaseOf id' (<[id := s]> store) = if decide (id = id') then phase s else phaseOf id' store.
Proof.
  unfold phaseOf, getCallState. rewrite lookup_insert.
  case_decide; [reflexivity|]. now destruct (store !! id').
Qed.

Lemma phaseOf_getCallState id id' store :
  phaseOf id' (snd (getCallState id store)) = phaseOf id' store.
Proof.
  unfold getCallState at 1. destruct (store !! id) eqn:E; simpl; [reflexivity|].
  rewrite phaseOf_insert. case_decide; [subst|reflexivity].
  unfold phaseOf, getCallState. now rewrite E.
Qed.

Lemma phaseOf_fst id store : phase (fst (getCallState id store)) = phaseOf id store.
Proof. reflexivity. Qed.

End StoreFacts.

(** ** The webhook, branch by branch *)
Section VoiceFacts.
Import CallStateStore Voice.

Variable parseDateTime : string -> Z -> option Z.
Variable formatHumanReadable : string -> string.

Local Abbreviation handle := (Voice.handle parseDateTime formatHumanReadable).

Lemma handle_init request env w :
  default "init" (stepParam request) = "init" ->
  handle request env w =
    (mkWorld (saveCallState (entry request env w) (opened request env w)) (appointments w),
     gatherPrompt askName "name" (origin request)).
Proof.
  intros Hstep. unfold Voice.handle, opened, entry. rewrite Hstep.
  destruct (getCallState _ _) as [state store]. reflexivity.
Qed.

Lemma handle_silent request env w :
  speechResultOf request = None ->
  let step := default "init" (stepParam request) in
  step <> "init" ->
  handle request env w =
    (mkWorld (opened request env w) (appointments w),
     if String.eqb step "name" then gatherPrompt retryName "name" (origin request)
     else if String.eqb step "datetime" then gatherPrompt retryDatetime "datetime" (origin request)
     else if String.eqb step "reason" then gatherPrompt retryReason "reason" (origin request)
     else sayMessage wentWrong).
Proof.
  intros Hs step Hstep. unfold Voice.handle, opened, entry. fold step. rewrite Hs.
  destruct (getCallState _ _) as [state store].
  apply String.eqb_neq in Hstep. rewrite Hstep.
  destruct (String.eqb step "name"); [reflexivity|].
  destruct (String.eqb step "datetime"); [reflexivity|].
  destruct (String.eqb step "reason"); reflexivity.
Qed.

Lemma handle_unknown request env w :
  let step := default "init" (stepParam request) in
  step <> "init" -> step <> "name" -> step <> "datetime" -> step <> "reason" ->
  handle request env w =
    (mkWorld (opened request env w) (appointments w), sayMessage wentWrong).
Proof.
  intros step H1 H2 H3 H4. unfold Voice.handle, opened, entry. fold step.
  destruct (getCallState _ _) as [state store].
  apply String.eqb_neq in H1, H2, H3, H4. now rewrite H1, H2, H3, H4.
Qed.

Lemma handle_name request env w speech :
  stepParam request = Some "name" ->
  speechResultOf request = Some speech ->
  let state := set_phase collecting_datetime (set_customerName speech (entry request env w)) in
  handle request env w =
    (mkWorld (saveCallState state (assign (callSidOf request env) state (opened request env w)))
       (appointments w),
     gatherPrompt ("Thanks " ++ speech ++ ". What day and time would you like to book the appointment for?")
       "datetime" (origin request)).
Proof.
  intros Hstep Hs. unfold Voice.handle, opened, entry. rewrite Hstep, Hs.
  destruct (getCallState _ _) as [state store]. reflexivity.
Qed.

Lemma handle_datetime_unparsed request env w speech :
  stepParam request = Some "datetime" ->
  speechResultOf request = Some speech ->
  parseDateTime speech (now env) = None ->
  handle request env w =
    (mkWorld (opened request env w) (appointments w),
     gatherPrompt clarifyDatetime "datetime" (origin request)).
Proof.
  intros Hstep Hs Hp. unfold Voice.handle, opened, entry. rewrite Hstep, Hs.
  destruct (getCallState _ _) as [state store]. simpl. now rewrite Hp.
Qed.

Lemma handle_datetime_parsed request env w speech parsed :
  stepParam request = Some "datetime" ->
  speechResultOf request = Some speech ->
  parseDateTime speech (now env) = Some parsed ->
  let state :=
    set_phase collecting_reason
      (set_appointmentDateTime (Date.toISOString parsed) (entry request env w)) in
  handle request env w =
    (mkWorld (saveCallState state (assign (callSidOf request env) state (opened request env w)))
       (appointments w),
     gatherPrompt askReason "reason" (origin request)).
Proof.
  intros Hstep Hs Hp. unfold Voice.handle, opened, entry. rewrite Hstep, Hs.
  destruct (getCallState _ _) as [state store]. simpl. now rewrite Hp.
Qed.

Lemma handle_reason_aborted request env w speech :
  stepParam request = Some "reason" ->
  speechResultOf request = Some speech ->
  present (customerName (entry request env w)) && present (appointmentDateTime (entry request env w))
    = false ->
  let state := set_phase completed (set_reason speech (entry request env w)) in
  handle request env w =
    (mkWorld (saveCallState state (assign (callSidOf request env) state (opened request env w)))
       (appointments w),
     sayMessage apology).
Proof.
  intros Hstep Hs Hmiss. unfold Voice.handle.
  unfold opened, entry in *. rewrite Hstep, Hs.
  destruct (getCallState _ _) as [state store]. simpl in *.
  destruct (present (formFrom request)); simpl in *;
    destruct (present (customerName state)); simpl in *;
    try rewrite Hmiss; reflexivity.
Qed.

Lemma handle_reason_booked request env w speech name date :
  stepParam request = Some "reason" ->
  speechResultOf request = Some speech ->
  customerName (entry request env w) = Some name -> name <> "" ->
  appointmentDateTime (entry request env w) = Some date -> date <> "" ->
  let state := set_phase completed (set_reason speech (entry request env w)) in
  let appointment :=
    AppointmentsStore.mkAppointment (appointmentUUID env) (JStr name) (JStr date) (JStr speech)
      (JStr (default "Unknown" (contactNumber (entry request env w))))
      (JStr ("AI assistant booked for " ++ name ++ " to discuss " ++ speech ++ "."))
      (Date.toISOString (now env)) in
  handle request env w =
    (mkWorld
       (clearCallState (callSidOf request env)
          (saveCallState state (assign (callSidOf request env) state (opened request env w))))
       (appointment :: appointments w),
     sayMessage ("Thanks " ++ name ++ ". I have scheduled your appointment for " ++
                 formatHumanReadable date ++ ". We look forward to seeing you then.")).
Proof.
  intros Hstep Hs Hn Hn' Hd Hd'. unfold Voice.handle.
  unfold opened, entry in *. rewrite Hstep, Hs.
  destruct (getCallState _ _) as [state store]. simpl in *.
  apply nonEmpty_true in Hn', Hd'.
  pose proof (speechResultOf_nonEmpty _ _ Hs) as Hsp.
  destruct (present (formFrom request)); simpl in *;
    rewrite Hn, Hd; simpl; rewrite Hn', Hd', Hsp; reflexivity.
Qed.

(** The response [POST] sends carries the reply's prompt in its body. *)
Lemma POST_body_carries_prompt request env w :
  let reply := snd (handle request env w) in
  let response := snd (Voice.POST parseDateTime formatHumanReadable request env w) in
  status response = 200 /\ contentType response = "text/xml" /\
  Str.Includes (promptOf reply) (body response).
Proof.
  unfold Voice.POST. destruct (Voice.handle _ _ _ _ _) as [w' reply]. simpl.
  split; [reflexivity|]. split; [reflexivity|].
  destruct reply as [prompt step org | message]; unfold render;
    repeat first [ apply Includes_prefix | apply Includes_app_r ].
Qed.

End VoiceFacts.

Section EntryFacts.
Import CallStateStore Voice.
Implicit Types (request : Request) (env : Voice.Env) (w : Voice.World).

Lemma entry_phase request env w :
  phase (entry request env w) = phaseOf (callSidOf request env) (calls w).
Proof. unfold entry. now destruct (present _). Qed.

Lemma entry_customerName request env w :
  customerName (entry request env w)
  = customerName (fst (getCallState (callSidOf request env) (calls w))).
Proof. unfold entry. now destruct (present _). Qed.

Lemma entry_appointmentDateTime request env w :
  appointmentDateTime (entry request env w)
  = appointmentDateTime (fst (getCallState (callSidOf request env) (calls w))).
Proof. unfold entry. now destruct (present _). Qed.

Lemma entry_contactNumber_unset request env w :
  present (formFrom request) = false ->
  contactNumber (entry request env w) = contactNumberOf (callSidOf request env) w.
Proof. unfold entry. now intros ->. Qed.

Lemma entry_callId request env w :
  wf (calls w) -> callId (entry request env w) = callSidOf request env.
Proof.
  intros Hwf. unfold entry.
  destruct (present _); simpl; now apply getCallState_callId.
Qed.

Lemma opened_lookup request env w :
  opened request env w !! callSidOf request env = Some (entry request env w).
Proof. apply lookup_insert_eq. Qed.

Lemma opened_others request env w id :
  callSidOf request env <> id -> opened request env w !! id = calls w !! id.
Proof.
  intros Hne. unfold opened, assign. rewrite lookup_insert_ne by exact Hne.
  now apply getCallState_others.
Qed.

Lemma opened_wf request env w : wf (calls w) -> wf (opened request env w).
Proof.
  intros Hwf. apply wf_insert; [now apply wf_getCallState | now apply entry_callId].
Qed.

Lemma opened_phaseOf request env w id :
  phaseOf id (opened request env w) = phaseOf id (calls w).
Proof.
  unfold opened, assign. rewrite phaseOf_insert, phaseOf_getCallState.
  case_decide; [subst; apply entry_phase | reflexivity].
Qed.

(** Storing a state where the call's own object already is. *)
Lemma saved_lookup request env w s :
  saveCallState s (assign (callSidOf request env) s (opened request env w))
    !! callSidOf request env = Some s.
Proof.
  unfold saveCallState, assign. rewrite lookup_insert. case_decide; [reflexivity|].
  apply lookup_insert_eq.
Qed.

Lemma saved_eq request env w s :
  callId s = callSidOf request env ->
  saveCallState s (assign (callSidOf request env) s (opened request env w))
  = <[callSidOf request env := s]> (opened request env w).
Proof.
  intros Hid. unfold saveCallState, assign. rewrite Hid. apply insert_insert_eq.
Qed.

Lemma saved_entry_eq request env w :
  wf (calls w) ->
  saveCallState (entry request env w) (opened request env w) = opened request env w.
Proof.
  intros Hwf. unfold saveCallState. rewrite entry_callId by exact Hwf.
  apply insert_id, opened_lookup.
Qed.

End EntryFacts.

(** ** C1: the booking turn *)
Section Booking.
Import CallStateStore Voice.

Variable parseDateTime : string -> Z -> option Z.
Variable formatHumanReadable : string -> string.

(** C1.  A [reason] turn with a non-empty utterance, for a call whose stored
    state has a name and a date, appends exactly one appointment carrying the
    name, the date, the reason and the synthesized summary, removes the
    call's state from the store, and replies with a terminal message that
    contains the name and the formatted date. *)
Theorem reason_turn_books request env w st name date speech :
  stepParam request = Some "reason" ->
  speechResultOf request = Some speech ->
  calls w !! callSidOf request env = Some st ->
  customerName st = Some name -> name <> "" ->
  appointmentDateTime st = Some date -> date <> "" ->
  let '(w', reply) := Voice.handle parseDateTime formatHumanReadable request env w in
  (exists appointment,
      appointments w' = appointment :: appointments w /\
      AppointmentsStore.customerName appointment = JStr name /\
      AppointmentsStore.appointmentDateTime appointment = JStr date /\
      AppointmentsStore.reason appointment = JStr speech /\
      AppointmentsStore.callSummary appointment
        = JStr ("AI assistant booked for " ++ name ++ " to discuss " ++ speech ++ ".")) /\
  calls w' !! callSidOf request env = None /\
  reply = sayMessage ("Thanks " ++ name ++ ". I have scheduled your appointment for " ++
                      formatHumanReadable date ++ ". We look forward to seeing you then.") /\
  terminal reply = true /\
  Str.Includes name (promptOf reply) /\
  Str.Includes (formatHumanReadable date) (promptOf reply).
Proof.
  intros Hstep Hs Hst Hn Hn' Hd Hd'.
  assert (He : fst (getCallState (callSidOf request env) (calls w)) = st)
    by now rewrite (getCallState_present _ _ _ Hst).
  rewrite (handle_reason_booked _ _ request env w speech name date); try assumption.
  - repeat split.
    + eexists. repeat split.
    + apply lookup_delete_eq.
    + exists "Thanks ". eexists. reflexivity.
    + simpl. exists ("Thanks " ++ name ++ ". I have scheduled your appointment for ").
      eexists. rewrite !append_assoc. reflexivity.
  - now rewrite entry_customerName, He.
  - now rewrite entry_appointmentDateTime, He.
Qed.

End Booking.

(** ** What one turn does to the stores *)
Section Outcome.
Import CallStateStore Voice.

Variable parseDateTime : string -> Z -> option Z.
Variable formatHumanReadable : string -> string.

Local Abbreviation handle := (Voice.handle parseDateTime formatHumanReadable).

Lemma present_Some (o : option string) :
  present o = true -> exists s, o = Some s /\ s <> "".
Proof.
  destruct o as [s|]; [|discriminate]. simpl. intros H. exists s. split; [reflexivity|].
  now apply nonEmpty_true.
Qed.

(** A turn leaves the store as it found it, or stores the call's state with
    the next phase, or books and removes the state. *)
Lemma handle_outcome request env w :
  wf (calls w) ->
  let id := callSidOf request env in
  let step := default "init" (stepParam request) in
  let e := entry request env w in
  let w' := fst (handle request env w) in
  (calls w' = opened request env w /\ appointments w' = appointments w) \/
  (exists s',
      calls w' = <[id := s']> (opened request env w) /\
      appointments w' = appointments w /\
      callId s' = id /\ contactNumber s' = contactNumber e /\
      ((step = "name" /\ phase s' = collecting_datetime) \/
       (step = "datetime" /\ phase s' = collecting_reason) \/
       (step = "reason" /\ phase s' = completed))) \/
  (exists s' a,
      step = "reason" /\
      calls w' = delete id (<[id := s']> (opened request env w)) /\
      appointments w' = a :: appointments w /\
      AppointmentsStore.contactNumber a = JStr (default "Unknown" (contactNumber e))).
Proof.
  intros Hwf id step e w'. subst w'.
  pose proof (entry_callId request env w Hwf) as Hid.
  destruct (String.eqb_spec step "init") as [Hinit|Hinit].
  { left. rewrite handle_init by exact Hinit. simpl.
    now rewrite saved_entry_eq by exact Hwf. }
  destruct (speechResultOf request) as [speech|] eqn:Hs.
  2:{ left. rewrite handle_silent by assumption. now repeat case_match. }
  destruct (stepParam request) as [st|] eqn:Hstep; [|now elim Hinit].
  simpl in step. subst step.
  destruct (String.eqb_spec st "name") as [->|Hname].
  { right; left. rewrite (handle_name _ _ _ _ _ speech) by assumption. simpl.
    eexists. rewrite saved_eq by exact Hid. repeat split; eauto. }
  destruct (String.eqb_spec st "datetime") as [->|Hdt].
  { destruct (parseDateTime speech (now env)) as [parsed|] eqn:Hp.
    - right; left. rewrite (handle_datetime_parsed _ _ _ _ _ speech parsed) by assumption.
      simpl. eexists. rewrite saved_eq by exact Hid. repeat split; eauto.
    - left. now rewrite (handle_datetime_unparsed _ _ _ _ _ speech) by assumption. }
  destruct (String.eqb_spec st "reason") as [->|Hr].
  { destruct (present (customerName (entry request env w))
              && present (appointmentDateTime (entry request env w))) eqn:Hp.
    - apply andb_true_iff in Hp as [Hn Hd].
      apply present_Some in Hn as (name & Hn & Hn'), Hd as (date & Hd & Hd').
      right; right.
      rewrite (handle_reason_booked _ _ _ _ _ speech name date) by assumption.
      simpl. do 2 eexists. unfold clearCallState. rewrite saved_eq by exact Hid.
      repeat split; eauto.
    - right; left. rewrite (handle_reason_aborted _ _ _ _ _ speech) by assumption.
      simpl. eexists. rewrite saved_eq by exact Hid. repeat split; eauto. }
  left. rewrite handle_unknown; [split; reflexivity | | | |]; rewrite Hstep; assumption.
Qed.

Lemma handle_wf request env w :
  wf (calls w) -> wf (calls (fst (handle request env w))).
Proof.
  intros Hwf. pose proof (opened_wf request env w Hwf) as Ho.
  destruct (handle_outcome request env w Hwf)
    as [[-> _] | [(s' & -> & _ & Hid & _) | (s' & a & _ & -> & _)]].
  - exact Ho.
  - now apply wf_insert.
  - rewrite delete_insert_eq. now apply wf_delete.
Qed.

(** A turn of one call does not touch the state of another. *)
Lemma handle_frame request env w id :
  wf (calls w) -> callSidOf request env <> id ->
  calls (fst (handle request env w)) !! id = calls w !! id.
Proof.
  intros Hwf Hne.
  destruct (handle_outcome request env w Hwf)
    as [[-> _] | [(s' & -> & _) | (s' & a & _ & -> & _)]].
  - now apply opened_others.
  - rewrite lookup_insert_ne by exact Hne. now apply opened_others.
  - rewrite lookup_delete_ne, lookup_insert_ne by exact Hne. now apply opened_others.
Qed.

Lemma phaseOf_ext id (store store' : gmap string CallState) :
  store !! id = store' !! id -> phaseOf id store = phaseOf id store'.
Proof. unfold phaseOf, getCallState. intros ->. now destruct (store' !! id). Qed.

(** A turn without an utterance changes no phase. *)
Lemma handle_silent_phase request env w id :
  wf (calls w) -> speechResultOf request = None ->
  phaseOf id (calls (fst (handle request env w))) = phaseOf id (calls w).
Proof.
  intros Hwf Hs.
  destruct (String.eqb_spec (default "init" (stepParam request)) "init") as [Hinit|Hinit].
  - rewrite handle_init by exact Hinit. simpl.
    rewrite saved_entry_eq by exact Hwf. apply opened_phaseOf.
  - rewrite handle_silent by assumption. simpl. apply opened_phaseOf.
Qed.

(** A turn posted to the step the phase awaits moves the phase forward. *)
Lemma handle_forward request env w id :
  wf (calls w) ->
  (callSidOf request env = id ->
   awaits (phaseOf id (calls w)) (default "init" (stepParam request)) = true) ->
  forward id w (fst (handle request env w)).
Proof.
  intros Hwf Haw. unfold forward.
  destruct (decide (callSidOf request env = id)) as [Heq|Hne].
  2:{ left. apply phaseOf_ext. now apply handle_frame. }
  specialize (Haw Heq). unfold awaits in Haw.
  destruct (handle_outcome request env w Hwf)
    as [[-> _] | [(s' & -> & _ & _ & _ & Hstep) | (s' & a & Hstep & -> & _)]].
  - left. apply opened_phaseOf.
  - right; left. rewrite phaseOf_insert, decide_True by exact Heq.
    destruct Hstep as [[Hst ->] | [[Hst ->] | [Hst ->]]]; rewrite Hst in Haw; simpl in Haw;
      apply bool_decide_eq_true in Haw; rewrite Haw; split; (discriminate || reflexivity).
  - right; right. rewrite Hstep in Haw. simpl in Haw. apply bool_decide_eq_true in Haw.
    split; [exact Haw|]. rewrite <- Heq. apply lookup_delete_eq.
Qed.

End Outcome.

Lemma reason_turn_books_witness :
  let '(w', reply) :=
    Scenario.handleVoice (fst (Scenario.turn "reason" (Some "annual checkup")))
      (snd (Scenario.turn "reason" (Some "annual checkup"))) Scenario.afterDatetime in
  (exists appointment,
      Voice.appointments w' = appointment :: Voice.appointments Scenario.afterDatetime /\
      AppointmentsStore.customerName appointment = JStr "Jane Doe" /\
      AppointmentsStore.appointmentDateTime appointment = JStr "2026-11-03T15:00:00.000Z" /\
      AppointmentsStore.reason appointment = JStr "annual checkup" /\
      AppointmentsStore.callSummary appointment
        = JStr ("AI assistant booked for " ++ "Jane Doe" ++ " to discuss " ++ "annual checkup" ++ ".")) /\
  Voice.calls w' !! "CA1" = None /\
  reply = Voice.sayMessage
            ("Thanks " ++ "Jane Doe" ++ ". I have scheduled your appointment for " ++
             DateParser.formatHumanReadable "2026-11-03T15:00:00.000Z" ++
             ". We look forward to seeing you then.") /\
  Voice.terminal reply = true /\
  Str.Includes "Jane Doe" (Voice.promptOf reply) /\
  Str.Includes (DateParser.formatHumanReadable "2026-11-03T15:00:00.000Z") (Voice.promptOf reply).
Proof.
  apply (reason_turn_books DateParser.parseDateTime DateParser.formatHumanReadable
           (fst (Scenario.turn "reason" (Some "annual checkup")))
           (snd (Scenario.turn "reason" (Some "annual checkup")))
           Scenario.afterDatetime
           (CallStateStore.mkCallState "CA1" CallStateStore.collecting_reason
              (Some "Jane Doe") (Some "2026-11-03T15:00:00.000Z") None None)
           "Jane Doe" "2026-11-03T15:00:00.000Z" "annual checkup");
    first [ discriminate | vm_compute; reflexivity ].
Defined.

(** ** C2: the order of the phases *)
Section PhaseOrder.
Import CallStateStore Voice.

Variable parseDateTime : string -> Z -> option Z.
Variable formatHumanReadable : string -> string.

Local Abbreviation handle := (Voice.handle parseDateTime formatHumanReadable).
Local Abbreviation worlds := (Voice.worlds parseDateTime formatHumanReadable).
Local Abbreviation conforms := (Voice.conforms parseDateTime formatHumanReadable).

Lemma forwardAlong_worlds id turns w :
  wf (calls w) -> conforms id turns w = true -> forwardAlong id w (worlds turns w).
Proof.
  revert w. induction turns as [|[request env] rest IH]; intros w Hwf Hc; simpl; [exact I|].
  simpl in Hc. apply andb_true_iff in Hc as [Hhere Hrest]. split.
  - apply handle_forward; [exact Hwf|]. intros Heq.
    apply orb_true_iff in Hhere as [Hne|Haw]; [|exact Haw].
    apply negb_true_iff, String.eqb_neq in Hne. contradiction.
  - apply IH; [now apply handle_wf | exact Hrest].
Qed.

(** C2, amended.  Along every sequence of turns in which the turns of call
    [id] are posted to the step its stored phase awaits, each turn leaves the
    phase of [id] where it was, or moves it one step along
    greeting, collecting-datetime, collecting-reason, completed, or removes
    the state at the booking; and whatever the step, a turn with an empty or
    missing utterance leaves every phase unchanged. *)
Theorem phase_moves_forward id turns w :
  wf (calls w) ->
  conforms id turns w = true ->
  forwardAlong id w (worlds turns w) /\
  (forall request env w0,
      wf (calls w0) -> speechResultOf request = None ->
      phaseOf id (calls (fst (handle request env w0))) = phaseOf id (calls w0)).
Proof.
  intros Hwf Hc. split.
  - now apply forwardAlong_worlds.
  - intros request env w0 Hwf0 Hs. now apply handle_silent_phase.
Qed.

End PhaseOrder.

Lemma phase_moves_forward_witness :
  Voice.forwardAlong "CA1" Scenario.start
    (Voice.worlds DateParser.parseDateTime DateParser.formatHumanReadable
       Scenario.janeDoe Scenario.start) /\
  (forall request env w0,
      CallStateStore.wf (Voice.calls w0) -> Voice.speechResultOf request = None ->
      CallStateStore.phaseOf "CA1" (Voice.calls (fst (Scenario.handleVoice request env w0)))
      = CallStateStore.phaseOf "CA1" (Voice.calls w0)).
Proof.
  apply (phase_moves_forward DateParser.parseDateTime DateParser.formatHumanReadable
           "CA1" Scenario.janeDoe Scenario.start).
  - exact wf_empty.
  - vm_compute. reflexivity.
Defined.

(** C2 as written does not hold: a [name] turn posted after the date was
    taken moves the phase back from collecting-reason to collecting-datetime. *)
Lemma phase_moves_backward :
  let w := Scenario.afterDatetime in
  let w' := fst (Scenario.handleVoice (fst (Scenario.turn "name" (Some "Jane Doe")))
                   (snd (Scenario.turn "name" (Some "Jane Doe"))) w) in
  CallStateStore.phaseOf "CA1" (Voice.calls w) = CallStateStore.collecting_reason /\
  CallStateStore.phaseOf "CA1" (Voice.calls w') = CallStateStore.collecting_datetime /\
  CallStateStore.rank (CallStateStore.phaseOf "CA1" (Voice.calls w'))
  < CallStateStore.rank (CallStateStore.phaseOf "CA1" (Voice.calls w)).
Proof. vm_compute. repeat split. Qed.

(** ** C3, C4, C5: the abort path, the two retries, the replay *)
Section Retries.
Import CallStateStore Voice.

Variable parseDateTime : string -> Z -> option Z.
Variable formatHumanReadable : string -> string.

Local Abbreviation handle := (Voice.handle parseDateTime formatHumanReadable).

(** C3, amended.  A [reason] turn with a non-empty utterance, for a call whose
    state lacks the name or the date, replies with the terminal apology and
    creates no appointment; the call's state stays in the store, saved with
    phase completed and the reason just given. *)
Theorem abort_keeps_call_state request env w speech :
  stepParam request = Some "reason" ->
  speechResultOf request = Some speech ->
  (let st := fst (getCallState (callSidOf request env) (calls w)) in
   present (customerName st) && present (appointmentDateTime st) = false) ->
  let '(w', reply) := handle request env w in
  reply = sayMessage apology /\
  terminal reply = true /\
  appointments w' = appointments w /\
  exists st',
    calls w' !! callSidOf request env = Some st' /\
    phase st' = completed /\ reason st' = Some speech.
Proof.
  intros Hstep Hs Hmiss. simpl in Hmiss.
  rewrite (handle_reason_aborted _ _ _ _ _ speech); try assumption.
  - repeat split. eexists. split; [apply saved_lookup|]. split; reflexivity.
  - now rewrite entry_customerName, entry_appointmentDateTime.
Qed.

(** C4, amended.  At the [datetime] step a turn without an utterance and a
    turn whose utterance the parser rejects both ask again for the same step
    and change no phase, but with two different prompts. *)
Theorem datetime_retries_differ request env w request' env' w' speech id :
  stepParam request = Some "datetime" -> speechResultOf request = None ->
  stepParam request' = Some "datetime" -> speechResultOf request' = Some speech ->
  parseDateTime speech (now env') = None ->
  let '(w1, silent) := handle request env w in
  let '(w2, unparsed) := handle request' env' w' in
  silent = gatherPrompt retryDatetime "datetime" (origin request) /\
  unparsed = gatherPrompt clarifyDatetime "datetime" (origin request') /\
  promptOf silent <> promptOf unparsed /\
  phaseOf id (calls w1) = phaseOf id (calls w) /\
  phaseOf id (calls w2) = phaseOf id (calls w').
Proof.
  intros Hstep Hs Hstep' Hs' Hp.
  rewrite handle_silent; [|exact Hs|rewrite Hstep; discriminate].
  rewrite (handle_datetime_unparsed _ _ _ _ _ speech) by assumption.
  rewrite Hstep. simpl. repeat split; try apply opened_phaseOf. discriminate.
Qed.

(** C5.  Once a [reason] turn has booked, the same turn posted again for the
    same call finds no state: it is served from the fresh state with phase
    greeting, ends in the apology, and adds no appointment. *)
Theorem replay_books_nothing request env env' w st id name date speech :
  formCallSid request = Some id ->
  stepParam request = Some "reason" ->
  speechResultOf request = Some speech ->
  calls w !! id = Some st ->
  customerName st = Some name -> name <> "" ->
  appointmentDateTime st = Some date -> date <> "" ->
  let w1 := fst (handle request env w) in
  let '(w2, reply) := handle request env' w1 in
  length (appointments w1) = S (length (appointments w)) /\
  calls w1 !! id = None /\
  fst (getCallState id (calls w1)) = initial id /\
  phase (fst (getCallState id (calls w1))) = greeting /\
  appointments w2 = appointments w1 /\
  reply = sayMessage apology.
Proof.
  intros Hid Hstep Hs Hst Hn Hn' Hd Hd' w1.
  assert (Hsid : forall e, callSidOf request e = id)
    by (intros e; unfold callSidOf; now rewrite Hid).
  assert (Hgone : calls w1 !! id = None).
  { subst w1. rewrite (handle_reason_booked _ _ request env w speech name date); try assumption.
    - simpl. rewrite Hsid. apply lookup_delete_eq.
    - rewrite entry_customerName, Hsid, (getCallState_present _ _ _ Hst). exact Hn.
    - rewrite entry_appointmentDateTime, Hsid, (getCallState_present _ _ _ Hst). exact Hd. }
  assert (Hlen : length (appointments w1) = S (length (appointments w))).
  { subst w1. rewrite (handle_reason_booked _ _ request env w speech name date); try assumption.
    - reflexivity.
    - rewrite entry_customerName, Hsid, (getCallState_present _ _ _ Hst). exact Hn.
    - rewrite entry_appointmentDateTime, Hsid, (getCallState_present _ _ _ Hst). exact Hd. }
  rewrite (handle_reason_aborted _ _ request env' w1 speech); try assumption.
  - rewrite (getCallState_absent _ _ Hgone). repeat split; assumption.
  - rewrite entry_customerName, Hsid, (getCallState_absent _ _ Hgone). reflexivity.
Qed.

End Retries.

Lemma abort_keeps_call_state_witness :
  let '(w', reply) :=
    Scenario.handleVoice (fst (Scenario.turn "reason" (Some "annual checkup")))
      (snd (Scenario.turn "reason" (Some "annual checkup"))) Scenario.start in
  reply = Voice.sayMessage Voice.apology /\
  Voice.terminal reply = true /\
  Voice.appointments w' = Voice.appointments Scenario.start /\
  exists st',
    Voice.calls w' !! "CA1" = Some st' /\
    CallStateStore.phase st' = CallStateStore.completed /\
    CallStateStore.reason st' = Some "annual checkup".
Proof.
  apply (abort_keeps_call_state DateParser.parseDateTime DateParser.formatHumanReadable
           (fst (Scenario.turn "reason" (Some "annual checkup")))
           (snd (Scenario.turn "reason" (Some "annual checkup")))
           Scenario.start "annual checkup");
    vm_compute; reflexivity.
Defined.

(** C3 as written does not hold: on the abort path the call's state is still
    in the store after the apology. *)
Lemma abort_leaves_call_state :
  let w := Scenario.start in
  let request := fst (Scenario.turn "reason" (Some "annual checkup")) in
  let env := snd (Scenario.turn "reason" (Some "annual checkup")) in
  CallStateStore.customerName
    (fst (CallStateStore.getCallState (Voice.callSidOf request env) (Voice.calls w))) = None /\
  snd (Scenario.handleVoice request env w) = Voice.sayMessage Voice.apology /\
  Voice.appointments (fst (Scenario.handleVoice request env w)) = [] /\
  Voice.calls (fst (Scenario.handleVoice request env w)) !! Voice.callSidOf request env <> None.
Proof. vm_compute. repeat split. discriminate. Qed.

Lemma datetime_retries_differ_witness :
  let '(w1, silent) :=
    Scenario.handleVoice (fst (Scenario.turn "datetime" (Some "   ")))
      (snd (Scenario.turn "datetime" (Some "   "))) Scenario.afterName in
  let '(w2, unparsed) :=
    Scenario.handleVoice (fst (Scenario.turn "datetime" (Some "banana sandwich")))
      (snd (Scenario.turn "datetime" (Some "banana sandwich"))) Scenario.afterName in
  silent = Voice.gatherPrompt Voice.retryDatetime "datetime" "https://clinic.example" /\
  unparsed = Voice.gatherPrompt Voice.clarifyDatetime "datetime" "https://clinic.example" /\
  Voice.promptOf silent <> Voice.promptOf unparsed /\
  CallStateStore.phaseOf "CA1" (Voice.calls w1)
    = CallStateStore.phaseOf "CA1" (Voice.calls Scenario.afterName) /\
  CallStateStore.phaseOf "CA1" (Voice.calls w2)
    = CallStateStore.phaseOf "CA1" (Voice.calls Scenario.afterName).
Proof.
  apply (datetime_retries_differ DateParser.parseDateTime DateParser.formatHumanReadable
           (fst (Scenario.turn "datetime" (Some "   ")))
           (snd (Scenario.turn "datetime" (Some "   "))) Scenario.afterName
           (fst (Scenario.turn "datetime" (Some "banana sandwich")))
           (snd (Scenario.turn "datetime" (Some "banana sandwich"))) Scenario.afterName
           "banana sandwich" "CA1");
    vm_compute; reflexivity.
Defined.

(** C4 as written does not hold: in the collecting-datetime phase the empty
    utterance and an utterance the parser rejects get different prompts. *)
Lemma datetime_prompts_not_same :
  let w := Scenario.afterName in
  let empty := Scenario.turn "datetime" (Some "") in
  let garbage := Scenario.turn "datetime" (Some "banana sandwich") in
  CallStateStore.phaseOf "CA1" (Voice.calls w) = CallStateStore.collecting_datetime /\
  DateParser.parseDateTime "banana sandwich" (Voice.now (snd garbage)) = None /\
  Voice.promptOf (snd (Scenario.handleVoice (fst empty) (snd empty) w))
  <> Voice.promptOf (snd (Scenario.handleVoice (fst garbage) (snd garbage) w)).
Proof. vm_compute. repeat split. discriminate. Qed.

Lemma replay_books_nothing_witness :
  let request := fst (Scenario.turn "reason" (Some "annual checkup")) in
  let env := snd (Scenario.turn "reason" (Some "annual checkup")) in
  let w1 := fst (Scenario.handleVoice request env Scenario.afterDatetime) in
  let '(w2, reply) := Scenario.handleVoice request env w1 in
  length (Voice.appointments w1) = S (length (Voice.appointments Scenario.afterDatetime)) /\
  Voice.calls w1 !! "CA1" = None /\
  fst (CallStateStore.getCallState "CA1" (Voice.calls w1)) = CallStateStore.initial "CA1" /\
  CallStateStore.phase (fst (CallStateStore.getCallState "CA1" (Voice.calls w1)))
    = CallStateStore.greeting /\
  Voice.appointments w2 = Voice.appointments w1 /\
  reply = Voice.sayMessage Voice.apology.
Proof.
  apply (replay_books_nothing DateParser.parseDateTime DateParser.formatHumanReadable
           (fst (Scenario.turn "reason" (Some "annual checkup")))
           (snd (Scenario.turn "reason" (Some "annual checkup")))
           (snd (Scenario.turn "reason" (Some "annual checkup")))
           Scenario.afterDatetime
           (CallStateStore.mkCallState "CA1" CallStateStore.collecting_reason
              (Some "Jane Doe") (Some "2026-11-03T15:00:00.000Z") None None)
           "CA1" "Jane Doe" "2026-11-03T15:00:00.000Z" "annual checkup");
    first [ discriminate | vm_compute; reflexivity ].
Defined.

(** ** C10: the contact number of a call that never gave one *)
Section ContactNumber.
Import CallStateStore Voice.

Variable parseDateTime : string -> Z -> option Z.
Variable formatHumanReadable : string -> string.

Local Abbreviation handle := (Voice.handle parseDateTime formatHumanReadable).
Local Abbreviation bookedBy := (Voice.bookedBy parseDateTime formatHumanReadable).

Lemma contactNumberOf_ext id w w' :
  calls w' !! id = calls w !! id -> contactNumberOf id w' = contactNumberOf id w.
Proof. unfold contactNumberOf, getCallState. intros ->. now destruct (calls w !! id). Qed.

Lemma contactNumberOf_lookup id w s :
  calls w !! id = Some s -> contactNumberOf id w = contactNumber s.
Proof. unfold contactNumberOf, getCallState. now intros ->. Qed.

Lemma contactNumberOf_absent id w :
  calls w !! id = None -> contactNumberOf id w = None.
Proof. unfold contactNumberOf, getCallState. now intros ->. Qed.

(** No turn gives call [id] a number unless it carries one for [id]. *)
Lemma handle_contactNumber_unset request env w id :
  wf (calls w) -> contactNumberOf id w = None ->
  (callSidOf request env = id -> present (formFrom request) = false) ->
  contactNumberOf id (fst (handle request env w)) = None.
Proof.
  intros Hwf Hnone Hfrom.
  destruct (decide (callSidOf request env = id)) as [Heq|Hne].
  2:{ rewrite <- Hnone. apply contactNumberOf_ext. now apply handle_frame. }
  specialize (Hfrom Heq).
  pose proof (entry_contactNumber_unset request env w Hfrom) as He.
  rewrite Heq, Hnone in He.
  destruct (handle_outcome parseDateTime formatHumanReadable request env w Hwf)
    as [[Hc _] | [(s' & Hc & _ & _ & Hcn & _) | (s' & a & _ & Hc & _)]].
  - rewrite (contactNumberOf_lookup id _ (entry request env w)); [exact He|].
    rewrite Hc, <- Heq. apply opened_lookup.
  - rewrite (contactNumberOf_lookup id _ s'); [congruence|].
    rewrite Hc, Heq. apply lookup_insert_eq.
  - apply contactNumberOf_absent. rewrite Hc, Heq. apply lookup_delete_eq.
Qed.

(** What a turn of such a call books carries the fallback number. *)
Lemma handle_created_unknown request env w a :
  wf (calls w) -> contactNumberOf (callSidOf request env) w = None ->
  present (formFrom request) = false ->
  In a (created w (fst (handle request env w))) ->
  AppointmentsStore.contactNumber a = JStr "Unknown".
Proof.
  intros Hwf Hnone Hfrom. unfold created.
  pose proof (entry_contactNumber_unset request env w Hfrom) as He. rewrite Hnone in He.
  destruct (handle_outcome parseDateTime formatHumanReadable request env w Hwf)
    as [[_ Ha] | [(s' & _ & Ha & _) | (s' & b & _ & _ & Ha & Hcn)]]; rewrite Ha.
  - rewrite Nat.sub_diag. intros [].
  - rewrite Nat.sub_diag. intros [].
  - replace (length (b :: appointments w) - length (appointments w))%nat with 1%nat
      by (simpl; lia).
    simpl. intros [<- | []]. now rewrite Hcn, He.
Qed.

(** C10.  Along every sequence of turns, starting where call [id] has no
    number on record, in which no turn of [id] carries a caller number, every
    appointment a turn of [id] books has the contact number "Unknown". *)
Theorem no_caller_number_books_unknown id turns w :
  wf (calls w) ->
  contactNumberOf id w = None ->
  (forall request env,
      In (request, env) turns -> callSidOf request env = id ->
      present (formFrom request) = false) ->
  forall a, In a (bookedBy id turns w) -> AppointmentsStore.contactNumber a = JStr "Unknown".
Proof.
  revert w. induction turns as [|[request env] rest IH]; intros w Hwf Hnone Hfrom a; simpl.
  - intros [].
  - rewrite in_app_iff. intros [Hhere | Hlater].
    + destruct (String.eqb_spec (callSidOf request env) id) as [Heq|Hne]; [|destruct Hhere].
      eapply handle_created_unknown; [exact Hwf | now rewrite Heq | | exact Hhere].
      apply (Hfrom request env); [now left | exact Heq].
    + apply (IH (fst (handle request env w))); [now apply handle_wf | | | exact Hlater].
      * apply handle_contactNumber_unset; [exact Hwf | exact Hnone |].
        intros Heq. apply (Hfrom request env); [now left | exact Heq].
      * intros r e Hin. apply (Hfrom r e). now right.
Qed.

End ContactNumber.

Lemma no_caller_number_books_unknown_witness :
  Voice.bookedBy DateParser.parseDateTime DateParser.formatHumanReadable "CA1"
    Scenario.janeDoe Scenario.start <> [] /\
  forall a,
    In a (Voice.bookedBy DateParser.parseDateTime DateParser.formatHumanReadable "CA1"
            Scenario.janeDoe Scenario.start) ->
    AppointmentsStore.contactNumber a = JStr "Unknown".
Proof.
  split; [vm_compute; discriminate|].
  apply (no_caller_number_books_unknown DateParser.parseDateTime DateParser.formatHumanReadable
           "CA1" Scenario.janeDoe Scenario.start).
  - exact wf_empty.
  - vm_compute. reflexivity.
  - intros request env Hin _. simpl in Hin.
    destruct Hin as [H | [H | [H | [H | []]]]]; injection H as <- <-; reflexivity.
Defined.

(** ** C7: the appointment endpoint *)
Section Endpoint.
Import AppointmentsStore AppointmentsRoute.

(** C7, amended.  A body that parses to a truthy value (anything but [null],
    [false], [0] and the empty string) is answered 201 with the appointment
    created: each field is the payload's, or its default when the payload has
    none or has [null]; the summary, when it has to be synthesized, names the
    customer as a string, [name], or "client" (the conversion to a string has
    to succeed when the summary is synthesized).  The four falsy values are
    answered 400 "Request body missing", and a body that does not parse is
    answered 400; neither adds an appointment. *)
Theorem post_substitutes_defaults payload uuid now store name :
  Js.truthy payload = true ->
  (Js.orElse (Js.getProp payload "callSummary") JNull = JNull ->
   Js.toString (Js.orElse (Js.getProp payload "customerName") (JStr "client")) = Some name) ->
  (exists a,
      POST (Parsed payload) uuid now store = (a :: store, Created a) /\
      status (Created a) = 201 /\
      id a = uuid /\ createdAt a = Date.toISOString now /\
      contactNumber a = Js.orElse (Js.getProp payload "contactNumber") (JStr "Unknown") /\
      customerName a = Js.orElse (Js.getProp payload "customerName") (JStr "") /\
      appointmentDateTime a = Js.orElse (Js.getProp payload "appointmentDateTime") (JStr "") /\
      reason a = Js.orElse (Js.getProp payload "reason") (JStr "") /\
      callSummary a =
        Js.orElse (Js.getProp payload "callSummary")
          (JStr ("Conversation booked for " ++ name ++ "."))) /\
  (forall falsy, Js.truthy falsy = false ->
      POST (Parsed falsy) uuid now store = (store, BadRequest "Request body missing")) /\
  (forall message,
      POST (Thrown message) uuid now store = (store, BadRequest message)).
Proof.
  intros Ht Hname. split; [|split].
  - unfold POST. rewrite Ht. simpl.
    destruct (Js.getProp payload "callSummary") as [[]|]; simpl in *;
      try rewrite (Hname eq_refl); eexists; repeat split; reflexivity.
  - intros falsy Hf. unfold POST. now rewrite Hf.
  - reflexivity.
Qed.

(** When every field is missing, the defaults are the literal ones. *)
Lemma post_empty_object uuid now store :
  POST (Parsed (JObj [])) uuid now store =
    (mkAppointment uuid (JStr "") (JStr "") (JStr "") (JStr "Unknown")
       (JStr "Conversation booked for client.") (Date.toISOString now) :: store,
     Created (mkAppointment uuid (JStr "") (JStr "") (JStr "") (JStr "Unknown")
                (JStr "Conversation booked for client.") (Date.toISOString now))).
Proof. reflexivity. Qed.

End Endpoint.

Lemma post_substitutes_defaults_witness :
  (exists a,
      AppointmentsRoute.POST
        (AppointmentsRoute.Parsed (JObj [("customerName", JStr "Jane Doe"); ("reason", JNull)]))
        "uuid-1" Scenario.sunday []
      = ([a], AppointmentsRoute.Created a) /\
      AppointmentsStore.contactNumber a = JStr "Unknown" /\
      AppointmentsStore.customerName a = JStr "Jane Doe" /\
      AppointmentsStore.appointmentDateTime a = JStr "" /\
      AppointmentsStore.reason a = JStr "" /\
      AppointmentsStore.callSummary a = JStr "Conversation booked for Jane Doe.").
Proof.
  destruct (post_substitutes_defaults
              (JObj [("customerName", JStr "Jane Doe"); ("reason", JNull)])
              "uuid-1" Scenario.sunday [] "Jane Doe" eq_refl (fun _ => eq_refl))
    as [(a & Hpost & _ & _ & _ & Hc & Hn & Hd & Hr & Hs) _].
  exists a. repeat split; assumption.
Defined.

(** C7 as written does not hold: the body [null] parses as JSON and is
    answered 400; nothing is created. *)
Lemma post_null_rejected :
  AppointmentsRoute.POST (AppointmentsRoute.Parsed JNull) "uuid-1" Scenario.sunday []
  = ([], AppointmentsRoute.BadRequest "Request body missing") /\
  AppointmentsRoute.status (AppointmentsRoute.BadRequest "Request body missing") = 400.
Proof. split; reflexivity. Qed.

(** ** The parser on phrases without a date or time word *)
Section Unrecognized.
Import DateParser.

Lemma number_no_digit s : hasDigit s = false -> Str.number s = None.
Proof.
  destruct s as [|c r]; [reflexivity|]. simpl. intros H.
  apply orb_false_iff in H as [-> _]. reflexivity.
Qed.

Lemma substring_no_digit s : forall n m, hasDigit s = false -> hasDigit (String.substring n m s) = false.
Proof.
  induction s as [|c r IH]; intros n m H.
  - destruct n, m; reflexivity.
  - simpl in H. apply orb_false_iff in H as [Hc Hr].
    destruct n as [|n]; [destruct m as [|m]|]; simpl.
    + reflexivity.
    + rewrite Hc. simpl. now apply IH.
    + now apply IH.
Qed.

Lemma splitClock_no_digit s : hasDigit s = false -> splitClock s = None.
Proof.
  intros H. unfold splitClock. destruct (String.index 0 ":" s) as [i|].
  - now rewrite (number_no_digit _ (substring_no_digit s 0 i H)).
  - now rewrite (number_no_digit _ H).
Qed.

Lemma dropSuffix_no_digit suffix s p :
  hasDigit s = false -> dropSuffix suffix s = Some p -> hasDigit p = false.
Proof.
  intros H. unfold dropSuffix. case_match; [|discriminate].
  intros [= <-]. now apply substring_no_digit.
Qed.

Lemma recognizable_false w :
  recognizable w = false ->
  hasDigit w = false /\ existsb (String.eqb w) keywords = false /\
  assoc w weekdays = None /\ assoc w months = None.
Proof.
  unfold recognizable. rewrite !orb_false_iff, !bool_decide_eq_false.
  intros [[[Hd Hk] Hw] Hm]. repeat split; try assumption.
  - destruct (assoc w weekdays); [elim Hw; eauto | reflexivity].
  - destruct (assoc w months); [elim Hm; eauto | reflexivity].
Qed.

Lemma findDate_unrecognized ws :
  forallb (fun w => negb (recognizable w)) ws = true -> findDate ws = None.
Proof.
  induction ws as [|w rest IH]; [reflexivity|]. simpl forallb.
  rewrite andb_true_iff, negb_true_iff. intros [Hw Hrest].
  apply recognizable_false in Hw as (_ & Hk & Hwd & Hm).
  simpl in Hk. rewrite !orb_false_iff in Hk. destruct Hk as (Htoday & Htomorrow & _).
  cbn [findDate]. rewrite Htoday, Htomorrow, Hwd, Hm.
  specialize (IH Hrest).
  assert (Hnext :
    (if String.eqb w "next"
     then match rest with
          | [] => None
          | w' :: _ =>
              match assoc w' weekdays with
              | Some wd => Some (OnWeekday true wd)
              | None => findDate rest
              end
          end
     else findDate rest) = None).
  { destruct (String.eqb w "next"); [|exact IH].
    destruct rest as [|w' rest']; [reflexivity|].
    simpl in Hrest. apply andb_true_iff in Hrest as [Hw' _].
    apply negb_true_iff, recognizable_false in Hw' as (_ & _ & -> & _). exact IH. }
  destruct rest; exact Hnext.
Qed.

Lemma findTime_unrecognized ws :
  forallb (fun w => negb (recognizable w)) ws = true -> findTime ws = None.
Proof.
  induction ws as [|w rest IH]; [reflexivity|]. simpl forallb.
  rewrite andb_true_iff, negb_true_iff. intros [Hw Hrest].
  apply recognizable_false in Hw as (Hd & Hk & _ & _).
  simpl in Hk. rewrite !orb_false_iff in Hk.
  destruct Hk as (_ & _ & Hnoon & Hmorning & Hafternoon & Hevening & _).
  cbn [findTime].
  rewrite (splitClock_no_digit w Hd).
  destruct (dropSuffix "am" w) as [p|] eqn:Ham.
  { rewrite (splitClock_no_digit p (dropSuffix_no_digit _ _ _ Hd Ham)). simpl.
    rewrite Hnoon, Hmorning, Hafternoon, Hevening. now apply IH. }
  destruct (dropSuffix "pm" w) as [p|] eqn:Hpm.
  { rewrite (splitClock_no_digit p (dropSuffix_no_digit _ _ _ Hd Hpm)). simpl.
    rewrite Hnoon, Hmorning, Hafternoon, Hevening. now apply IH. }
  rewrite Hnoon, Hmorning, Hafternoon, Hevening. now apply IH.
Qed.

(** A phrase none of whose words is a numeral, a weekday, a month or one of
    today, tomorrow, noon, morning, afternoon, evening has no parse,
    whatever the reference instant. *)
Lemma parseDateTime_unrecognized text reference :
  forallb (fun w => negb (recognizable w)) (words text) = true ->
  parseDateTime text reference = None.
Proof.
  intros H. unfold parseDateTime.
  now rewrite (findDate_unrecognized _ H), (findTime_unrecognized _ H).
Qed.

End Unrecognized.

(** ** The simulator, branch by branch *)
Section SimulatorFacts.
Import Simulator.

Variable parseDateTime : string -> Z -> option Z.
Variable formatHumanReadable : string -> string.

Local Abbreviation submit := (handleSubmitResponse parseDateTime formatHumanReadable).

Lemma post_payload n d r c sm uuid now store :
  AppointmentsRoute.POST (AppointmentsRoute.Parsed (payloadJson n d r c sm)) uuid now store
  = (AppointmentsStore.mkAppointment uuid (JStr n) (JStr d) (JStr r) (JStr c) (JStr sm)
       (Date.toISOString now) :: store,
     AppointmentsRoute.Created
       (AppointmentsStore.mkAppointment uuid (JStr n) (JStr d) (JStr r) (JStr c) (JStr sm)
          (Date.toISOString now))).
Proof. reflexivity. Qed.

Lemma submit_ignored env w :
  negb (callActive (ui w)) || isSubmitting (ui w) = true -> submit env w = w.
Proof. unfold handleSubmitResponse. now intros ->. Qed.

Lemma submit_empty env w :
  callActive (ui w) = true -> isSubmitting (ui w) = false ->
  Str.nonEmpty (Str.trim (pendingResponse (ui w))) = false ->
  submit env w
  = mkWorld (setError (Some "Please provide a response before continuing.") (ui w)) (server w).
Proof. unfold handleSubmitResponse. now intros -> -> ->. Qed.

Lemma submit_greeting env w :
  callActive (ui w) = true -> isSubmitting (ui w) = false ->
  Str.nonEmpty (Str.trim (pendingResponse (ui w))) = true ->
  activeStep (ui w) = Some "greeting" ->
  submit env w
  = mkWorld
      (setTimeout (sayLater (promptAt 1))
         (setCurrentStepIdx 1
            (setForm (fun prev => mkForm (Some (Str.trim (pendingResponse (ui w))))
                                    (requestedSlot prev) (reason prev) (phoneNumber prev))
               (accepted (ui w)))))
      (server w).
Proof. unfold handleSubmitResponse. now intros -> -> -> ->. Qed.

Lemma submit_datetime_unparsed env w :
  callActive (ui w) = true -> isSubmitting (ui w) = false ->
  Str.nonEmpty (Str.trim (pendingResponse (ui w))) = true ->
  activeStep (ui w) = Some "datetime" ->
  parseDateTime (Str.trim (pendingResponse (ui w))) (now env) = None ->
  submit env w
  = mkWorld
      (pushTranscript agent
         "Apologies, I couldn't recognise that time. Could you rephrase it, for example next Tuesday at 3 PM?"
         (accepted (ui w)))
      (server w).
Proof. unfold handleSubmitResponse. intros -> -> -> -> H. simpl. now rewrite H. Qed.

Lemma submit_datetime_parsed env w parsed :
  callActive (ui w) = true -> isSubmitting (ui w) = false ->
  Str.nonEmpty (Str.trim (pendingResponse (ui w))) = true ->
  activeStep (ui w) = Some "datetime" ->
  parseDateTime (Str.trim (pendingResponse (ui w))) (now env) = Some parsed ->
  submit env w
  = mkWorld
      (setTimeout (sayLater (promptAt 2))
         (setCurrentStepIdx 2
            (setForm (fun prev => mkForm (name prev) (Some (Date.toISOString parsed))
                                    (reason prev) (phoneNumber prev))
               (accepted (ui w)))))
      (server w).
Proof. unfold handleSubmitResponse. intros -> -> -> -> H. simpl. now rewrite H. Qed.

Lemma submit_reason_stage env w :
  callActive (ui w) = true -> isSubmitting (ui w) = false ->
  Str.nonEmpty (Str.trim (pendingResponse (ui w))) = true ->
  activeStep (ui w) = Some "reason" ->
  let s' := ui (submit env w) in
  currentStepIdx s' = 3 /\ callActive s' = true /\ isSubmitting s' = false /\
  timers s' = timers (ui w).
Proof.
  unfold handleSubmitResponse. intros Ha -> -> ->. rewrite Ha. simpl.
  unfold fetchAppointments.
  destruct (postAnswered env); [destruct (getAnswered env)|]; simpl; auto.
Qed.

Lemma submit_other env w :
  callActive (ui w) = true -> isSubmitting (ui w) = false ->
  Str.nonEmpty (Str.trim (pendingResponse (ui w))) = true ->
  activeStep (ui w) <> Some "greeting" -> activeStep (ui w) <> Some "datetime" ->
  activeStep (ui w) <> Some "reason" ->
  submit env w = mkWorld (accepted (ui w)) (server w).
Proof.
  unfold handleSubmitResponse. intros -> -> -> H1 H2 H3. simpl.
  now rewrite !bool_decide_eq_false_2 by assumption.
Qed.

End SimulatorFacts.

(** ** C6: a phrase the parser finds nothing in *)
Section Garbage.
Import CallStateStore.

(** The parser fails on a phrase exactly when it finds no date and no time
    expression in it; the reference instant plays no part. *)
Lemma parseDateTime_None_iff text reference :
  DateParser.parseDateTime text reference = None <-> DateParser.noToken text.
Proof.
  unfold DateParser.parseDateTime, DateParser.noToken.
  destruct (DateParser.findDate (DateParser.words text)) as [[next wd | m d [y|] | k]|];
    destruct (DateParser.findTime (DateParser.words text)) as [hm|];
    try destruct (Date.civilFromDays _) as [[y' ?] ?];
    try destruct (_ <? reference);
    split; try discriminate; try (intros [? ?]; discriminate); auto.
Qed.

(** C6.  The parser returns its failure value on exactly the phrases in
    which it finds no date and no time expression, whatever the reference
    instant: on those it yields no instant at all, so neither the reference
    nor any other default; phrases without a numeral, a weekday, a month or
    one of today, tomorrow, noon, morning, afternoon, evening are among
    them.  Whatever the parser, the webhook answers an utterance it fails
    on at the [datetime] step by asking again for the same step, leaving
    phases and appointments as they were, and the simulator answers it by an
    apology in the transcript, leaving the step, the form and the server as
    they were. *)
Theorem unrecognized_phrase_reprompts :
  (forall text reference,
      DateParser.parseDateTime text reference = None <-> DateParser.noToken text) /\
  (forall text,
      forallb (fun w => negb (DateParser.recognizable w)) (DateParser.words text) = true ->
      DateParser.noToken text) /\
  (forall parseDateTime formatHumanReadable request env w id speech,
      Voice.stepParam request = Some "datetime" ->
      Voice.speechResultOf request = Some speech ->
      parseDateTime speech (Voice.now env) = None ->
      let '(w', reply) := Voice.handle parseDateTime formatHumanReadable request env w in
      reply = Voice.gatherPrompt Voice.clarifyDatetime "datetime" (Voice.origin request) /\
      Voice.terminal reply = false /\
      Voice.nextStep reply = Some "datetime" /\
      phaseOf id (Voice.calls w') = phaseOf id (Voice.calls w) /\
      Voice.appointments w' = Voice.appointments w) /\
  (forall parseDateTime formatHumanReadable env w,
      Simulator.callActive (Simulator.ui w) = true ->
      Simulator.isSubmitting (Simulator.ui w) = false ->
      Simulator.activeStep (Simulator.ui w) = Some "datetime" ->
      Str.trim (Simulator.pendingResponse (Simulator.ui w)) <> "" ->
      parseDateTime (Str.trim (Simulator.pendingResponse (Simulator.ui w))) (Simulator.now env)
      = None ->
      let w' := Simulator.handleSubmitResponse parseDateTime formatHumanReadable env w in
      Simulator.currentStepIdx (Simulator.ui w') = Simulator.currentStepIdx (Simulator.ui w) /\
      Simulator.form (Simulator.ui w') = Simulator.form (Simulator.ui w) /\
      Simulator.timers (Simulator.ui w') = Simulator.timers (Simulator.ui w) /\
      Simulator.transcript (Simulator.ui w')
      = (Simulator.transcript (Simulator.ui w) ++
         [(Simulator.caller, Str.trim (Simulator.pendingResponse (Simulator.ui w)));
          (Simulator.agent,
           "Apologies, I couldn't recognise that time. Could you rephrase it, for example next Tuesday at 3 PM?")])%list /\
      Simulator.server w' = Simulator.server w).
Proof.
  split; [exact parseDateTime_None_iff|]. split; [|split].
  - intros text Hun. split;
      [now apply findDate_unrecognized | now apply findTime_unrecognized].
  - intros parse fmt request env w id speech Hstep Hs Hfail.
    rewrite (handle_datetime_unparsed _ _ _ _ _ speech) by assumption.
    repeat split. simpl. apply opened_phaseOf.
  - intros parse fmt env w Ha Hsub Hstep Hne Hfail.
    apply nonEmpty_true in Hne.
    rewrite submit_datetime_unparsed by assumption.
    simpl. rewrite <- app_assoc. repeat split.
Qed.

End Garbage.

Lemma unrecognized_phrase_reprompts_witness :
  DateParser.noToken "room 12" /\
  (forall reference, DateParser.parseDateTime "room 12" reference = None) /\
  (forall reference, DateParser.parseDateTime "banana sandwich" reference = None) /\
  Voice.nextStep
    (snd (Scenario.handleVoice (fst (Scenario.turn "datetime" (Some " room 12 ")))
            (snd (Scenario.turn "datetime" (Some " room 12 "))) Scenario.afterName))
  = Some "datetime".
Proof.
  destruct unrecognized_phrase_reprompts as (Hiff & Hvocabulary & Hvoice & _).
  assert (Hroom : DateParser.noToken "room 12") by (split; vm_compute; reflexivity).
  split; [exact Hroom|]. split; [|split].
  - intros reference. now apply Hiff.
  - intros reference. apply Hiff, Hvocabulary. vm_compute. reflexivity.
  - specialize (Hvoice DateParser.parseDateTime DateParser.formatHumanReadable
                  (fst (Scenario.turn "datetime" (Some " room 12 ")))
                  (snd (Scenario.turn "datetime" (Some " room 12 ")))
                  Scenario.afterName "CA1" "room 12" eq_refl eq_refl
                  (proj2 (Hiff "room 12" _) Hroom)).
    unfold Scenario.handleVoice.
    destruct (Voice.handle _ _ _ _ _) as [w' reply]. simpl.
    destruct Hvoice as (_ & _ & Hnext & _). exact Hnext.
Defined.

(** ** C8: the two adapters *)
Section TwoAdapters.
Import Lockstep.

Variable parseDateTime : string -> Z -> option Z.
Variable formatHumanReadable : string -> string.
Variables (callSid origin : string).

Local Abbreviation voiceTurn := (Lockstep.voiceTurn parseDateTime formatHumanReadable callSid origin).
Local Abbreviation simTurn := (Lockstep.simTurn parseDateTime formatHumanReadable).
Local Abbreviation stages := (Lockstep.stages parseDateTime formatHumanReadable callSid origin).

Lemma speech_of_utterance step u :
  Voice.speechResultOf (Voice.mkRequest (Some step) origin (Some callSid) None (Some u) None)
  = if Str.nonEmpty (Str.trim u) then Some (Str.trim u) else None.
Proof.
  unfold Voice.speechResultOf. simpl. now destruct (Str.nonEmpty (Str.trim u)).
Qed.

Lemma inStep_stage c w : inStep c w -> voiceStage c = simStage w.
Proof.
  intros (_ & _ & _ & [[Ha Hi] | [[Ha Hi] | [[Ha Hi] | [Ha Hi]]]]);
    unfold voiceStage, simStage, Simulator.activeStep; rewrite Ha, Hi; reflexivity.
Qed.

Lemma handle_reason_hangs_up request env w speech :
  Voice.stepParam request = Some "reason" ->
  Voice.speechResultOf request = Some speech ->
  Voice.nextStep (snd (Voice.handle parseDateTime formatHumanReadable request env w)) = None.
Proof.
  intros Hstep Hs.
  destruct (Voice.present (CallStateStore.customerName (Voice.entry request env w))
            && Voice.present (CallStateStore.appointmentDateTime (Voice.entry request env w)))
    eqn:Hp.
  - apply andb_true_iff in Hp as [Hn Hd].
    apply present_Some in Hn as (name & Hn & Hn'), Hd as (date & Hd & Hd').
    now rewrite (handle_reason_booked _ _ _ _ _ speech name date).
  - now rewrite (handle_reason_aborted _ _ _ _ _ speech).
Qed.

Lemma fireAll_one s text :
  Simulator.timers s = [] ->
  let s' :=
    fireAll (length (Simulator.timers (Simulator.setTimeout (Simulator.sayLater text) s)))
      (Simulator.setTimeout (Simulator.sayLater text) s) in
  Simulator.callActive s' = Simulator.callActive s /\
  Simulator.isSubmitting s' = Simulator.isSubmitting s /\
  Simulator.timers s' = [] /\
  Simulator.currentStepIdx s' = Simulator.currentStepIdx s /\
  Simulator.transcript s' = (Simulator.transcript s ++ [(Simulator.agent, text)])%list.
Proof.
  intros H. unfold Simulator.setTimeout. simpl. rewrite H. simpl.
  unfold Simulator.fire. simpl. repeat split.
Qed.

Lemma inStep_turn u env c w : inStep c w -> inStep (voiceTurn u env c) (simTurn u env w).
Proof.
  destruct c as [vw aw]. destruct w as [s srv].
  intros (Hact & Hsub & Htim & Hcases). simpl in *.
  unfold Lockstep.voiceTurn, Lockstep.simTurn. simpl.
  set (typed := Simulator.mkWorld (Simulator.setPendingResponse u s) srv).
  assert (Hact' : Simulator.callActive (Simulator.ui typed) = true) by exact Hact.
  assert (Hsub' : Simulator.isSubmitting (Simulator.ui typed) = false) by exact Hsub.
  destruct (Str.nonEmpty (Str.trim u)) eqn:Hu.
  2:{ (* nothing said: both ask again *)
    rewrite (submit_empty _ _ env typed Hact' Hsub' Hu). simpl. rewrite Htim. simpl.
    destruct Hcases as [[-> Hi] | [[-> Hi] | [[-> Hi] | [-> Hi]]]];
      try (rewrite handle_silent;
           [| now rewrite speech_of_utterance, Hu | discriminate ]);
      simpl; unfold inStep; simpl; intuition auto. }
  assert (Hu' : Str.nonEmpty (Str.trim (Simulator.pendingResponse (Simulator.ui typed))) = true)
    by exact Hu.
  destruct Hcases as [[-> Hi] | [[-> Hi] | [[-> Hi] | [-> Hi]]]].
  - rewrite (handle_name _ _ _ _ _ (Str.trim u));
      [| reflexivity | now rewrite speech_of_utterance, Hu].
    rewrite submit_greeting;
      [| assumption | assumption | assumption
       | unfold Simulator.activeStep; simpl; now rewrite Hi ].
    cbn [Simulator.ui Simulator.server].
    match goal with
    | |- context [fireAll _ (Simulator.setTimeout (Simulator.sayLater ?t) ?s0)] =>
        destruct (fireAll_one s0 t Htim) as (Ha1 & Hs1 & Ht1 & Hi1 & _)
    end.
    unfold inStep. cbn [Simulator.ui awaiting Voice.nextStep]. rewrite Ha1, Hs1, Ht1, Hi1.
    simpl. intuition auto.
  - destruct (parseDateTime (Str.trim u) (Simulator.now env)) as [parsed|] eqn:Hp.
    + rewrite (handle_datetime_parsed _ _ _ _ _ (Str.trim u) parsed);
        [| reflexivity | now rewrite speech_of_utterance, Hu | exact Hp].
      rewrite (submit_datetime_parsed _ _ _ _ parsed);
        [| assumption | assumption | assumption
         | unfold Simulator.activeStep; simpl; now rewrite Hi | exact Hp ].
      cbn [Simulator.ui Simulator.server].
      match goal with
      | |- context [fireAll _ (Simulator.setTimeout (Simulator.sayLater ?t) ?s0)] =>
          destruct (fireAll_one s0 t Htim) as (Ha1 & Hs1 & Ht1 & Hi1 & _)
      end.
      unfold inStep. cbn [Simulator.ui awaiting Voice.nextStep]. rewrite Ha1, Hs1, Ht1, Hi1.
      simpl. intuition auto.
    + rewrite (handle_datetime_unparsed _ _ _ _ _ (Str.trim u));
        [| reflexivity | now rewrite speech_of_utterance, Hu | exact Hp].
      rewrite submit_datetime_unparsed;
        [| assumption | assumption | assumption
         | unfold Simulator.activeStep; simpl; now rewrite Hi | exact Hp ].
      simpl. rewrite Htim. simpl. unfold inStep. simpl. intuition auto.
  - pose proof (handle_reason_hangs_up
                  (Voice.mkRequest (Some "reason") origin (Some callSid) None (Some u) None)
                  (voiceEnv env) vw (Str.trim u) eq_refl) as Hhang.
    rewrite speech_of_utterance, Hu in Hhang. specialize (Hhang eq_refl).
    destruct (Voice.handle _ _ _ _ _) as [vw' reply]. simpl in Hhang. simpl.
    destruct (submit_reason_stage parseDateTime formatHumanReadable env typed)
      as (Hi' & Ha' & Hs' & Ht');
      [ assumption | assumption | assumption
      | unfold Simulator.activeStep; simpl; now rewrite Hi |].
    simpl in Ht'. rewrite Ht', Htim. simpl. unfold inStep. simpl.
    rewrite Hhang. repeat split; try assumption; try congruence. auto 10.
  - rewrite submit_other;
      [| assumption | assumption | assumption
       | unfold Simulator.activeStep; simpl; rewrite Hi; discriminate
       | unfold Simulator.activeStep; simpl; rewrite Hi; discriminate
       | unfold Simulator.activeStep; simpl; rewrite Hi; discriminate ].
    simpl. rewrite Htim. simpl. unfold inStep. simpl. intuition auto.
Qed.

Lemma stages_agree utterances c w :
  inStep c w -> Forall (fun p => fst p = snd p) (stages utterances c w).
Proof.
  revert c w. induction utterances as [|[u env] rest IH]; intros c w Hin; simpl.
  - constructor.
  - pose proof (inStep_turn u env c w Hin) as Hnext. constructor.
    + simpl. now apply inStep_stage.
    + now apply IH.
Qed.

Lemma inStep_start env vw initialAppointments srv :
  inStep (voiceStart parseDateTime formatHumanReadable callSid origin env vw)
    (simStart (Simulator.mkWorld (Simulator.initialState initialAppointments) srv)).
Proof.
  unfold voiceStart. rewrite handle_init by reflexivity.
  unfold inStep. simpl. intuition auto.
Qed.

End TwoAdapters.

Section TwoAdaptersClaim.
Import Lockstep.

Variable parseDateTime : string -> Z -> option Z.
Variable formatHumanReadable : string -> string.

(** C8, amended.  For every sequence of caller utterances the webhook (each
    turn posted to the step its last reply named) and the simulator are in
    the same stage after every utterance: awaiting the name, the date and
    time, the reason, or finished.  Their prompts differ: after a non-empty
    name the webhook stores it and asks for the date and time in a prompt
    that contains the name, while the simulator puts it on the form and
    schedules the fixed second prompt of its script. *)
Theorem adapters_share_stages callSid origin utterances env0 vw initialAppointments srv :
  Forall (fun p : Stage * Stage => fst p = snd p)
    (stages parseDateTime formatHumanReadable callSid origin utterances
       (voiceStart parseDateTime formatHumanReadable callSid origin env0 vw)
       (simStart (Simulator.mkWorld (Simulator.initialState initialAppointments) srv))) /\
  (forall request env w name,
      Voice.stepParam request = Some "name" ->
      Voice.speechResultOf request = Some name ->
      let '(w', reply) := Voice.handle parseDateTime formatHumanReadable request env w in
      reply = Voice.gatherPrompt
                ("Thanks " ++ name ++ ". What day and time would you like to book the appointment for?")
                "datetime" (Voice.origin request) /\
      Str.Includes name (Voice.promptOf reply) /\
      exists st,
        Voice.calls w' !! Voice.callSidOf request env = Some st /\
        CallStateStore.customerName st = Some name /\
        CallStateStore.phase st = CallStateStore.collecting_datetime) /\
  (forall env w,
      Simulator.callActive (Simulator.ui w) = true ->
      Simulator.isSubmitting (Simulator.ui w) = false ->
      Str.nonEmpty (Str.trim (Simulator.pendingResponse (Simulator.ui w))) = true ->
      Simulator.activeStep (Simulator.ui w) = Some "greeting" ->
      let w' := Simulator.handleSubmitResponse parseDateTime formatHumanReadable env w in
      Simulator.name (Simulator.form (Simulator.ui w'))
        = Some (Str.trim (Simulator.pendingResponse (Simulator.ui w))) /\
      Simulator.activeStep (Simulator.ui w') = Some "datetime" /\
      Simulator.timers (Simulator.ui w')
        = (Simulator.timers (Simulator.ui w) ++
           [Simulator.sayLater "Perfect, thank you. What day and time works best for your visit?"])%list).
Proof.
  split; [|split].
  - apply stages_agree, inStep_start.
  - intros request env w name Hstep Hs.
    rewrite (handle_name _ _ _ _ _ name) by assumption.
    split; [reflexivity|]. split; [exists "Thanks "; eexists; reflexivity|].
    eexists. split; [apply saved_lookup|]. split; reflexivity.
  - intros env w Ha Hsub Hne Hstep.
    rewrite submit_greeting by assumption. repeat split.
Qed.

End TwoAdaptersClaim.

Lemma adapters_share_stages_witness :
  Lockstep.stages DateParser.parseDateTime DateParser.formatHumanReadable "CA1"
    "https://clinic.example"
    [("Jane Doe", Simulator.mkEnv Scenario.sunday true true "uuid-1" Scenario.sunday);
     ("banana sandwich", Simulator.mkEnv Scenario.sunday true true "uuid-1" Scenario.sunday);
     ("next Tuesday at 3 PM", Simulator.mkEnv Scenario.sunday true true "uuid-1" Scenario.sunday);
     ("annual checkup", Simulator.mkEnv Scenario.sunday true true "uuid-1" Scenario.sunday)]
    (Lockstep.voiceStart DateParser.parseDateTime DateParser.formatHumanReadable "CA1"
       "https://clinic.example"
       (Simulator.mkEnv Scenario.sunday true true "uuid-1" Scenario.sunday) Scenario.start)
    (Lockstep.simStart (Simulator.mkWorld (Simulator.initialState []) []))
  = [(Lockstep.awaitingDatetime, Lockstep.awaitingDatetime);
     (Lockstep.awaitingDatetime, Lockstep.awaitingDatetime);
     (Lockstep.awaitingReason, Lockstep.awaitingReason);
     (Lockstep.finished, Lockstep.finished)] /\
  Forall (fun p : Lockstep.Stage * Lockstep.Stage => fst p = snd p)
    (Lockstep.stages DateParser.parseDateTime DateParser.formatHumanReadable "CA1"
       "https://clinic.example"
       [("Jane Doe", Simulator.mkEnv Scenario.sunday true true "uuid-1" Scenario.sunday)]
       (Lockstep.voiceStart DateParser.parseDateTime DateParser.formatHumanReadable "CA1"
          "https://clinic.example"
          (Simulator.mkEnv Scenario.sunday true true "uuid-1" Scenario.sunday) Scenario.start)
       (Lockstep.simStart (Simulator.mkWorld (Simulator.initialState []) []))).
Proof.
  split; [vm_compute; reflexivity|].
  apply (adapters_share_stages DateParser.parseDateTime DateParser.formatHumanReadable
           "CA1" "https://clinic.example"
           [("Jane Doe", Simulator.mkEnv Scenario.sunday true true "uuid-1" Scenario.sunday)]
           (Simulator.mkEnv Scenario.sunday true true "uuid-1" Scenario.sunday)
           Scenario.start [] []).
Defined.

(** C8 as written does not hold: after the name "Jane Doe" the webhook's
    prompt contains the name, the simulator's next prompt does not. *)
Lemma simulator_prompt_lacks_name :
  let env := Simulator.mkEnv Scenario.sunday true true "uuid-1" Scenario.sunday in
  let w :=
    Lockstep.simTurn DateParser.parseDateTime DateParser.formatHumanReadable "Jane Doe" env
      (Lockstep.simStart (Simulator.mkWorld (Simulator.initialState []) [])) in
  let reply :=
    snd (Scenario.handleVoice (fst (Scenario.turn "name" (Some "Jane Doe")))
           (snd (Scenario.turn "name" (Some "Jane Doe"))) Scenario.start) in
  Str.Includes "Jane Doe" (Voice.promptOf reply) /\
  last (Simulator.transcript (Simulator.ui w))
  = Some (Simulator.agent, "Perfect, thank you. What day and time works best for your visit?") /\
  ~ Str.Includes "Jane Doe" "Perfect, thank you. What day and time works best for your visit?".
Proof.
  split; [|split].
  - apply includes_spec. vm_compute. reflexivity.
  - vm_compute. reflexivity.
  - intros H. apply includes_spec in H. vm_compute in H. discriminate.
Qed.

(** * Further properties of the handlers *)

(** ** The webhook: replies and bookings *)
Section VoiceTurns.
Import CallStateStore Voice.

Variable parseDateTime : string -> Z -> option Z.
Variable formatHumanReadable : string -> string.

Local Abbreviation handle := (Voice.handle parseDateTime formatHumanReadable).

Lemma entry_lookup request env w st :
  calls w !! callSidOf request env = Some st ->
  present (formFrom request) = false ->
  entry request env w = st.
Proof.
  intros Hst Hfrom. unfold entry. now rewrite Hfrom, (getCallState_present _ _ _ Hst).
Qed.

Lemma saved_entry_lookup request env w :
  saveCallState (entry request env w) (opened request env w) !! callSidOf request env
  = Some (entry request env w).
Proof.
  unfold saveCallState. rewrite lookup_insert. case_decide; [reflexivity|].
  apply opened_lookup.
Qed.

Lemma created_same w w' : appointments w' = appointments w -> created w w' = [].
Proof. unfold created. intros ->. now rewrite Nat.sub_diag. Qed.

Lemma created_cons w w' a : appointments w' = a :: appointments w -> created w w' = [a].
Proof.
  unfold created. intros ->.
  replace (length (a :: appointments w) - length (appointments w))%nat with 1%nat
    by (simpl; lia).
  reflexivity.
Qed.

Lemma cons_neq {A} (a : A) l : a :: l <> l.
Proof. intros H. apply (f_equal (@length A)) in H. simpl in H. lia. Qed.

(** What a turn does to the appointments, in terms of the state it works on. *)
Lemma handle_books_cases request env w :
  let e := entry request env w in
  let w' := fst (handle request env w) in
  appointments w' = appointments w \/
  exists name date speech,
    stepParam request = Some "reason" /\ speechResultOf request = Some speech /\
    customerName e = Some name /\ appointmentDateTime e = Some date /\
    name <> "" /\ date <> "" /\ speech <> "" /\
    calls w' !! callSidOf request env = None /\
    appointments w' =
      AppointmentsStore.mkAppointment (appointmentUUID env) (JStr name) (JStr date) (JStr speech)
        (JStr (default "Unknown" (contactNumber e)))
        (JStr ("AI assistant booked for " ++ name ++ " to discuss " ++ speech ++ "."))
        (Date.toISOString (now env)) :: appointments w.
Proof.
  intros e w'. subst e w'.
  destruct (String.eqb_spec (default "init" (stepParam request)) "init") as [Hinit|Hinit].
  { left. now rewrite handle_init. }
  destruct (speechResultOf request) as [speech|] eqn:Hs.
  2:{ left. now rewrite handle_silent. }
  destruct (stepParam request) as [st|] eqn:Hstep; [|now elim Hinit]. simpl in Hinit.
  destruct (String.eqb_spec st "name") as [->|Hname].
  { left. now rewrite (handle_name _ _ _ _ _ speech). }
  destruct (String.eqb_spec st "datetime") as [->|Hdt].
  { left. destruct (parseDateTime speech (now env)) as [parsed|] eqn:Hp.
    - now rewrite (handle_datetime_parsed _ _ _ _ _ speech parsed).
    - now rewrite (handle_datetime_unparsed _ _ _ _ _ speech). }
  destruct (String.eqb_spec st "reason") as [->|Hr].
  2:{ left. rewrite handle_unknown; [reflexivity | | | |]; rewrite Hstep; assumption. }
  destruct (present (customerName (entry request env w))
            && present (appointmentDateTime (entry request env w))) eqn:Hp.
  2:{ left. now rewrite (handle_reason_aborted _ _ _ _ _ speech). }
  apply andb_true_iff in Hp as [Hn Hd].
  apply present_Some in Hn as (name & Hn & Hn'), Hd as (date & Hd & Hd').
  right. exists name, date, speech.
  rewrite (handle_reason_booked _ _ _ _ _ speech name date) by assumption. simpl.
  repeat split; try assumption.
  - apply nonEmpty_true. eapply speechResultOf_nonEmpty, Hs.
  - apply lookup_delete_eq.
Qed.

(** X1.  The reply to a turn hangs up or asks for a step the handler knows:
    [init] leads to [name]; [name], [datetime] and [reason] lead to themselves
    (asking again) or to the step after them, the hang-up after [reason]; any
    other step is answered by the hang-up.  A reply that asks posts back to
    the origin of the request. *)
Theorem reply_names_allowed_step request env w :
  let reply := snd (handle request env w) in
  In (nextStep reply) (Runs.allowedNext (default "init" (stepParam request))) /\
  match reply with
  | gatherPrompt _ _ o => o = origin request
  | sayMessage _ => True
  end.
Proof.
  simpl. unfold Runs.allowedNext.
  destruct (String.eqb_spec (default "init" (stepParam request)) "init") as [Hinit|Hinit].
  { rewrite handle_init by exact Hinit. simpl. auto. }
  destruct (speechResultOf request) as [speech|] eqn:Hs.
  2:{ rewrite handle_silent by assumption. simpl.
      repeat case_match; simpl; auto. }
  destruct (stepParam request) as [st|] eqn:Hstep; [|now elim Hinit]. simpl in *.
  destruct (String.eqb_spec st "name") as [->|Hname].
  { rewrite (handle_name _ _ _ _ _ speech) by assumption. simpl. auto. }
  destruct (String.eqb_spec st "datetime") as [->|Hdt].
  { destruct (parseDateTime speech (now env)) as [parsed|] eqn:Hp.
    - rewrite (handle_datetime_parsed _ _ _ _ _ speech parsed) by assumption. simpl. auto.
    - rewrite (handle_datetime_unparsed _ _ _ _ _ speech) by assumption. simpl. auto. }
  destruct (String.eqb_spec st "reason") as [->|Hr].
  2:{ rewrite handle_unknown; [simpl; auto | | | |]; rewrite Hstep; assumption. }
  destruct (present (customerName (entry request env w))
            && present (appointmentDateTime (entry request env w))) eqn:Hp.
  2:{ rewrite (handle_reason_aborted _ _ _ _ _ speech) by assumption. simpl. auto. }
  apply andb_true_iff in Hp as [Hn Hd].
  apply present_Some in Hn as (name & Hn & Hn'), Hd as (date & Hd & Hd').
  rewrite (handle_reason_booked _ _ _ _ _ speech name date) by assumption. simpl. auto.
Qed.

(** X2.  A turn adds nothing to the appointments, or it is a [reason] turn
    with an utterance and adds exactly one appointment, in front: its name and
    date are the non-empty ones the call's state held, its reason is the
    non-empty utterance, its summary is made of name and reason, and the
    call's state is removed. *)
Theorem turn_books_one_complete_or_nothing request env w :
  let st := fst (getCallState (callSidOf request env) (calls w)) in
  let w' := fst (handle request env w) in
  appointments w' = appointments w \/
  exists name date speech a,
    stepParam request = Some "reason" /\ speechResultOf request = Some speech /\
    customerName st = Some name /\ appointmentDateTime st = Some date /\
    name <> "" /\ date <> "" /\ speech <> "" /\
    appointments w' = a :: appointments w /\
    AppointmentsStore.id a = appointmentUUID env /\
    AppointmentsStore.customerName a = JStr name /\
    AppointmentsStore.appointmentDateTime a = JStr date /\
    AppointmentsStore.reason a = JStr speech /\
    AppointmentsStore.callSummary a
      = JStr ("AI assistant booked for " ++ name ++ " to discuss " ++ speech ++ ".") /\
    AppointmentsStore.createdAt a = Date.toISOString (now env) /\
    calls w' !! callSidOf request env = None.
Proof.
  simpl.
  destruct (handle_books_cases request env w)
    as [Hsame | (name & date & speech & Hstep & Hs & Hn & Hd & Hn' & Hd' & Hs' & Hgone & Ha)].
  - left. exact Hsame.
  - right. rewrite entry_customerName in Hn. rewrite entry_appointmentDateTime in Hd.
    exists name, date, speech. eexists. repeat split; try eassumption; reflexivity.
Qed.

(** X3.  The contact number of an appointment a turn books is the caller
    number that turn carries when it carries a non-empty one, else the number
    the call's state has on record, else "Unknown". *)
Theorem booking_contact_number request env w a :
  appointments (fst (handle request env w)) = a :: appointments w ->
  AppointmentsStore.contactNumber a =
    JStr (if present (formFrom request) then default "" (formFrom request)
          else default "Unknown" (contactNumberOf (callSidOf request env) w)).
Proof.
  intros Hbooked.
  destruct (handle_books_cases request env w)
    as [Hsame | (name & date & speech & _ & _ & _ & _ & _ & _ & _ & _ & Ha)].
  - rewrite Hsame in Hbooked. symmetry in Hbooked. now apply cons_neq in Hbooked.
  - rewrite Ha in Hbooked. injection Hbooked as <-. simpl.
    unfold entry, contactNumberOf. now destruct (present (formFrom request)).
Qed.

(** X6.  A step other than [init], [name], [datetime] and [reason] is
    answered by the hang-up with the error message: nothing is booked and no
    call changes its phase. *)
Theorem unknown_step_hangs_up request env w step :
  stepParam request = Some step ->
  step <> "init" -> step <> "name" -> step <> "datetime" -> step <> "reason" ->
  let '(w', reply) := handle request env w in
  reply = sayMessage wentWrong /\
  appointments w' = appointments w /\
  forall id, phaseOf id (calls w') = phaseOf id (calls w).
Proof.
  intros Hstep H1 H2 H3 H4.
  rewrite handle_unknown by (rewrite Hstep; assumption).
  repeat split. intros id. apply opened_phaseOf.
Qed.

(** X7.  An [init] turn that carries no caller number leaves a call that
    already has a state exactly as it is: the whole store and the appointments
    are unchanged, whatever was collected stays, and the reply asks for the
    name.  For a call without a state it stores the initial one. *)
Theorem init_keeps_or_creates request env w :
  wf (calls w) ->
  default "init" (stepParam request) = "init" ->
  present (formFrom request) = false ->
  let id := callSidOf request env in
  let '(w', reply) := handle request env w in
  reply = gatherPrompt askName "name" (origin request) /\
  appointments w' = appointments w /\
  match calls w !! id with
  | Some st => calls w' = calls w
  | None => calls w' = <[id := initial id]> (calls w)
  end.
Proof.
  intros Hwf Hstep Hfrom. simpl.
  rewrite handle_init by exact Hstep. split; [reflexivity|]. split; [reflexivity|]. simpl.
  rewrite saved_entry_eq by exact Hwf. unfold opened, assign, entry. rewrite Hfrom.
  unfold getCallState. destruct (calls w !! callSidOf request env) as [st|] eqn:Hst; simpl.
  - now apply insert_id.
  - apply insert_insert_eq.
Qed.

End VoiceTurns.

(** ** The webhook: calls do not interfere *)
Section Isolation.
Import CallStateStore Voice.

Variable parseDateTime : string -> Z -> option Z.
Variable formatHumanReadable : string -> string.

Local Abbreviation handle := (Voice.handle parseDateTime formatHumanReadable).
Local Abbreviation run := (Voice.run parseDateTime formatHumanReadable).
Local Abbreviation bookedBy := (Voice.bookedBy parseDateTime formatHumanReadable).
Local Abbreviation repliesTo := (Runs.repliesTo parseDateTime formatHumanReadable).

Lemma entry_ext request env w1 w2 :
  calls w1 !! callSidOf request env = calls w2 !! callSidOf request env ->
  entry request env w1 = entry request env w2.
Proof. unfold entry, getCallState. intros ->. now destruct (calls w2 !! _). Qed.

(** What a turn does to its own call depends on that call's state only. *)
Lemma handle_local request env w1 w2 :
  calls w1 !! callSidOf request env = calls w2 !! callSidOf request env ->
  snd (handle request env w1) = snd (handle request env w2) /\
  calls (fst (handle request env w1)) !! callSidOf request env
  = calls (fst (handle request env w2)) !! callSidOf request env /\
  created w1 (fst (handle request env w1)) = created w2 (fst (handle request env w2)).
Proof.
  intros Heq. pose proof (entry_ext request env w1 w2 Heq) as He.
  destruct (String.eqb_spec (default "init" (stepParam request)) "init") as [Hinit|Hinit].
  { rewrite !handle_init by exact Hinit. simpl.
    rewrite !saved_entry_lookup, !created_same, He by reflexivity. auto. }
  destruct (speechResultOf request) as [speech|] eqn:Hs.
  2:{ rewrite !handle_silent by assumption. simpl.
      rewrite !opened_lookup, !created_same, He by reflexivity. auto. }
  destruct (stepParam request) as [st|] eqn:Hstep; [|now elim Hinit]. simpl in Hinit.
  destruct (String.eqb_spec st "name") as [->|Hname].
  { rewrite !(handle_name _ _ _ _ _ speech) by assumption. simpl.
    rewrite !saved_lookup, !created_same, He by reflexivity. auto. }
  destruct (String.eqb_spec st "datetime") as [->|Hdt].
  { destruct (parseDateTime speech (now env)) as [parsed|] eqn:Hp.
    - rewrite !(handle_datetime_parsed _ _ _ _ _ speech parsed) by assumption. simpl.
      rewrite !saved_lookup, !created_same, He by reflexivity. auto.
    - rewrite !(handle_datetime_unparsed _ _ _ _ _ speech) by assumption. simpl.
      rewrite !opened_lookup, !created_same, He by reflexivity. auto. }
  destruct (String.eqb_spec st "reason") as [->|Hr].
  2:{ rewrite !handle_unknown by (rewrite Hstep; assumption). simpl.
      rewrite !opened_lookup, !created_same, He by reflexivity. auto. }
  destruct (present (customerName (entry request env w2))
            && present (appointmentDateTime (entry request env w2))) eqn:Hp.
  2:{ rewrite !(handle_reason_aborted _ _ _ _ _ speech) by (try rewrite He; assumption). simpl.
      rewrite !saved_lookup, !created_same, He by reflexivity. auto. }
  apply andb_true_iff in Hp as [Hn Hd].
  apply present_Some in Hn as (name & Hn & Hn'), Hd as (date & Hd & Hd').
  rewrite !(handle_reason_booked _ _ _ _ _ speech name date) by (try rewrite He; assumption).
  simpl. unfold clearCallState. rewrite !lookup_delete_eq, He.
  erewrite !created_cons by reflexivity. auto.
Qed.

Lemma run_cons request env rest w :
  fst (run ((request, env) :: rest) w) = fst (run rest (fst (handle request env w))).
Proof.
  simpl. destruct (handle request env w) as [w1 reply]. simpl.
  now destruct (run rest w1).
Qed.

Lemma run_wf turns : forall w, wf (calls w) -> wf (calls (fst (run turns w))).
Proof.
  induction turns as [|[request env] rest IH]; intros w Hwf; [exact Hwf|].
  rewrite run_cons. now apply IH, handle_wf.
Qed.

Lemma isolation_from id turns :
  forall w1 w2,
    wf (calls w1) -> calls w1 !! id = calls w2 !! id ->
    calls (fst (run turns w1)) !! id = calls (fst (run (Runs.ownTurns id turns) w2)) !! id /\
    bookedBy id turns w1 = bookedBy id (Runs.ownTurns id turns) w2 /\
    repliesTo id turns w1 = repliesTo id (Runs.ownTurns id turns) w2.
Proof.
  induction turns as [|[request env] rest IH]; intros w1 w2 Hwf Heq.
  - simpl. auto.
  - rewrite run_cons. unfold Runs.ownTurns. cbn [List.filter fst snd].
    fold (Runs.ownTurns id rest).
    destruct (String.eqb_spec (callSidOf request env) id) as [Hid|Hid].
    + rewrite run_cons. cbn [Voice.bookedBy Runs.repliesTo].
      rewrite <- Hid in Heq.
      destruct (handle_local request env w1 w2 Heq) as (Hreply & Hcalls & Hcreated).
      rewrite Hid in Hcalls.
      destruct (IH (fst (handle request env w1)) (fst (handle request env w2))
                  (handle_wf _ _ request env w1 Hwf) Hcalls) as (IH1 & IH2 & IH3).
      destruct (handle request env w1) as [w1' r1], (handle request env w2) as [w2' r2].
      simpl in *. apply String.eqb_eq in Hid. rewrite Hid.
      repeat split; [exact IH1 | now rewrite Hcreated, IH2 | now rewrite Hreply, IH3].
    + cbn [Voice.bookedBy Runs.repliesTo].
      assert (Hframe : calls (fst (handle request env w1)) !! id = calls w2 !! id)
        by (rewrite <- Heq; now apply handle_frame).
      destruct (IH (fst (handle request env w1)) w2
                  (handle_wf _ _ request env w1 Hwf) Hframe) as (IH1 & IH2 & IH3).
      destruct (handle request env w1) as [w1' r1]. simpl in *.
      apply String.eqb_neq in Hid. rewrite Hid. simpl. auto.
Qed.

(** X4.  Calls do not interfere.  From a store in which every state is kept
    under its own identifier (the empty one, and every store the handler
    makes of it), whatever turns of other calls are interleaved, call [id]
    ends with the same state, gets the same replies and books the same
    appointments as when its own turns are run alone. *)
Theorem calls_do_not_interfere id turns w :
  wf (calls w) ->
  calls (fst (run turns w)) !! id = calls (fst (run (Runs.ownTurns id turns) w)) !! id /\
  bookedBy id turns w = bookedBy id (Runs.ownTurns id turns) w /\
  repliesTo id turns w = repliesTo id (Runs.ownTurns id turns) w.
Proof. intros Hwf. now apply isolation_from. Qed.

End Isolation.

Lemma booking_contact_number_witness :
  let request :=
    Voice.mkRequest (Some "reason") "https://clinic.example" (Some "CA1") (Some "+15550100")
      (Some "annual checkup") None in
  let env := snd (Scenario.turn "reason" None) in
  exists a,
    Voice.appointments (fst (Scenario.handleVoice request env Scenario.afterDatetime)) = [a] /\
    AppointmentsStore.contactNumber a = JStr "+15550100".
Proof.
  eexists. split; [vm_compute; reflexivity|].
  apply (booking_contact_number DateParser.parseDateTime DateParser.formatHumanReadable
           (Voice.mkRequest (Some "reason") "https://clinic.example" (Some "CA1")
              (Some "+15550100") (Some "annual checkup") None)
           (snd (Scenario.turn "reason" None)) Scenario.afterDatetime).
  vm_compute. reflexivity.
Defined.

Lemma unknown_step_hangs_up_witness :
  let '(w', reply) :=
    Scenario.handleVoice (fst (Scenario.turn "confirm" (Some "yes")))
      (snd (Scenario.turn "confirm" (Some "yes"))) Scenario.afterName in
  reply = Voice.sayMessage Voice.wentWrong /\
  Voice.appointments w' = Voice.appointments Scenario.afterName /\
  forall id,
    CallStateStore.phaseOf id (Voice.calls w')
    = CallStateStore.phaseOf id (Voice.calls Scenario.afterName).
Proof.
  apply (unknown_step_hangs_up DateParser.parseDateTime DateParser.formatHumanReadable
           (fst (Scenario.turn "confirm" (Some "yes")))
           (snd (Scenario.turn "confirm" (Some "yes"))) Scenario.afterName "confirm");
    first [ reflexivity | discriminate ].
Defined.

Lemma init_keeps_or_creates_witness :
  let '(w', reply) :=
    Scenario.handleVoice (fst (Scenario.turn "init" None)) (snd (Scenario.turn "init" None))
      Scenario.afterDatetime in
  reply = Voice.gatherPrompt Voice.askName "name" "https://clinic.example" /\
  Voice.appointments w' = Voice.appointments Scenario.afterDatetime /\
  Voice.calls w' = Voice.calls Scenario.afterDatetime.
Proof.
  assert (Hwf : CallStateStore.wf (Voice.calls Scenario.afterDatetime)).
  { apply run_wf, wf_empty. }
  pose proof (init_keeps_or_creates DateParser.parseDateTime DateParser.formatHumanReadable
                (fst (Scenario.turn "init" None)) (snd (Scenario.turn "init" None))
                Scenario.afterDatetime Hwf eq_refl eq_refl) as H.
  unfold Scenario.handleVoice.
  destruct (Voice.handle _ _ _ _ _) as [w' reply].
  destruct H as (Hr & Ha & Hc). repeat split; [exact Hr | exact Ha |].
  replace (Voice.calls Scenario.afterDatetime !! Voice.callSidOf (fst (Scenario.turn "init" None))
             (snd (Scenario.turn "init" None)))
    with (Some (CallStateStore.mkCallState "CA1" CallStateStore.collecting_reason
                  (Some "Jane Doe") (Some "2026-11-03T15:00:00.000Z") None None)) in Hc
    by (vm_compute; reflexivity).
  exact Hc.
Defined.


Lemma calls_do_not_interfere_witness :
  let env := Voice.mkEnv "uuid-call" "uuid-appointment" Scenario.sunday in
  let other step speech :=
    (Voice.mkRequest (Some step) "https://clinic.example" (Some "CA2") (Some "+15550199")
       speech None, env) in
  let turns :=
    [Scenario.turn "init" None; other "init" None; other "name" (Some "Bob Ray");
     Scenario.turn "name" (Some "Jane Doe"); other "name" (Some "Jane Doe");
     Scenario.turn "datetime" (Some "next Tuesday at 3 PM"); other "reason" (Some "flu");
     Scenario.turn "reason" (Some "annual checkup")] in
  Runs.ownTurns "CA1" turns = Scenario.janeDoe /\
  Voice.bookedBy DateParser.parseDateTime DateParser.formatHumanReadable "CA1" turns
    Scenario.start
  = Voice.bookedBy DateParser.parseDateTime DateParser.formatHumanReadable "CA1"
      (Runs.ownTurns "CA1" turns) Scenario.start /\
  Runs.repliesTo DateParser.parseDateTime DateParser.formatHumanReadable "CA1" turns
    Scenario.start
  = Runs.repliesTo DateParser.parseDateTime DateParser.formatHumanReadable "CA1"
      (Runs.ownTurns "CA1" turns) Scenario.start.
Proof.
  split; [reflexivity|].
  apply (calls_do_not_interfere DateParser.parseDateTime DateParser.formatHumanReadable "CA1"
           _ Scenario.start wf_empty).
Defined.

(** ** The webhook: a whole call *)
Section WholeCall.
Import CallStateStore Voice Lockstep.

Variable parseDateTime : string -> Z -> option Z.
Variable formatHumanReadable : string -> string.
Variables (callSid origin : string).

Local Abbreviation voiceTurn := (Lockstep.voiceTurn parseDateTime formatHumanReadable callSid origin).
Local Abbreviation voiceStart := (Lockstep.voiceStart parseDateTime formatHumanReadable callSid origin).

Lemma voiceStart_state env vw :
  let c := voiceStart env vw in
  awaiting c = Some "name" /\
  calls (world c) !! callSid = Some (fst (getCallState callSid (calls vw))) /\
  appointments (world c) = appointments vw.
Proof.
  unfold Lockstep.voiceStart. rewrite handle_init by reflexivity. simpl.
  split; [reflexivity|]. split; [|reflexivity].
  match goal with |- saveCallState (entry ?r ?e ?w) _ !! _ = _ =>
    apply (saved_entry_lookup r e w) end.
Qed.

Lemma voiceTurn_name u env c st :
  awaiting c = Some "name" -> calls (world c) !! callSid = Some st ->
  Str.nonEmpty (Str.trim u) = true ->
  let c' := voiceTurn u env c in
  awaiting c' = Some "datetime" /\
  calls (world c') !! callSid
  = Some (set_phase collecting_datetime (set_customerName (Str.trim u) st)) /\
  appointments (world c') = appointments (world c).
Proof.
  intros Ha Hst Hu. unfold Lockstep.voiceTurn. rewrite Ha.
  rewrite (handle_name _ _ _ _ _ (Str.trim u));
    [| reflexivity | now rewrite speech_of_utterance, Hu].
  simpl. split; [reflexivity|]. split; [|reflexivity].
  match goal with |- saveCallState _ (assign _ _ (opened ?r ?e ?w)) !! _ = _ =>
    rewrite (saved_lookup r e w), (entry_lookup r e w st Hst eq_refl) end.
  reflexivity.
Qed.

Lemma voiceTurn_datetime u env c st parsed :
  awaiting c = Some "datetime" -> calls (world c) !! callSid = Some st ->
  Str.nonEmpty (Str.trim u) = true ->
  parseDateTime (Str.trim u) (Simulator.now env) = Some parsed ->
  let c' := voiceTurn u env c in
  awaiting c' = Some "reason" /\
  calls (world c') !! callSid
  = Some (set_phase collecting_reason (set_appointmentDateTime (Date.toISOString parsed) st)) /\
  appointments (world c') = appointments (world c).
Proof.
  intros Ha Hst Hu Hp. unfold Lockstep.voiceTurn. rewrite Ha.
  rewrite (handle_datetime_parsed _ _ _ _ _ (Str.trim u) parsed);
    [| reflexivity | now rewrite speech_of_utterance, Hu | exact Hp].
  simpl. split; [reflexivity|]. split; [|reflexivity].
  match goal with |- saveCallState _ (assign _ _ (opened ?r ?e ?w)) !! _ = _ =>
    rewrite (saved_lookup r e w), (entry_lookup r e w st Hst eq_refl) end.
  reflexivity.
Qed.

Lemma voiceTurn_reason u env c st name date :
  awaiting c = Some "reason" -> calls (world c) !! callSid = Some st ->
  customerName st = Some name -> name <> "" ->
  appointmentDateTime st = Some date -> date <> "" ->
  Str.nonEmpty (Str.trim u) = true ->
  let c' := voiceTurn u env c in
  awaiting c' = None /\
  calls (world c') !! callSid = None /\
  appointments (world c') =
    AppointmentsStore.mkAppointment (Simulator.serverUUID env) (JStr name) (JStr date)
      (JStr (Str.trim u)) (JStr (default "Unknown" (contactNumber st)))
      (JStr ("AI assistant booked for " ++ name ++ " to discuss " ++ Str.trim u ++ "."))
      (Date.toISOString (Simulator.now env)) :: appointments (world c).
Proof.
  intros Ha Hst Hn Hn' Hd Hd' Hu. unfold Lockstep.voiceTurn. rewrite Ha.
  set (request := Voice.mkRequest (Some "reason") origin (Some callSid) None (Some u) None).
  pose proof (entry_lookup request (voiceEnv env) (world c) st Hst eq_refl) as He.
  rewrite (handle_reason_booked _ _ _ _ _ (Str.trim u) name date);
    [| reflexivity | unfold request; now rewrite speech_of_utterance, Hu
     | now rewrite He | assumption | now rewrite He | assumption ].
  simpl. rewrite He. split; [reflexivity|]. split; [|reflexivity].
  apply lookup_delete_eq.
Qed.

(** X5.  A whole call.  Answered by [init] and driven through the steps the
    replies name, a call in which the caller says a non-empty name, a phrase
    the parser accepts and a non-empty reason ends hung up, its state
    removed, with exactly one appointment added: the trimmed name, the parsed
    instant as an ISO string, the trimmed reason, the contact number the call
    had on record (else "Unknown"), the synthesized summary. *)
Theorem whole_call_books_once vw env0 u1 env1 u2 env2 u3 env3 parsed :
  Str.trim u1 <> "" ->
  Str.trim u2 <> "" ->
  parseDateTime (Str.trim u2) (Simulator.now env2) = Some parsed ->
  Str.trim u3 <> "" ->
  let c :=
    Runs.voiceRun parseDateTime formatHumanReadable callSid origin
      [(u1, env1); (u2, env2); (u3, env3)] (voiceStart env0 vw) in
  awaiting c = None /\
  calls (world c) !! callSid = None /\
  appointments (world c) =
    AppointmentsStore.mkAppointment (Simulator.serverUUID env3) (JStr (Str.trim u1))
      (JStr (Date.toISOString parsed)) (JStr (Str.trim u3))
      (JStr (default "Unknown" (contactNumberOf callSid vw)))
      (JStr ("AI assistant booked for " ++ Str.trim u1 ++ " to discuss " ++ Str.trim u3 ++ "."))
      (Date.toISOString (Simulator.now env3)) :: appointments vw.
Proof.
  intros H1 H2 Hp H3. apply nonEmpty_true in H1, H2, H3. simpl.
  destruct (voiceStart_state env0 vw) as (Ha0 & Hs0 & Hb0).
  destruct (voiceTurn_name u1 env1 _ _ Ha0 Hs0 H1) as (Ha1 & Hs1 & Hb1).
  destruct (voiceTurn_datetime u2 env2 _ _ parsed Ha1 Hs1 H2 Hp) as (Ha2 & Hs2 & Hb2).
  destruct (voiceTurn_reason u3 env3 _ _ (Str.trim u1) (Date.toISOString parsed) Ha2 Hs2)
    as (Ha3 & Hs3 & Hb3); try reflexivity; try assumption.
  - now apply nonEmpty_true.
  - apply nonEmpty_true, toISOString_nonEmpty.
  - split; [exact Ha3|]. split; [exact Hs3|].
    rewrite Hb3, Hb2, Hb1, Hb0. reflexivity.
Qed.

End WholeCall.

Lemma whole_call_books_once_witness :
  let env := Simulator.mkEnv Scenario.sunday true true "uuid-1" Scenario.sunday in
  let c :=
    Runs.voiceRun DateParser.parseDateTime DateParser.formatHumanReadable "CA1"
      "https://clinic.example"
      [(" Jane Doe", env); ("next Tuesday at 3 PM", env); ("annual checkup ", env)]
      (Lockstep.voiceStart DateParser.parseDateTime DateParser.formatHumanReadable "CA1"
         "https://clinic.example" env Scenario.start) in
  Lockstep.awaiting c = None /\
  Voice.calls (Lockstep.world c) !! "CA1" = None /\
  Voice.appointments (Lockstep.world c) =
    [AppointmentsStore.mkAppointment "uuid-1" (JStr "Jane Doe")
       (JStr "2026-11-03T15:00:00.000Z") (JStr "annual checkup") (JStr "Unknown")
       (JStr "AI assistant booked for Jane Doe to discuss annual checkup.")
       "2026-11-01T10:00:00.000Z"].
Proof.
  pose proof (whole_call_books_once DateParser.parseDateTime DateParser.formatHumanReadable
                "CA1" "https://clinic.example" Scenario.start
                (Simulator.mkEnv Scenario.sunday true true "uuid-1" Scenario.sunday)
                " Jane Doe" (Simulator.mkEnv Scenario.sunday true true "uuid-1" Scenario.sunday)
                "next Tuesday at 3 PM"
                (Simulator.mkEnv Scenario.sunday true true "uuid-1" Scenario.sunday)
                "annual checkup "
                (Simulator.mkEnv Scenario.sunday true true "uuid-1" Scenario.sunday)
                1793718000000) as H.
  destruct H as (Ha & Hc & Hb);
    [ vm_compute; discriminate | vm_compute; discriminate | vm_compute; reflexivity
    | vm_compute; discriminate |].
  split; [exact Ha|]. split; [exact Hc|]. rewrite Hb. vm_compute. reflexivity.
Defined.

(** ** The webhook's [GET] *)
Section Redirect.
Import VoiceGet.

Lemma without_without name params : without name (without name params) = without name params.
Proof.
  unfold without. induction params as [|[k v] rest IH]; [reflexivity|]. simpl.
  destruct (String.eqb k name) eqn:E; simpl; [exact IH|]. rewrite E. simpl. now rewrite IH.
Qed.

Lemma get_without_same name params : get name (without name params) = None.
Proof.
  unfold without. induction params as [|[k v] rest IH]; [reflexivity|]. simpl.
  destruct (String.eqb k name) eqn:E; simpl; [exact IH|]. now rewrite E.
Qed.

Lemma get_without_other name other params :
  other <> name -> get other (without name params) = get other params.
Proof.
  intros Hne. unfold without. induction params as [|[k v] rest IH]; [reflexivity|]. simpl.
  destruct (String.eqb_spec k name) as [Hk|Hk]; simpl;
    destruct (String.eqb_spec k other) as [Ho|Ho];
    try congruence; try reflexivity; exact IH.
Qed.

Lemma get_set_same name value params : get name (set name value params) = Some value.
Proof.
  induction params as [|[k v] rest IH]; simpl.
  - now rewrite String.eqb_refl.
  - destruct (String.eqb k name) eqn:E; simpl.
    + now rewrite String.eqb_refl.
    + now rewrite E.
Qed.

Lemma get_set_other name other value params :
  other <> name -> get other (set name value params) = get other params.
Proof.
  intros Hne. induction params as [|[k v] rest IH]; simpl.
  - destruct (String.eqb_spec name other); [congruence | reflexivity].
  - destruct (String.eqb_spec k name) as [Hk|Hk]; simpl.
    + destruct (String.eqb_spec name other) as [Ho|Ho]; [congruence|].
      destruct (String.eqb_spec k other) as [Ho'|Ho']; [congruence|].
      now apply get_without_other.
    + destruct (String.eqb_spec k other); [reflexivity | exact IH].
Qed.

Lemma without_set name value params :
  without name (set name value params) = without name params.
Proof.
  unfold without. induction params as [|[k v] rest IH]; simpl.
  - now rewrite String.eqb_refl.
  - destruct (String.eqb k name) eqn:E; simpl; rewrite ?String.eqb_refl, ?E; simpl.
    + exact (without_without name rest).
    + now rewrite IH.
Qed.

Lemma none_named name params :
  List.filter (fun p => String.eqb (fst p) name) (without name params) = [].
Proof.
  unfold without. induction params as [|[k v] rest IH]; [reflexivity|]. simpl.
  destruct (String.eqb k name) eqn:E; simpl; rewrite ?E; exact IH.
Qed.

Lemma named_once name value params :
  length (List.filter (fun p => String.eqb (fst p) name) (set name value params)) = 1%nat.
Proof.
  induction params as [|[k v] rest IH]; simpl.
  - now rewrite String.eqb_refl.
  - destruct (String.eqb k name) eqn:E; simpl; rewrite ?String.eqb_refl, ?E; simpl.
    + now rewrite none_named.
    + exact IH.
Qed.

(** X8.  The URL [GET] redirects to has exactly one [step] parameter, with
    the value [init], whatever step parameters the request had; origin, path
    and every other query parameter are the request's.  The form posted to
    that URL is therefore taken as an [init] turn: the reply asks for the
    name. *)
Theorem get_redirects_to_init nextUrl :
  let url := redirectUrl nextUrl in
  get "step" (searchParams url) = Some "init" /\
  length (List.filter (fun p => String.eqb (fst p) "step") (searchParams url)) = 1%nat /\
  without "step" (searchParams url) = without "step" (searchParams nextUrl) /\
  (forall name, name <> "step" ->
     get name (searchParams url) = get name (searchParams nextUrl)) /\
  urlOrigin url = urlOrigin nextUrl /\ pathname url = pathname nextUrl /\
  (forall parseDateTime formatHumanReadable callSid from speech digits env w,
     snd (Voice.handle parseDateTime formatHumanReadable
            (postTo url callSid from speech digits) env w)
     = Voice.gatherPrompt Voice.askName "name" (urlOrigin nextUrl)) /\
  (forall href, Str.Includes (href url) (Voice.body (GET href nextUrl))).
Proof.
  simpl. repeat split.
  - apply get_set_same.
  - apply named_once.
  - apply without_set.
  - intros name Hne. now apply get_set_other.
  - intros. rewrite handle_init; [reflexivity|]. simpl. now rewrite get_set_same.
  - intros href. unfold GET. simpl.
    repeat first [ apply Includes_prefix | apply Includes_app_r ].
Qed.

End Redirect.

(** ** The appointment endpoint: when it creates *)
Section EndpointCases.
Import AppointmentsStore AppointmentsRoute.

(** X9.  [POST] answers 201 exactly when the body parses to a truthy value
    whose summary is given or can be synthesized (the customer's name
    converts to a string).  With a 201 the appointment returned is added in
    front of the store and is the first [GET] lists, followed by the earlier
    ones; with a 400 the store is unchanged. *)
Theorem post_creates_iff body uuid now store :
  let '(store', reply) := POST body uuid now store in
  (status reply = 201 <->
   exists payload,
     body = Parsed payload /\ Js.truthy payload = true /\
     (Js.orElse (Js.getProp payload "callSummary") JNull = JNull ->
      Js.toString (Js.orElse (Js.getProp payload "customerName") (JStr "client")) <> None)) /\
  match reply with
  | Created a => store' = a :: store /\ GET store' = a :: GET store
  | BadRequest _ => store' = store /\ GET store' = GET store
  end.
Proof.
  destruct body as [payload|message]; unfold POST.
  2:{ simpl. split; [|split; reflexivity]. split; [discriminate|]. intros (p & Hp & _). discriminate. }
  destruct (Js.truthy payload) eqn:Ht; simpl.
  2:{ split; [|split; reflexivity]. split; [discriminate|].
      intros (p & [= <-] & Hp & _). congruence. }
  destruct (Js.getProp payload "callSummary") as [[]|] eqn:Hs;
    destruct (Js.toString (Js.orElse (Js.getProp payload "customerName") (JStr "client")))
      as [name|] eqn:Hn; simpl.
  all: first
    [ split;
      [ split;
        [ intros _; exists payload; split;
          [ reflexivity
          | split; [exact Ht | rewrite Hs, ?Hn; simpl; intros; congruence ] ]
        | reflexivity ]
      | split; reflexivity ]
    | split;
      [ split;
        [ discriminate
        | intros (p & Hp & _ & Himp); injection Hp as <-;
          rewrite Hs, Hn in Himp; simpl in Himp; now elim (Himp eq_refl) ]
      | split; reflexivity ] ].
Qed.

(** X10.  A truthy body that is not an object (a number, [true], a
    non-empty string, an array) has none of the fields: it creates an
    appointment made of the defaults only. *)
Theorem post_non_object payload uuid now store :
  Js.truthy payload = true ->
  (forall fields, payload <> JObj fields) ->
  POST (Parsed payload) uuid now store =
    (mkAppointment uuid (JStr "") (JStr "") (JStr "") (JStr "Unknown")
       (JStr "Conversation booked for client.") (Date.toISOString now) :: store,
     Created (mkAppointment uuid (JStr "") (JStr "") (JStr "") (JStr "Unknown")
                (JStr "Conversation booked for client.") (Date.toISOString now))).
Proof.
  intros Ht Hobj. unfold POST. rewrite Ht.
  destruct payload; try reflexivity. now elim (Hobj fields).
Qed.

End EndpointCases.

Lemma post_non_object_witness :
  AppointmentsRoute.POST (AppointmentsRoute.Parsed (JArr [JNum 1; JStr "x"]))
    "uuid-1" Scenario.sunday []
  = ([AppointmentsStore.mkAppointment "uuid-1" (JStr "") (JStr "") (JStr "") (JStr "Unknown")
        (JStr "Conversation booked for client.") (Date.toISOString Scenario.sunday)],
     AppointmentsRoute.Created
       (AppointmentsStore.mkAppointment "uuid-1" (JStr "") (JStr "") (JStr "") (JStr "Unknown")
          (JStr "Conversation booked for client.") (Date.toISOString Scenario.sunday))).
Proof.
  apply (post_non_object (JArr [JNum 1; JStr "x"]) "uuid-1" Scenario.sunday [] eq_refl).
  intros fields. discriminate.
Defined.

(** ** The simulator: submissions and whole calls *)
Section SimulatorTurns.
Import Simulator Lockstep.

Variable parseDateTime : string -> Z -> option Z.
Variable formatHumanReadable : string -> string.

Local Abbreviation submit := (handleSubmitResponse parseDateTime formatHumanReadable).
Local Abbreviation simTurn := (Lockstep.simTurn parseDateTime formatHumanReadable).
Local Abbreviation simRun := (Runs.simRun parseDateTime formatHumanReadable).

(** The appointment a reason submission asks the endpoint for. *)
Local Abbreviation requested env f text :=
  (AppointmentsStore.mkAppointment (serverUUID env)
     (JStr (default "Caller" (name f)))
     (JStr (default (Date.toISOString (now env)) (requestedSlot f)))
     (JStr text)
     (JStr (default "N/A" (phoneNumber f)))
     (JStr ("AI agent booked " ++ default "caller" (name f) ++ " for " ++ text ++ "."))
     (Date.toISOString (serverNow env))).

(** X11.  A reason submitted while the endpoint answers always books: the
    payload carries all five fields, so the endpoint never rejects it.  The
    appointment has the form's name (else "Caller"), slot (else the current
    instant) and phone number (else "N/A"), the typed reason and the
    summary made of name and reason; the call is completed at the confirm
    step, and the list shown is refreshed from the server when that second
    request is answered too, else left as it was. *)
Theorem submission_books_form env w :
  callActive (ui w) = true -> isSubmitting (ui w) = false ->
  Str.nonEmpty (Str.trim (pendingResponse (ui w))) = true ->
  activeStep (ui w) = Some "reason" ->
  postAnswered env = true ->
  let text := Str.trim (pendingResponse (ui w)) in
  let a := requested env (form (ui w)) text in
  let w' := submit env w in
  server w' = a :: server w /\
  callCompleted (ui w') = true /\ isSubmitting (ui w') = false /\
  currentStepIdx (ui w') = 3 /\ timers (ui w') = timers (ui w) /\
  appointments (ui w') = (if getAnswered env then a :: server w else appointments (ui w)) /\
  reason (form (ui w')) = Some text /\ pendingResponse (ui w') = "".
Proof.
  unfold handleSubmitResponse. intros Ha -> -> -> ->. rewrite Ha. simpl.
  unfold fetchAppointments. destruct (getAnswered env); simpl; repeat split.
Qed.

(** X12.  A reason submitted while the endpoint does not answer books
    nothing: the server and the list shown are unchanged, the call is not
    marked completed, the last message is the one about the issue, and the
    dialogue is at the confirm step all the same. *)
Theorem unanswered_submission_books_nothing env w :
  callActive (ui w) = true -> isSubmitting (ui w) = false ->
  Str.nonEmpty (Str.trim (pendingResponse (ui w))) = true ->
  activeStep (ui w) = Some "reason" ->
  postAnswered env = false ->
  let w' := submit env w in
  server w' = server w /\
  appointments (ui w') = appointments (ui w) /\
  callCompleted (ui w') = callCompleted (ui w) /\ isSubmitting (ui w') = false /\
  currentStepIdx (ui w') = 3 /\ timers (ui w') = timers (ui w) /\
  last (transcript (ui w'))
  = Some (agent,
          "There was an issue locking in the appointment, but I captured your details. A team member will follow up shortly.").
Proof.
  unfold handleSubmitResponse. intros Ha -> -> -> ->. rewrite Ha. simpl.
  repeat split. apply last_snoc.
Qed.

Lemma fireAll_scheduled s text :
  timers s = [] ->
  fireAll (length (timers (setTimeout (sayLater text) s))) (setTimeout (sayLater text) s)
  = pushTranscript agent text s.
Proof. destruct s. simpl. intros ->. reflexivity. Qed.

Lemma simTurn_blank u env w :
  Runs.atRest w -> Str.nonEmpty (Str.trim u) = false ->
  simTurn u env w
  = mkWorld (setError (Some "Please provide a response before continuing.")
               (setPendingResponse u (ui w))) (server w).
Proof.
  intros (Ha & Hs & Ht) Hu. unfold Lockstep.simTurn.
  rewrite submit_empty; [| exact Ha | exact Hs | exact Hu]. simpl. now rewrite Ht.
Qed.

Lemma simTurn_greeting u env w :
  Runs.atRest w -> currentStepIdx (ui w) = 0 -> Str.nonEmpty (Str.trim u) = true ->
  simTurn u env w
  = mkWorld
      (pushTranscript agent (promptAt 1)
         (setCurrentStepIdx 1
            (setForm (fun prev => mkForm (Some (Str.trim u)) (requestedSlot prev)
                                    (reason prev) (phoneNumber prev))
               (accepted (setPendingResponse u (ui w))))))
      (server w).
Proof.
  intros (Ha & Hs & Ht) Hi Hu. unfold Lockstep.simTurn.
  rewrite submit_greeting;
    [| exact Ha | exact Hs | exact Hu | unfold activeStep; simpl; now rewrite Hi].
  cbn [ui server]. now rewrite fireAll_scheduled.
Qed.

Lemma simTurn_datetime u env w parsed :
  Runs.atRest w -> currentStepIdx (ui w) = 1 -> Str.nonEmpty (Str.trim u) = true ->
  parseDateTime (Str.trim u) (now env) = Some parsed ->
  simTurn u env w
  = mkWorld
      (pushTranscript agent (promptAt 2)
         (setCurrentStepIdx 2
            (setForm (fun prev => mkForm (name prev) (Some (Date.toISOString parsed))
                                    (reason prev) (phoneNumber prev))
               (accepted (setPendingResponse u (ui w))))))
      (server w).
Proof.
  intros (Ha & Hs & Ht) Hi Hu Hp. unfold Lockstep.simTurn.
  rewrite (submit_datetime_parsed _ _ _ _ parsed);
    [| exact Ha | exact Hs | exact Hu | unfold activeStep; simpl; now rewrite Hi | exact Hp].
  cbn [ui server]. now rewrite fireAll_scheduled.
Qed.

Lemma simTurn_datetime_unparsed u env w :
  Runs.atRest w -> currentStepIdx (ui w) = 1 -> Str.nonEmpty (Str.trim u) = true ->
  parseDateTime (Str.trim u) (now env) = None ->
  simTurn u env w
  = mkWorld
      (pushTranscript agent
         "Apologies, I couldn't recognise that time. Could you rephrase it, for example next Tuesday at 3 PM?"
         (accepted (setPendingResponse u (ui w))))
      (server w).
Proof.
  intros (Ha & Hs & Ht) Hi Hu Hp. unfold Lockstep.simTurn.
  rewrite submit_datetime_unparsed;
    [| exact Ha | exact Hs | exact Hu | unfold activeStep; simpl; now rewrite Hi | exact Hp].
  simpl. now rewrite Ht.
Qed.

Lemma simTurn_reason u env w :
  Runs.atRest w -> currentStepIdx (ui w) = 2 -> Str.nonEmpty (Str.trim u) = true ->
  let w' := simTurn u env w in
  Runs.atRest w' /\ currentStepIdx (ui w') = 3 /\
  server w' = (if postAnswered env
               then requested env (form (ui w)) (Str.trim u) :: server w
               else server w).
Proof.
  intros (Ha & Hs & Ht) Hi Hu. unfold Lockstep.simTurn, Runs.atRest.
  set (typed := mkWorld (setPendingResponse u (ui w)) (server w)).
  assert (Hstep : activeStep (ui typed) = Some "reason")
    by (unfold activeStep; simpl; now rewrite Hi).
  destruct (postAnswered env) eqn:Hpost.
  - destruct (submission_books_form env typed Ha Hs Hu Hstep Hpost)
      as (Hsrv & _ & Hsub & Hidx & Htim & _).
    simpl in Htim. rewrite Htim, Ht. simpl.
    destruct (submit_reason_stage parseDateTime formatHumanReadable env typed Ha Hs Hu Hstep)
      as (_ & Hact & _ & _).
    rewrite Hact, Hsub, Htim, Hidx, Hsrv. auto.
  - destruct (unanswered_submission_books_nothing env typed Ha Hs Hu Hstep Hpost)
      as (Hsrv & _ & _ & Hsub & Hidx & Htim & _).
    simpl in Htim. rewrite Htim, Ht. simpl.
    destruct (submit_reason_stage parseDateTime formatHumanReadable env typed Ha Hs Hu Hstep)
      as (_ & Hact & _ & _).
    rewrite Hact, Hsub, Htim, Hidx, Hsrv. auto.
Qed.

Lemma simTurn_confirm u env w :
  Runs.atRest w -> currentStepIdx (ui w) = 3 -> Str.nonEmpty (Str.trim u) = true ->
  simTurn u env w = mkWorld (accepted (setPendingResponse u (ui w))) (server w).
Proof.
  intros (Ha & Hs & Ht) Hi Hu. unfold Lockstep.simTurn.
  rewrite submit_other;
    [| exact Ha | exact Hs | exact Hu
     | unfold activeStep; simpl; rewrite Hi; discriminate
     | unfold activeStep; simpl; rewrite Hi; discriminate
     | unfold activeStep; simpl; rewrite Hi; discriminate ].
  simpl. now rewrite Ht.
Qed.

Lemma simStart_state w0 :
  isSubmitting (ui w0) = false -> timers (ui w0) = [] ->
  let w := simStart w0 in
  Runs.atRest w /\ currentStepIdx (ui w) = 0 /\ server w = server w0 /\
  form (ui w) = mkForm None None None (Some (callerNumber (ui w0))) /\
  transcript (ui w) = [(agent, promptAt 0)].
Proof.
  intros Hs Ht. unfold simStart, beginCall, resetCall, setForm, setTimeout, Runs.atRest.
  simpl. rewrite Ht. simpl. rewrite Hs. repeat split.
Qed.

End SimulatorTurns.

Section SimulatorCalls.
Import Simulator Lockstep.

Variable parseDateTime : string -> Z -> option Z.
Variable formatHumanReadable : string -> string.

Local Abbreviation simTurn := (Lockstep.simTurn parseDateTime formatHumanReadable).
Local Abbreviation simRun := (Runs.simRun parseDateTime formatHumanReadable).

Lemma simTurn_greeting_state u env w :
  Runs.atRest w -> currentStepIdx (ui w) = 0 -> Str.nonEmpty (Str.trim u) = true ->
  let w' := simTurn u env w in
  Runs.atRest w' /\ currentStepIdx (ui w') = 1 /\ server w' = server w /\
  form (ui w') = mkForm (Some (Str.trim u)) (requestedSlot (form (ui w)))
                   (reason (form (ui w))) (phoneNumber (form (ui w))).
Proof.
  intros Hrest Hi Hu. pose proof Hrest as (Ha & Hs & Ht). cbv zeta.
  rewrite simTurn_greeting by assumption. unfold Runs.atRest. simpl. auto.
Qed.

Lemma simTurn_datetime_state u env w parsed :
  Runs.atRest w -> currentStepIdx (ui w) = 1 -> Str.nonEmpty (Str.trim u) = true ->
  parseDateTime (Str.trim u) (now env) = Some parsed ->
  let w' := simTurn u env w in
  Runs.atRest w' /\ currentStepIdx (ui w') = 2 /\ server w' = server w /\
  form (ui w') = mkForm (name (form (ui w))) (Some (Date.toISOString parsed))
                   (reason (form (ui w))) (phoneNumber (form (ui w))).
Proof.
  intros Hrest Hi Hu Hp. pose proof Hrest as (Ha & Hs & Ht). cbv zeta.
  rewrite (simTurn_datetime _ _ u env w parsed) by assumption.
  unfold Runs.atRest. simpl. auto.
Qed.

(** One submission keeps the browser at rest and moves the step by at most
    one; the server is only reached from the reason step. *)
Lemma simTurn_progress u env w :
  Runs.atRest w -> 0 <= currentStepIdx (ui w) <= 3 ->
  let w' := simTurn u env w in
  Runs.atRest w' /\
  ((currentStepIdx (ui w') = currentStepIdx (ui w) /\ server w' = server w) \/
   (currentStepIdx (ui w) < 2 /\ currentStepIdx (ui w') = currentStepIdx (ui w) + 1 /\
    server w' = server w) \/
   (currentStepIdx (ui w) = 2 /\ currentStepIdx (ui w') = 3 /\
    (server w' = server w \/ exists a, server w' = a :: server w))).
Proof.
  intros Hrest Hrange. pose proof Hrest as (Ha & Hs & Ht). cbv zeta.
  destruct (Str.nonEmpty (Str.trim u)) eqn:Hu.
  2:{ rewrite simTurn_blank by assumption. unfold Runs.atRest. simpl. auto. }
  assert (Hi : currentStepIdx (ui w) = 0 \/ currentStepIdx (ui w) = 1 \/
               currentStepIdx (ui w) = 2 \/ currentStepIdx (ui w) = 3) by lia.
  destruct Hi as [Hi | [Hi | [Hi | Hi]]].
  - rewrite simTurn_greeting by assumption. unfold Runs.atRest. simpl.
    rewrite Hi. split; [auto|]. right; left. repeat split; lia.
  - destruct (parseDateTime (Str.trim u) (now env)) as [parsed|] eqn:Hp.
    + rewrite (simTurn_datetime _ _ u env w parsed) by assumption.
      unfold Runs.atRest. simpl. rewrite Hi. split; [auto|]. right; left. repeat split; lia.
    + rewrite simTurn_datetime_unparsed by assumption. unfold Runs.atRest. simpl. auto.
  - destruct (simTurn_reason parseDateTime formatHumanReadable u env w Hrest Hi Hu)
      as (Hrest' & Hi' & Hsrv).
    split; [exact Hrest'|]. right; right. split; [exact Hi|]. split; [exact Hi'|].
    rewrite Hsrv. destruct (postAnswered env); eauto.
  - rewrite simTurn_confirm by assumption. unfold Runs.atRest. simpl. auto.
Qed.

Lemma simRun_books_at_most_once srv utterances :
  forall w,
    Runs.atRest w ->
    (0 <= currentStepIdx (ui w) <= 2 /\ server w = srv) \/
    (currentStepIdx (ui w) = 3 /\ (server w = srv \/ exists a, server w = a :: srv)) ->
    let w' := simRun utterances w in
    server w' = srv \/ (currentStepIdx (ui w') = 3 /\ exists a, server w' = a :: srv).
Proof.
  induction utterances as [|[u env] rest IH]; intros w Hrest Hinv; simpl.
  - destruct Hinv as [[_ Hs] | [Hi [Hs | Hs]]]; auto.
  - destruct (simTurn_progress u env w Hrest) as (Hrest' & Hstep).
    { destruct Hinv as [[Hi _] | [Hi _]]; lia. }
    apply IH; [exact Hrest'|].
    destruct Hinv as [[Hi Hs] | [Hi Hs]];
      destruct Hstep as [[Hi' Hs'] | [(Hlt & Hi' & Hs') | (H2 & Hi' & Hs')]];
      rewrite ?Hs' in *; rewrite ?Hs in *; try lia.
    + left. split; [lia | reflexivity].
    + left. split; [lia | reflexivity].
    + right. split; [exact Hi' | exact Hs'].
    + right. split; [lia | exact Hs].
Qed.

(** X13.  A simulated call books at most once.  From the start of a call,
    whatever is typed and sent and whatever the endpoint answers, the server
    holds what it held or exactly one appointment more, and it holds one more
    only when the dialogue has reached the confirm step. *)
Theorem simulated_call_books_at_most_once utterances w0 :
  isSubmitting (ui w0) = false -> timers (ui w0) = [] ->
  let w := simRun utterances (simStart w0) in
  server w = server w0 \/
  (currentStepIdx (ui w) = 3 /\ exists a, server w = a :: server w0).
Proof.
  intros Hs Ht.
  destruct (simStart_state w0 Hs Ht) as (Hrest & Hi & Hsrv & _).
  apply simRun_books_at_most_once; [exact Hrest|]. left. split; [lia | exact Hsrv].
Qed.

(** X14.  A whole simulated call.  Started with the caller number [n] in the
    caller-ID field, a call in which a non-empty name, a phrase the parser
    accepts and a non-empty reason are sent, the endpoint answering, adds
    exactly one appointment to the server: the trimmed name, the parsed
    instant as an ISO string, the trimmed reason, the number [n], and the
    summary made of name and reason. *)
Theorem simulated_call_books w0 u1 env1 u2 env2 u3 env3 parsed :
  isSubmitting (ui w0) = false -> timers (ui w0) = [] ->
  Str.trim u1 <> "" ->
  Str.trim u2 <> "" ->
  parseDateTime (Str.trim u2) (now env2) = Some parsed ->
  Str.trim u3 <> "" ->
  postAnswered env3 = true ->
  let w := simRun [(u1, env1); (u2, env2); (u3, env3)] (simStart w0) in
  server w =
    AppointmentsStore.mkAppointment (serverUUID env3) (JStr (Str.trim u1))
      (JStr (Date.toISOString parsed)) (JStr (Str.trim u3))
      (JStr (callerNumber (ui w0)))
      (JStr ("AI agent booked " ++ Str.trim u1 ++ " for " ++ Str.trim u3 ++ "."))
      (Date.toISOString (serverNow env3)) :: server w0 /\
  currentStepIdx (ui w) = 3.
Proof.
  intros Hs Ht H1 H2 Hp H3 Hpost. apply nonEmpty_true in H1, H2, H3.
  cbv zeta. cbn [Runs.simRun].
  destruct (simStart_state w0 Hs Ht) as (Hrest0 & Hi0 & Hsrv0 & Hform0 & _).
  set (start := simStart w0) in *. clearbody start.
  destruct (simTurn_greeting_state u1 env1 start Hrest0 Hi0 H1)
    as (Hrest1 & Hi1 & Hsrv1 & Hform1).
  set (w1 := simTurn u1 env1 start) in *. clearbody w1.
  destruct (simTurn_datetime_state u2 env2 w1 parsed Hrest1 Hi1 H2 Hp)
    as (Hrest2 & Hi2 & Hsrv2 & Hform2).
  set (w2 := simTurn u2 env2 w1) in *. clearbody w2.
  destruct (simTurn_reason parseDateTime formatHumanReadable u3 env3 w2 Hrest2 Hi2 H3)
    as (_ & Hi3 & Hsrv3).
  split; [|exact Hi3].
  rewrite Hsrv3, Hpost, Hform2, Hform1, Hform0, Hsrv2, Hsrv1, Hsrv0. reflexivity.
Qed.

(** X15.  [resetCall] and [beginCall] cancel no scheduled prompt: a prompt
    still scheduled when the call is restarted is spoken into the new call's
    transcript, before its greeting or after it, whichever of the two
    callbacks comes due first. *)
Theorem restart_keeps_scheduled_prompt s text i :
  timers s = [sayLater text] ->
  (i < 2)%nat ->
  let s' := fireAt 0 (fireAt i (beginCall s)) in
  transcript s' =
    match i with
    | O => [(agent, text); (agent, promptAt 0)]
    | S _ => [(agent, promptAt 0); (agent, text)]
    end /\
  In (agent, text) (transcript s') /\
  currentStepIdx s' = 0 /\ timers s' = [] /\
  form s' = mkForm None None None (Some (callerNumber s)).
Proof.
  destruct s as [apps tr act num idx pend f done sub err tm]. simpl. intros -> Hi.
  destruct i as [|[|i]]; [| |lia]; cbv zeta; repeat split; simpl; auto.
Qed.

End SimulatorCalls.

(** ** The two adapters book the same data *)
Section SameData.
Import Lockstep.

Variable parseDateTime : string -> Z -> option Z.
Variable formatHumanReadable : string -> string.

(** X16.  For the same three utterances (a non-empty name, a phrase the
    parser accepts, a non-empty reason) and the same clock, the webhook and
    the simulator each add one appointment, and the two agree on the
    customer's name, the date and the reason; their summaries are worded
    differently. *)
Theorem adapters_book_same_data callSid origin vw w0 env0 u1 env1 u2 env2 u3 env3 parsed :
  Simulator.isSubmitting (Simulator.ui w0) = false ->
  Simulator.timers (Simulator.ui w0) = [] ->
  Str.trim u1 <> "" ->
  Str.trim u2 <> "" ->
  parseDateTime (Str.trim u2) (Simulator.now env2) = Some parsed ->
  Str.trim u3 <> "" ->
  Simulator.postAnswered env3 = true ->
  let utterances := [(u1, env1); (u2, env2); (u3, env3)] in
  let c :=
    Runs.voiceRun parseDateTime formatHumanReadable callSid origin utterances
      (voiceStart parseDateTime formatHumanReadable callSid origin env0 vw) in
  let w := Runs.simRun parseDateTime formatHumanReadable utterances (simStart w0) in
  exists av asim,
    Voice.appointments (world c) = av :: Voice.appointments vw /\
    Simulator.server w = asim :: Simulator.server w0 /\
    AppointmentsStore.customerName av = AppointmentsStore.customerName asim /\
    AppointmentsStore.appointmentDateTime av = AppointmentsStore.appointmentDateTime asim /\
    AppointmentsStore.reason av = AppointmentsStore.reason asim /\
    AppointmentsStore.callSummary av <> AppointmentsStore.callSummary asim.
Proof.
  intros Hs Ht H1 H2 Hp H3 Hpost utterances c w. subst utterances c w.
  apply nonEmpty_true in H1, H2, H3. cbn [Runs.voiceRun Runs.simRun].
  (* the webhook *)
  destruct (voiceStart_state parseDateTime formatHumanReadable callSid origin env0 vw)
    as (Ha0 & Hc0 & Hb0).
  destruct (voiceTurn_name parseDateTime formatHumanReadable callSid origin
              u1 env1 _ _ Ha0 Hc0 H1) as (Ha1 & Hc1 & Hb1).
  destruct (voiceTurn_datetime parseDateTime formatHumanReadable callSid origin
              u2 env2 _ _ parsed Ha1 Hc1 H2 Hp) as (Ha2 & Hc2 & Hb2).
  destruct (voiceTurn_reason parseDateTime formatHumanReadable callSid origin
              u3 env3 _ _ (Str.trim u1) (Date.toISOString parsed) Ha2 Hc2)
    as (_ & _ & Hb3);
    [ reflexivity | now apply nonEmpty_true | reflexivity
    | apply nonEmpty_true, toISOString_nonEmpty | exact H3 |].
  rewrite Hb2, Hb1, Hb0 in Hb3.
  (* the simulator *)
  destruct (simStart_state w0 Hs Ht) as (Hrest0 & Hi0 & Hsrv0 & Hform0 & _).
  set (start := simStart w0) in *. clearbody start.
  destruct (simTurn_greeting_state parseDateTime formatHumanReadable u1 env1 start
              Hrest0 Hi0 H1) as (Hrest1 & Hi1 & Hsrv1 & Hform1).
  set (w1 := Lockstep.simTurn parseDateTime formatHumanReadable u1 env1 start) in *.
  clearbody w1.
  destruct (simTurn_datetime_state parseDateTime formatHumanReadable u2 env2 w1 parsed
              Hrest1 Hi1 H2 Hp) as (Hrest2 & Hi2 & Hsrv2 & Hform2).
  set (w2 := Lockstep.simTurn parseDateTime formatHumanReadable u2 env2 w1) in *.
  clearbody w2.
  destruct (simTurn_reason parseDateTime formatHumanReadable u3 env3 w2 Hrest2 Hi2 H3)
    as (_ & _ & Hsrv3).
  rewrite Hpost, Hform2, Hform1, Hform0, Hsrv2, Hsrv1, Hsrv0 in Hsrv3.
  do 2 eexists. split; [exact Hb3|]. split; [exact Hsrv3|].
  simpl. repeat split.
  intros Hsame. injection Hsame as Hsame. rewrite ?append_cons in Hsame. discriminate Hsame.
Qed.

End SameData.

Lemma submission_books_form_witness :
  let s :=
    Simulator.mkState [] [] true "+1 555 010 1987" 2 " annual checkup "
      (Simulator.mkForm (Some "Jane Doe") (Some "2026-11-03T15:00:00.000Z") None None)
      false false None [] in
  let env := Simulator.mkEnv Scenario.sunday true false "uuid-1" Scenario.sunday in
  let w' :=
    Simulator.handleSubmitResponse DateParser.parseDateTime DateParser.formatHumanReadable
      env (Simulator.mkWorld s []) in
  Simulator.server w' =
    [AppointmentsStore.mkAppointment "uuid-1" (JStr "Jane Doe")
       (JStr "2026-11-03T15:00:00.000Z") (JStr "annual checkup") (JStr "N/A")
       (JStr "AI agent booked Jane Doe for annual checkup.") "2026-11-01T10:00:00.000Z"] /\
  Simulator.callCompleted (Simulator.ui w') = true /\
  Simulator.appointments (Simulator.ui w') = [].
Proof.
  destruct (submission_books_form DateParser.parseDateTime DateParser.formatHumanReadable
              (Simulator.mkEnv Scenario.sunday true false "uuid-1" Scenario.sunday)
              (Simulator.mkWorld
                 (Simulator.mkState [] [] true "+1 555 010 1987" 2 " annual checkup "
                    (Simulator.mkForm (Some "Jane Doe") (Some "2026-11-03T15:00:00.000Z")
                       None None)
                    false false None [])
                 [])
              eq_refl eq_refl eq_refl eq_refl eq_refl)
    as (Hsrv & Hdone & _ & _ & _ & Hlist & _).
  split; [|split; [exact Hdone | exact Hlist]].
  rewrite Hsrv. vm_compute. reflexivity.
Defined.

Lemma unanswered_submission_books_nothing_witness :
  let s :=
    Simulator.mkState [] [] true "+1 555 010 1987" 2 "annual checkup"
      (Simulator.mkForm (Some "Jane Doe") (Some "2026-11-03T15:00:00.000Z") None None)
      false false None [] in
  let env := Simulator.mkEnv Scenario.sunday false false "uuid-1" Scenario.sunday in
  let w' :=
    Simulator.handleSubmitResponse DateParser.parseDateTime DateParser.formatHumanReadable
      env (Simulator.mkWorld s []) in
  Simulator.server w' = [] /\
  Simulator.callCompleted (Simulator.ui w') = false /\
  Simulator.currentStepIdx (Simulator.ui w') = 3.
Proof.
  destruct (unanswered_submission_books_nothing
              DateParser.parseDateTime DateParser.formatHumanReadable
              (Simulator.mkEnv Scenario.sunday false false "uuid-1" Scenario.sunday)
              (Simulator.mkWorld
                 (Simulator.mkState [] [] true "+1 555 010 1987" 2 "annual checkup"
                    (Simulator.mkForm (Some "Jane Doe") (Some "2026-11-03T15:00:00.000Z")
                       None None)
                    false false None [])
                 [])
              eq_refl eq_refl eq_refl eq_refl eq_refl)
    as (Hsrv & _ & Hdone & _ & Hidx & _).
  split; [exact Hsrv|]. split; [exact Hdone | exact Hidx].
Defined.

Lemma simulated_call_books_at_most_once_witness :
  let env := Simulator.mkEnv Scenario.sunday true true "uuid-1" Scenario.sunday in
  let w :=
    Runs.simRun DateParser.parseDateTime DateParser.formatHumanReadable
      [("Jane Doe", env); ("", env); ("next Tuesday at 3 PM", env); ("annual checkup", env);
       ("annual checkup", env); ("once more", env)]
      (Lockstep.simStart (Simulator.mkWorld (Simulator.initialState []) [])) in
  length (Simulator.server w) = 1%nat /\
  (Simulator.server w = [] \/
   (Simulator.currentStepIdx (Simulator.ui w) = 3 /\
    exists a, Simulator.server w = [a])).
Proof.
  split; [vm_compute; reflexivity|].
  apply (simulated_call_books_at_most_once DateParser.parseDateTime
           DateParser.formatHumanReadable
           [("Jane Doe", Simulator.mkEnv Scenario.sunday true true "uuid-1" Scenario.sunday);
            ("", Simulator.mkEnv Scenario.sunday true true "uuid-1" Scenario.sunday);
            ("next Tuesday at 3 PM",
             Simulator.mkEnv Scenario.sunday true true "uuid-1" Scenario.sunday);
            ("annual checkup", Simulator.mkEnv Scenario.sunday true true "uuid-1" Scenario.sunday);
            ("annual checkup", Simulator.mkEnv Scenario.sunday true true "uuid-1" Scenario.sunday);
            ("once more", Simulator.mkEnv Scenario.sunday true true "uuid-1" Scenario.sunday)]
           (Simulator.mkWorld (Simulator.initialState []) []));
    reflexivity.
Defined.

Lemma simulated_call_books_witness :
  let env := Simulator.mkEnv Scenario.sunday true true "uuid-1" Scenario.sunday in
  let w :=
    Runs.simRun DateParser.parseDateTime DateParser.formatHumanReadable
      [("Jane Doe", env); ("next Tuesday at 3 PM", env); ("annual checkup", env)]
      (Lockstep.simStart (Simulator.mkWorld (Simulator.initialState []) [])) in
  Simulator.server w =
    [AppointmentsStore.mkAppointment "uuid-1" (JStr "Jane Doe")
       (JStr "2026-11-03T15:00:00.000Z") (JStr "annual checkup") (JStr "+1 555 010 1987")
       (JStr "AI agent booked Jane Doe for annual checkup.") "2026-11-01T10:00:00.000Z"] /\
  Simulator.currentStepIdx (Simulator.ui w) = 3.
Proof.
  destruct (simulated_call_books DateParser.parseDateTime DateParser.formatHumanReadable
              (Simulator.mkWorld (Simulator.initialState []) [])
              "Jane Doe" (Simulator.mkEnv Scenario.sunday true true "uuid-1" Scenario.sunday)
              "next Tuesday at 3 PM"
              (Simulator.mkEnv Scenario.sunday true true "uuid-1" Scenario.sunday)
              "annual checkup"
              (Simulator.mkEnv Scenario.sunday true true "uuid-1" Scenario.sunday)
              1793718000000) as (Hsrv & Hidx);
    [ reflexivity | reflexivity | vm_compute; discriminate | vm_compute; discriminate
    | vm_compute; reflexivity | vm_compute; discriminate | reflexivity |].
  split; [|exact Hidx]. rewrite Hsrv. vm_compute. reflexivity.
Defined.

Lemma restart_keeps_scheduled_prompt_witness :
  let env := Simulator.mkEnv Scenario.sunday true true "uuid-1" Scenario.sunday in
  let sent :=
    Simulator.ui
      (Simulator.handleSubmitResponse DateParser.parseDateTime DateParser.formatHumanReadable env
         (Simulator.mkWorld
            (Simulator.setPendingResponse "Jane Doe"
               (Simulator.ui
                  (Lockstep.simStart (Simulator.mkWorld (Simulator.initialState []) []))))
            [])) in
  Simulator.transcript (Simulator.fireAt 0 (Simulator.fireAt 1 (Simulator.beginCall sent)))
  = [(Simulator.agent, Simulator.promptAt 0);
     (Simulator.agent, "Perfect, thank you. What day and time works best for your visit?")] /\
  Simulator.transcript (Simulator.fireAt 0 (Simulator.fireAt 0 (Simulator.beginCall sent)))
  = [(Simulator.agent, "Perfect, thank you. What day and time works best for your visit?");
     (Simulator.agent, Simulator.promptAt 0)].
Proof.
  pose proof (restart_keeps_scheduled_prompt
                (Simulator.ui
                   (Simulator.handleSubmitResponse DateParser.parseDateTime
                      DateParser.formatHumanReadable
                      (Simulator.mkEnv Scenario.sunday true true "uuid-1" Scenario.sunday)
                      (Simulator.mkWorld
                         (Simulator.setPendingResponse "Jane Doe"
                            (Simulator.ui
                               (Lockstep.simStart
                                  (Simulator.mkWorld (Simulator.initialState []) []))))
                         [])))
                "Perfect, thank you. What day and time works best for your visit?")
    as H.
  pose proof (H 1%nat eq_refl ltac:(lia)) as (Hquick & _).
  pose proof (H 0%nat eq_refl ltac:(lia)) as (Hlate & _).
  split; [exact Hquick | exact Hlate].
Defined.

Lemma adapters_book_same_data_witness :
  let env := Simulator.mkEnv Scenario.sunday true true "uuid-1" Scenario.sunday in
  let utterances := [("Jane Doe", env); ("next Tuesday at 3 PM", env); ("annual checkup", env)] in
  let c :=
    Runs.voiceRun DateParser.parseDateTime DateParser.formatHumanReadable "CA1"
      "https://clinic.example" utterances
      (Lockstep.voiceStart DateParser.parseDateTime DateParser.formatHumanReadable "CA1"
         "https://clinic.example" env Scenario.start) in
  let w :=
    Runs.simRun DateParser.parseDateTime DateParser.formatHumanReadable utterances
      (Lockstep.simStart (Simulator.mkWorld (Simulator.initialState []) [])) in
  exists av asim,
    Voice.appointments (Lockstep.world c) = av :: Voice.appointments Scenario.start /\
    Simulator.server w = [asim] /\
    AppointmentsStore.customerName av = AppointmentsStore.customerName asim /\
    AppointmentsStore.appointmentDateTime av = AppointmentsStore.appointmentDateTime asim /\
    AppointmentsStore.reason av = AppointmentsStore.reason asim /\
    AppointmentsStore.callSummary av <> AppointmentsStore.callSummary asim.
Proof.
  apply (adapters_book_same_data DateParser.parseDateTime DateParser.formatHumanReadable
           "CA1" "https://clinic.example" Scenario.start
           (Simulator.mkWorld (Simulator.initialState []) [])
           (Simulator.mkEnv Scenario.sunday true true "uuid-1" Scenario.sunday)
           "Jane Doe" (Simulator.mkEnv Scenario.sunday true true "uuid-1" Scenario.sunday)
           "next Tuesday at 3 PM"
           (Simulator.mkEnv Scenario.sunday true true "uuid-1" Scenario.sunday)
           "annual checkup"
           (Simulator.mkEnv Scenario.sunday true true "uuid-1" Scenario.sunday)
           1793718000000);
    first [ reflexivity | vm_compute; discriminate | vm_compute; reflexivity ].
Defined.

(** ** The webhook: dialled digits *)
Section Digits.
Import Voice.

Variable parseDateTime : string -> Z -> option Z.
Variable formatHumanReadable : string -> string.

(** X17.  Dialled digits stand in for speech.  A turn whose transcribed
    speech is missing or blank is handled exactly as the turn whose speech is
    what was dialled: same stores, same reply. *)
Theorem digits_stand_in_for_speech request env w :
  ensureSpeechResult (formSpeechResult request) = None ->
  Voice.handle parseDateTime formatHumanReadable request env w
  = Voice.handle parseDateTime formatHumanReadable
      (mkRequest (stepParam request) (origin request) (formCallSid request)
         (formFrom request) (formDigits request) None)
      env w.
Proof.
  intros Hblank. unfold Voice.handle, speechResultOf, callSidOf. simpl. rewrite Hblank.
  destruct (ensureSpeechResult (formDigits request)); reflexivity.
Qed.

End Digits.

Lemma digits_stand_in_for_speech_witness :
  let env := snd (Scenario.turn "name" None) in
  Scenario.handleVoice
    (Voice.mkRequest (Some "name") "https://clinic.example" (Some "CA1") None
       (Some "   ") (Some "4 2"))
    env Scenario.start
  = Scenario.handleVoice
      (Voice.mkRequest (Some "name") "https://clinic.example" (Some "CA1") None
         (Some "4 2") None)
      env Scenario.start /\
  Voice.promptOf
    (snd (Scenario.handleVoice
            (Voice.mkRequest (Some "name") "https://clinic.example" (Some "CA1") None
               (Some "   ") (Some "4 2"))
            env Scenario.start))
  = "Thanks 4 2. What day and time would you like to book the appointment for?".
Proof.
  split; [|vm_compute; reflexivity].
  apply (digits_stand_in_for_speech DateParser.parseDateTime DateParser.formatHumanReadable
           (Voice.mkRequest (Some "name") "https://clinic.example" (Some "CA1") None
              (Some "   ") (Some "4 2"))
           (snd (Scenario.turn "name" None)) Scenario.start).
  reflexivity.
Defined.

(** ** C9: the reason step and the requested slot *)
Section Reachable.
Import Simulator Reach.

Variable parseDateTime : string -> Z -> option Z.
Variable formatHumanReadable : string -> string.

Local Abbreviation submit := (handleSubmitResponse parseDateTime formatHumanReadable).
Local Abbreviation act := (Reach.act parseDateTime formatHumanReadable).
Local Abbreviation perform := (Reach.perform parseDateTime formatHumanReadable).

Lemma activeStep_reason s : activeStep s = Some "reason" -> currentStepIdx s = 2.
Proof.
  unfold activeStep. destruct (0 <=? currentStepIdx s) eqn:Hpos; [|discriminate].
  apply Z.leb_le in Hpos.
  destruct (Z.to_nat (currentStepIdx s)) as [|[|[|[|n]]]] eqn:Hn; simpl; try discriminate;
    [intros _; lia | destruct n; discriminate].
Qed.

(** Sending changes the server only from the reason step, by one appointment
    whose date is the slot on the form, or the current instant without one. *)
Lemma submit_books_cases env w :
  server (submit env w) = server w \/
  (activeStep (ui w) = Some "reason" /\
   exists a,
     server (submit env w) = a :: server w /\
     AppointmentsStore.appointmentDateTime a
     = JStr (default (Date.toISOString (now env)) (requestedSlot (form (ui w))))).
Proof.
  unfold handleSubmitResponse.
  destruct (negb (callActive (ui w)) || isSubmitting (ui w)); [now left|].
  destruct (Str.nonEmpty (Str.trim (pendingResponse (ui w)))); simpl; [|now left].
  destruct (bool_decide (activeStep (ui w) = Some "greeting")); [now left|].
  destruct (bool_decide (activeStep (ui w) = Some "datetime")).
  { destruct (parseDateTime _ _); now left. }
  destruct (bool_decide (activeStep (ui w) = Some "reason")) eqn:Hr; [|now left].
  apply bool_decide_eq_true in Hr.
  destruct (postAnswered env); [|now left].
  right. split; [exact Hr|]. unfold fetchAppointments.
  destruct (getAnswered env); simpl; eexists; split; reflexivity.
Qed.

Lemma submit_slotted env w : slotted (ui w) -> slotted (ui (submit env w)).
Proof.
  intros Hinv. unfold handleSubmitResponse.
  destruct (negb (callActive (ui w)) || isSubmitting (ui w)); [exact Hinv|].
  destruct (Str.nonEmpty (Str.trim (pendingResponse (ui w)))); simpl; [|exact Hinv].
  destruct (bool_decide (activeStep (ui w) = Some "greeting")).
  { intros [H|H]; simpl in H; discriminate. }
  destruct (bool_decide (activeStep (ui w) = Some "datetime")).
  { destruct (parseDateTime _ _) as [parsed|]; [|exact Hinv].
    intros _. simpl. eauto. }
  destruct (bool_decide (activeStep (ui w) = Some "reason")) eqn:Hr; [|exact Hinv].
  apply bool_decide_eq_true, activeStep_reason in Hr.
  assert (Hslot : exists slot, requestedSlot (form (ui w)) = Some slot) by (apply Hinv; now left).
  unfold fetchAppointments.
  destruct (postAnswered env); [destruct (getAnswered env)|]; simpl; intros _; exact Hslot.
Qed.

Lemma act_slotted a w : slotted (ui w) -> slotted (ui (act a w)).
Proof.
  intros Hinv. destruct a as [| | i | text | env]; simpl.
  - intros [H|H]; simpl in H; discriminate.
  - intros [H|H]; simpl in H; discriminate.
  - unfold fireAt. destruct (nth_error (timers (ui w)) i) as [[|text]|]; [| |exact Hinv].
    + intros [H|H]; simpl in H; discriminate.
    + exact Hinv.
  - exact Hinv.
  - now apply submit_slotted.
Qed.

Lemma perform_slotted actions : forall w, slotted (ui w) -> slotted (ui (perform actions w)).
Proof.
  induction actions as [|a rest IH]; intros w Hinv; [exact Hinv|].
  simpl. now apply IH, act_slotted.
Qed.


End Reachable.


